(** * StudySwap: the commerce core of the marketplace

    A shallow embedding of the handlers of [main.py] that write to the
    database (accounts, catalogue, cart, checkout, downloads, reviews,
    favourites) together with the tables of [models.py] they read and write.
    Of the pages that only read, the cart counter, the seller page and the
    order page are included; the listing and search pages are left out.

    Conventions.
    - A table is the list of its rows in insertion (row id) order; [first()]
      is the first matching row and [all()] keeps that order.  [User.cart]
      and [User.favorite_materials] carry no [ORDER BY]: here a collection
      lists its materials in the order of the rows of its association table.
    - Integer columns are [Z].  [Float] columns (prices, totals, earnings,
      ratings) are exact rationals [Q]: sums are folded in the order in which
      Python's [sum] visits the rows, starting from [0].  Rationals are
      finite and exact: rounding, and the infinities and NaN a form field can
      carry, are not modelled.
    - [current_user] is the [User] row [load_user] finds for the session;
      clock readings, the uuid drawn by checkout, the password hashing and
      the outcome of the upload plumbing are inputs of the handlers.
    - Columns that only feed the templates are left out of the records. *)

From Stdlib Require Import List ZArith QArith Lqa Lia Bool String Ascii Permutation.
Import ListNotations.

Local Open Scope Z_scope.

(** ** Rows of [models.py] *)

Module User.
Record t := mk {
  id : Z;
  username : string;
  email : string;
  password_hash : string;
  first_name : option string;
  last_name : option string;
  university : option string;
  bio : option string;
  is_seller : bool;
  is_admin : bool;
  last_login : option Z;
  total_earnings : Q }.

Definition with_profile (fn ln un bi : option string) (u : t) : t :=
  mk (id u) (username u) (email u) (password_hash u) fn ln un bi
     (is_seller u) (is_admin u) (last_login u) (total_earnings u).

Definition with_is_seller (b : bool) (u : t) : t :=
  mk (id u) (username u) (email u) (password_hash u) (first_name u) (last_name u)
     (university u) (bio u) b (is_admin u) (last_login u) (total_earnings u).

Definition with_last_login (now : Z) (u : t) : t :=
  mk (id u) (username u) (email u) (password_hash u) (first_name u) (last_name u)
     (university u) (bio u) (is_seller u) (is_admin u) (Some now) (total_earnings u).

Definition with_total_earnings (e : Q) (u : t) : t :=
  mk (id u) (username u) (email u) (password_hash u) (first_name u) (last_name u)
     (university u) (bio u) (is_seller u) (is_admin u) (last_login u) e.
End User.

Module StudyMaterial.
Record t := mk {
  id : Z;
  title : string;
  description : string;
  price : Q;
  file_path : string;
  file_type : string;
  views : Z;
  downloads : Z;
  rating : Q;
  rating_count : Z;
  is_active : bool;
  seller_id : Z }.

Definition with_content (ti de : string) (p : Q) (m : t) : t :=
  mk (id m) ti de p (file_path m) (file_type m) (views m) (downloads m)
     (rating m) (rating_count m) (is_active m) (seller_id m).

Definition with_views (v : Z) (m : t) : t :=
  mk (id m) (title m) (description m) (price m) (file_path m) (file_type m)
     v (downloads m) (rating m) (rating_count m) (is_active m) (seller_id m).

Definition with_downloads (d : Z) (m : t) : t :=
  mk (id m) (title m) (description m) (price m) (file_path m) (file_type m)
     (views m) d (rating m) (rating_count m) (is_active m) (seller_id m).

Definition with_rating (r : Q) (c : Z) (m : t) : t :=
  mk (id m) (title m) (description m) (price m) (file_path m) (file_type m)
     (views m) (downloads m) r c (is_active m) (seller_id m).

Definition with_is_active (b : bool) (m : t) : t :=
  mk (id m) (title m) (description m) (price m) (file_path m) (file_type m)
     (views m) (downloads m) (rating m) (rating_count m) b (seller_id m).
End StudyMaterial.

Module Review.
Record t := mk {
  id : Z;
  rating : Z;
  comment : option string;
  material_id : Z;
  reviewer_id : Z;
  seller_id : Z }.
End Review.

(** [Order.status]: the column comment lists the three values. *)
Inductive order_status := pending | completed | refunded.

Definition order_status_eqb (a b : order_status) : bool :=
  match a, b with
  | pending, pending | completed, completed | refunded, refunded => true
  | _, _ => false
  end.

Module Order.
Record t := mk {
  id : Z;
  order_number : string;
  total_amount : Q;
  status : order_status;
  payment_method : option string;
  completed_at : option Z;
  buyer_id : Z }.
End Order.

Module OrderItem.
Record t := mk {
  id : Z;
  price : Q;
  order_id : Z;
  material_id : Z;
  download_count : Z;
  last_download : option Z }.

Definition record_download (now : Z) (oi : t) : t :=
  mk (id oi) (price oi) (order_id oi) (material_id oi)
     (download_count oi + 1) (Some now).
End OrderItem.

(** ** The store *)

(** The committed contents of the database.  [cart_items] and [favorites]
    are the association tables of [User.cart] and [User.favorite_materials]:
    rows [(user_id, material_id)]. *)
Record database := mkDb {
  users : list User.t;
  materials : list StudyMaterial.t;
  reviews : list Review.t;
  orders : list Order.t;
  order_items : list OrderItem.t;
  cart_items : list (Z * Z);
  favorites : list (Z * Z) }.

Definition with_users (us : list User.t) (s : database) : database :=
  mkDb us (materials s) (reviews s) (orders s) (order_items s) (cart_items s)
       (favorites s).

Definition with_materials (ms : list StudyMaterial.t) (s : database) : database :=
  mkDb (users s) ms (reviews s) (orders s) (order_items s) (cart_items s)
       (favorites s).

Definition with_reviews (rs : list Review.t) (s : database) : database :=
  mkDb (users s) (materials s) rs (orders s) (order_items s) (cart_items s)
       (favorites s).

Definition with_orders (os : list Order.t) (s : database) : database :=
  mkDb (users s) (materials s) (reviews s) os (order_items s) (cart_items s)
       (favorites s).

Definition with_order_items (ois : list OrderItem.t) (s : database) : database :=
  mkDb (users s) (materials s) (reviews s) (orders s) ois (cart_items s)
       (favorites s).

Definition with_cart_items (cs : list (Z * Z)) (s : database) : database :=
  mkDb (users s) (materials s) (reviews s) (orders s) (order_items s) cs
       (favorites s).

Definition with_favorites (fs : list (Z * Z)) (s : database) : database :=
  mkDb (users s) (materials s) (reviews s) (orders s) (order_items s)
       (cart_items s) fs.

(** Integer primary key of a freshly inserted row: one more than the largest
    key of the table. *)
Definition next_id (ids : list Z) : Z := 1 + fold_right Z.max 0 ids.

(** [Model.query.get(id)] *)
Definition get_user (s : database) (uid : Z) : option User.t :=
  find (fun u => User.id u =? uid) (users s).

Definition get_material (s : database) (mid : Z) : option StudyMaterial.t :=
  find (fun m => StudyMaterial.id m =? mid) (materials s).

(** Writing back a loaded row: the row with that key is replaced. *)
Definition update_user (uid : Z) (f : User.t -> User.t) (s : database) : database :=
  with_users (map (fun u => if User.id u =? uid then f u else u) (users s)) s.

Definition update_material (mid : Z) (f : StudyMaterial.t -> StudyMaterial.t)
  (s : database) : database :=
  with_materials
    (map (fun m => if StudyMaterial.id m =? mid then f m else m) (materials s)) s.

Definition update_order_item (iid : Z) (f : OrderItem.t -> OrderItem.t)
  (s : database) : database :=
  with_order_items
    (map (fun oi => if OrderItem.id oi =? iid then f oi else oi) (order_items s)) s.

(** The materials a user is joined with through an association table. *)
Definition joined (s : database) (uid : Z) (rows : list (Z * Z))
  : list StudyMaterial.t :=
  flat_map (fun row =>
              if fst row =? uid
              then match get_material s (snd row) with
                   | Some m => [m]
                   | None => []
                   end
              else [])
           rows.

(** [user.cart] and [user.favorite_materials] *)
Definition cart (s : database) (uid : Z) : list StudyMaterial.t :=
  joined s uid (cart_items s).

Definition favorite_materials (s : database) (uid : Z) : list StudyMaterial.t :=
  joined s uid (favorites s).

(** [material in collection] *)
Definition contains (ms : list StudyMaterial.t) (m : StudyMaterial.t) : bool :=
  existsb (fun c => StudyMaterial.id c =? StudyMaterial.id m) ms.

Definition in_cart (s : database) (uid : Z) (m : StudyMaterial.t) : bool :=
  contains (cart s uid) m.

(** Python's [sum(...)] over a generator of prices. *)
Definition sum_prices (ps : list Q) : Q := fold_left Qplus ps 0%Q.

(** [order.items] *)
Definition items (s : database) (oid : Z) : list OrderItem.t :=
  filter (fun oi => OrderItem.order_id oi =? oid) (order_items s).

(** [material.reviews.all()] *)
Definition reviews_of (s : database) (mid : Z) : list Review.t :=
  filter (fun r => Review.material_id r =? mid) (reviews s).

(** The query shared by [material_detail], [download_material] and
    [add_review]:
    [OrderItem.query.join(Order).filter(Order.buyer_id == uid,
       OrderItem.material_id == mid, Order.status == 'completed').first()] *)
Definition purchased_item (s : database) (uid mid : Z) : option OrderItem.t :=
  find (fun oi =>
          existsb (fun o => (Order.id o =? OrderItem.order_id oi)
                            && (Order.buyer_id o =? uid)
                            && order_status_eqb (Order.status o) completed)
                  (orders s)
          && (OrderItem.material_id oi =? mid))
       (order_items s).

(** ** Responses *)

Inductive category := cat_error | cat_success | cat_info.

(** The flashed texts. *)
Inductive message :=
| msg_own_material        (* 'Nemôžete kúpiť vlastný materiál.' *)
| msg_already_in_cart     (* 'Materiál je už v košíku.' *)
| msg_added_to_cart       (* 'Pridané do košíka!' *)
| msg_removed_from_cart   (* 'Odstránené z košíka.' *)
| msg_cart_empty          (* 'Váš košík je prázdny.' *)
| msg_order_ok            (* 'Objednávka bola úspešná!' *)
| msg_no_access           (* 'Nemáte prístup k tomuto súboru.' *)
| msg_only_purchased      (* 'Môžete hodnotiť len zakúpené materiály.' *)
| msg_already_reviewed    (* 'Už ste tento materiál hodnotili.' *)
| msg_invalid_rating      (* 'Neplatné hodnotenie.' *)
| msg_review_added        (* 'Hodnotenie bolo pridané.' *)
| msg_file_required       (* 'Súbor je povinný.' *)
| msg_no_file_selected    (* 'Nebol vybraný žiadny súbor.' *)
| msg_file_type           (* 'Nepovolený typ súboru.' *)
| msg_material_added      (* 'Materiál bol úspešne pridaný!' *)
| msg_edit_forbidden      (* 'Nemáte oprávnenie upraviť tento materiál.' *)
| msg_material_updated    (* 'Materiál bol aktualizovaný.' *)
| msg_delete_forbidden    (* 'Nemáte oprávnenie vymazať tento materiál.' *)
| msg_material_deleted    (* 'Materiál bol vymazaný.' *)
| msg_fields_required     (* 'Všetky polia sú povinné.' *)
| msg_password_mismatch   (* 'Heslá sa nezhodujú.' *)
| msg_username_taken      (* 'Používateľské meno už existuje.' *)
| msg_email_taken         (* 'Email už je registrovaný.' *)
| msg_registered          (* 'Registrácia úspešná! Teraz sa môžete prihlásiť.' *)
| msg_logged_in           (* 'Prihlásenie úspešné!' *)
| msg_bad_credentials     (* 'Nesprávny email alebo heslo.' *)
| msg_profile_updated     (* 'Profil bol aktualizovaný.' *)
| msg_favorite_removed    (* 'Odstránené z obľúbených.' *)
| msg_favorite_added.     (* 'Pridané do obľúbených.' *)

Inductive endpoint :=
| to_home
| to_browse
| to_cart
| to_profile
| to_login
| to_request_url
| to_next_or_home
| to_referrer_or_cart
| to_referrer_or_home
| to_material_detail (id : Z)
| to_order_detail (id : Z).

Inductive response :=
| Redirect (flash : option (message * category)) (target : endpoint)
| Render (flash : option (message * category)) (template : string)
| SendFile (path download_name : string)
| Json (success : bool) (text : message)
| NotFound
| ServerError
| LoginRequired.

Inductive http_method := GET | POST.

(** ** Units of work

    A handler body runs against the session; it either raises or hands the
    pending state to [db.session.commit()].  An exception leaves the view,
    reaches the 500 handler ([internal_error]), which rolls the session back. *)

Inductive exn := IntegrityError | AttributeError | OperationalError.

Definition tx (A : Type) : Type := database -> exn + (A * database).

Definition ret {A : Type} (a : A) : tx A := fun s => inr (a, s).

Definition raise {A : Type} (e : exn) : tx A := fun _ => inl e.

Definition bind {A B : Type} (c : tx A) (k : A -> tx B) : tx B :=
  fun s => match c s with
           | inl e => inl e
           | inr (a, s') => k a s'
           end.

Definition modify (f : database -> database) : tx unit := fun s => inr (tt, f s).

Notation "x <- c ;; k" := (bind c (fun x => k))
  (at level 61, c at next level, right associativity).
Notation "c ;;; k" := (bind c (fun _ => k))
  (at level 61, right associativity).

Definition run_request (body : tx response) (s : database) : database * response :=
  match body s with
  | inr (r, s') => (s', r)
  | inl _ => (s, ServerError)
  end.

(** ** Cart *)

(** [cart()]: [cart_total] as handed to the template. *)
Definition cart_total (s : database) (uid : Z) : Q :=
  sum_prices (map StudyMaterial.price (cart s uid)).

Definition add_to_cart (current_user : User.t) (material_id : Z) (s : database)
  : database * response :=
  match get_material s material_id with
  | None => (s, NotFound)
  | Some material =>
      if StudyMaterial.seller_id material =? User.id current_user
      then (s, Redirect (Some (msg_own_material, cat_error))
                        (to_material_detail material_id))
      else if in_cart s (User.id current_user) material
      then (s, Redirect (Some (msg_already_in_cart, cat_info)) to_referrer_or_cart)
      else (with_cart_items
              (cart_items s ++ [(User.id current_user, StudyMaterial.id material)]) s,
            Redirect (Some (msg_added_to_cart, cat_success)) to_referrer_or_cart)
  end.

(** Rows deleted when materials [ms] leave the cart collection of [uid]. *)
Definition delete_cart_rows (uid : Z) (ms : list StudyMaterial.t) (s : database)
  : database :=
  with_cart_items
    (filter (fun row =>
               negb ((fst row =? uid)
                     && existsb (fun m => StudyMaterial.id m =? snd row) ms))
            (cart_items s)) s.

Definition remove_from_cart (current_user : User.t) (material_id : Z) (s : database)
  : database * response :=
  match get_material s material_id with
  | None => (s, NotFound)
  | Some material =>
      if in_cart s (User.id current_user) material
      then (delete_cart_rows (User.id current_user) [material] s,
            Redirect (Some (msg_removed_from_cart, cat_success)) to_cart)
      else (s, Redirect None to_cart)
  end.

(** ** Checkout *)

Definition upper_ascii (c : ascii) : ascii :=
  let n := nat_of_ascii c in
  if ((97 <=? n) && (n <=? 122))%nat then ascii_of_nat (n - 32) else c.

Fixpoint upper (s : string) : string :=
  match s with
  | EmptyString => EmptyString
  | String c r => String (upper_ascii c) (upper r)
  end.

(** [f"SS-{uuid.uuid4().hex[:8].upper()}"], from the hex digits of the uuid. *)
Definition make_order_number (uuid_hex : string) : string :=
  ("SS-" ++ upper (substring 0 8 uuid_hex))%string.

(** [db.session.add(order); db.session.flush()]: the row gets its key, and
    the unique index on [order_number] rejects a number already in use. *)
Definition flush_order (number : string) (total : Q) (buyer now : Z) : tx Z :=
  fun s =>
    if existsb (fun o => String.eqb (Order.order_number o) number) (orders s)
    then inl IntegrityError
    else
      let oid := next_id (map Order.id (orders s)) in
      inr (oid,
           with_orders
             (orders s ++ [Order.mk oid number total completed
                                    (Some "card"%string) (Some now) buyer]) s).

Definition add_order_item (oid mid : Z) (p : Q) : tx unit :=
  modify (fun s =>
            with_order_items
              (order_items s ++
                 [OrderItem.mk (next_id (map OrderItem.id (order_items s)))
                               p oid mid 0 None]) s).

(** [material.seller.total_earnings += amount]; [material.seller] is [None]
    when no user has that key. *)
Definition credit_seller (sid : Z) (amount : Q) : tx unit :=
  fun s =>
    match get_user s sid with
    | None => inl AttributeError
    | Some _ =>
        inr (tt, update_user sid
                   (fun u => User.with_total_earnings
                               (User.total_earnings u + amount)%Q u) s)
    end.

(** The revenue share of the seller, [0.8]. *)
Definition seller_share : Q := (8 # 10)%Q.

(** The loop over [current_user.cart].  [storage_failure]: [Some k] makes the
    store raise when the loop reaches position [k] of the cart, that is after
    [k] order items were added; [None] is a store that does not fail. *)
Fixpoint create_order_items (storage_failure : option nat) (oid : Z)
  (ms : list StudyMaterial.t) : tx unit :=
  match ms with
  | [] => ret tt
  | material :: rest =>
      match storage_failure with
      | Some O => raise OperationalError
      | _ =>
          add_order_item oid (StudyMaterial.id material)
                         (StudyMaterial.price material) ;;;
          modify (update_material (StudyMaterial.id material)
                    (fun m => StudyMaterial.with_downloads
                                (StudyMaterial.downloads m + 1) m)) ;;;
          credit_seller (StudyMaterial.seller_id material)
                        (StudyMaterial.price material * seller_share)%Q ;;;
          create_order_items (option_map Nat.pred storage_failure) oid rest
      end
  end.

Definition checkout_post (current_user : User.t) (uuid_hex : string) (now : Z)
  (storage_failure : option nat) : tx response :=
  fun s =>
    let items_in_cart := cart s (User.id current_user) in
    let order_number := make_order_number uuid_hex in
    let total := sum_prices (map StudyMaterial.price items_in_cart) in
    (oid <- flush_order order_number total (User.id current_user) now ;;
     create_order_items storage_failure oid items_in_cart ;;;
     modify (delete_cart_rows (User.id current_user) items_in_cart) ;;;
     ret (Redirect (Some (msg_order_ok, cat_success)) (to_order_detail oid))) s.

Definition checkout (current_user : User.t) (method : http_method)
  (uuid_hex : string) (now : Z) (storage_failure : option nat) (s : database)
  : database * response :=
  match cart s (User.id current_user) with
  | [] => (s, Redirect (Some (msg_cart_empty, cat_error)) to_browse)
  | _ :: _ =>
      match method with
      | POST => run_request (checkout_post current_user uuid_hex now storage_failure) s
      | GET => (s, Render None "checkout.html")
      end
  end.

(** ** Downloads *)

(** The local [has_access] of [download_material] once both tests ran. *)
Definition has_access (s : database) (current_user : User.t)
  (material : StudyMaterial.t) : bool :=
  (StudyMaterial.seller_id material =? User.id current_user)
  || match purchased_item s (User.id current_user) (StudyMaterial.id material) with
     | Some _ => true
     | None => false
     end.

Definition download_name (material : StudyMaterial.t) : string :=
  (StudyMaterial.title material ++ "." ++ StudyMaterial.file_type material)%string.

Definition download_material (current_user : User.t) (material_id now : Z)
  (s : database) : database * response :=
  match get_material s material_id with
  | None => (s, NotFound)
  | Some material =>
      if StudyMaterial.seller_id material =? User.id current_user
      then (s, SendFile (StudyMaterial.file_path material) (download_name material))
      else
        match purchased_item s (User.id current_user) material_id with
        | Some order_item =>
            (update_order_item (OrderItem.id order_item)
                               (OrderItem.record_download now) s,
             SendFile (StudyMaterial.file_path material) (download_name material))
        | None =>
            (s, Redirect (Some (msg_no_access, cat_error))
                         (to_material_detail material_id))
        end
  end.

(** ** Reviews *)

(** [sum(r.rating for r in reviews)] *)
Definition sum_ratings (rs : list Review.t) : Z :=
  fold_left Z.add (map Review.rating rs) 0.

(** [StudyMaterial.update_rating] *)
Definition update_rating (s : database) (self : StudyMaterial.t) : StudyMaterial.t :=
  let rs := reviews_of s (StudyMaterial.id self) in
  match rs with
  | _ :: _ =>
      StudyMaterial.with_rating
        (inject_Z (sum_ratings rs) / inject_Z (Z.of_nat (List.length rs)))%Q
        (Z.of_nat (List.length rs)) self
  | [] => StudyMaterial.with_rating 0%Q 0 self
  end.

(** [Review.query.filter_by(material_id=id, reviewer_id=uid).first()] *)
Definition existing_review (s : database) (mid uid : Z) : option Review.t :=
  find (fun r => (Review.material_id r =? mid) && (Review.reviewer_id r =? uid))
       (reviews s).

(** [not rating or rating < 1 or rating > 5], for a rating that parsed. *)
Definition rating_rejected (rating : Z) : bool :=
  (rating =? 0) || (rating <? 1) || (rating >? 5).

Definition add_review (current_user : User.t) (id : Z) (rating : option Z)
  (comment : option string) (s : database) : database * response :=
  match get_material s id with
  | None => (s, NotFound)
  | Some material =>
      match purchased_item s (User.id current_user) id with
      | None => (s, Redirect (Some (msg_only_purchased, cat_error))
                             (to_material_detail id))
      | Some _ =>
          match existing_review s id (User.id current_user) with
          | Some _ => (s, Redirect (Some (msg_already_reviewed, cat_error))
                                   (to_material_detail id))
          | None =>
              match rating with
              | None => (s, Redirect (Some (msg_invalid_rating, cat_error))
                                     (to_material_detail id))
              | Some r =>
                  if rating_rejected r
                  then (s, Redirect (Some (msg_invalid_rating, cat_error))
                                    (to_material_detail id))
                  else
                    let review :=
                      Review.mk (next_id (map Review.id (reviews s))) r comment id
                                (User.id current_user)
                                (StudyMaterial.seller_id material) in
                    let s1 := with_reviews (reviews s ++ [review]) s in
                    let s2 := update_material (StudyMaterial.id material)
                                              (update_rating s1) s1 in
                    (s2, Redirect (Some (msg_review_added, cat_success))
                                  (to_material_detail id))
              end
          end
      end
  end.

(** ** Selling *)

(** What the upload plumbing of [sell] found: no [file] part, an empty file
    name, a file name [allowed_file] rejects, or a file saved under a fresh
    storage name with its lower-cased extension. *)
Inductive upload :=
| no_file_part
| empty_filename
| disallowed_file
| stored (filename ext : string).

(** The form fields of [sell] and [edit_material] kept in the rows; [None] is
    a field that is absent or does not parse. *)
Record material_form := mkForm {
  form_title : option string;
  form_description : option string;
  form_price : option Q }.

(** The [NOT NULL] columns among them: the commit raises when one is missing. *)
Definition checked_form (f : material_form) : option (string * string * Q) :=
  match form_title f, form_description f, form_price f with
  | Some ti, Some de, Some p => Some (ti, de, p)
  | _, _, _ => None
  end.

Definition sell_post (current_user : User.t) (f : material_form) (filename ext : string)
  : tx response :=
  fun s =>
    match checked_form f with
    | None => inl IntegrityError
    | Some (ti, de, p) =>
        let mid := next_id (map StudyMaterial.id (materials s)) in
        let material :=
          StudyMaterial.mk mid ti de p filename ext 0 0 0%Q 0 true
                           (User.id current_user) in
        let s1 := if User.is_seller current_user then s
                  else update_user (User.id current_user)
                                   (User.with_is_seller true) s in
        inr (Redirect (Some (msg_material_added, cat_success)) (to_material_detail mid),
             with_materials (materials s1 ++ [material]) s1)
    end.

Definition sell (current_user : User.t) (method : http_method) (f : material_form)
  (file : upload) (s : database) : database * response :=
  match method with
  | GET => (s, Render None "sell.html")
  | POST =>
      match file with
      | no_file_part => (s, Redirect (Some (msg_file_required, cat_error)) to_request_url)
      | empty_filename =>
          (s, Redirect (Some (msg_no_file_selected, cat_error)) to_request_url)
      | disallowed_file => (s, Render (Some (msg_file_type, cat_error)) "sell.html")
      | stored filename ext => run_request (sell_post current_user f filename ext) s
      end
  end.

Definition edit_material (current_user : User.t) (method : http_method) (id : Z)
  (f : material_form) (s : database) : database * response :=
  match get_material s id with
  | None => (s, NotFound)
  | Some material =>
      if negb (StudyMaterial.seller_id material =? User.id current_user)
         && negb (User.is_admin current_user)
      then (s, Redirect (Some (msg_edit_forbidden, cat_error)) to_home)
      else
        match method with
        | GET => (s, Render None "edit_material.html")
        | POST =>
            match checked_form f with
            | None => (s, ServerError)
            | Some (ti, de, p) =>
                (update_material (StudyMaterial.id material)
                                 (StudyMaterial.with_content ti de p) s,
                 Redirect (Some (msg_material_updated, cat_success))
                          (to_material_detail (StudyMaterial.id material)))
            end
        end
  end.

Definition delete_material (current_user : User.t) (id : Z) (s : database)
  : database * response :=
  match get_material s id with
  | None => (s, NotFound)
  | Some material =>
      if negb (StudyMaterial.seller_id material =? User.id current_user)
         && negb (User.is_admin current_user)
      then (s, Redirect (Some (msg_delete_forbidden, cat_error)) to_home)
      else (update_material (StudyMaterial.id material)
                            (StudyMaterial.with_is_active false) s,
            Redirect (Some (msg_material_deleted, cat_success)) to_profile)
  end.

(** [material_detail]: the view counter is the only write. *)
Definition material_detail (id : Z) (s : database) : database * response :=
  match get_material s id with
  | None => (s, NotFound)
  | Some material =>
      (update_material (StudyMaterial.id material)
                       (fun m => StudyMaterial.with_views (StudyMaterial.views m + 1) m) s,
       Render None "material_detail.html")
  end.

(** ** Accounts *)

(** A form field that is there and not empty. *)
Definition present (field : option string) : bool :=
  match field with
  | Some (String _ _) => true
  | _ => false
  end.

Definition same_field (a b : option string) : bool :=
  match a, b with
  | Some x, Some y => String.eqb x y
  | None, None => true
  | _, _ => false
  end.

(** [register]; [password_hash] is what [generate_password_hash] returns for
    the submitted password. *)
Definition register (current_user : option User.t) (method : http_method)
  (username email password confirm_password : option string)
  (password_hash : string) (s : database) : database * response :=
  match current_user with
  | Some _ => (s, Redirect None to_home)
  | None =>
      match method with
      | GET => (s, Render None "register.html")
      | POST =>
          if negb (forallb present [username; email; password; confirm_password])
          then (s, Render (Some (msg_fields_required, cat_error)) "register.html")
          else if negb (same_field password confirm_password)
          then (s, Render (Some (msg_password_mismatch, cat_error)) "register.html")
          else
            match username, email with
            | Some name, Some mail =>
                if existsb (fun u => String.eqb (User.username u) name) (users s)
                then (s, Render (Some (msg_username_taken, cat_error)) "register.html")
                else if existsb (fun u => String.eqb (User.email u) mail) (users s)
                then (s, Render (Some (msg_email_taken, cat_error)) "register.html")
                else
                  (with_users
                     (users s ++
                        [User.mk (next_id (map User.id (users s))) name mail
                                 password_hash None None None None
                                 false false None 0%Q]) s,
                   Redirect (Some (msg_registered, cat_success)) to_login)
            | _, _ =>
                (s, Render (Some (msg_fields_required, cat_error)) "register.html")
            end
      end
  end.

(** [login]; [password_ok] is what [check_password] answers for the user
    found under the submitted email. *)
Definition login (current_user : option User.t) (method : http_method)
  (email : option string) (password_ok : bool) (now : Z) (s : database)
  : database * response :=
  match current_user with
  | Some _ => (s, Redirect None to_home)
  | None =>
      match method with
      | GET => (s, Render None "login.html")
      | POST =>
          match match email with
                | Some mail => find (fun u => String.eqb (User.email u) mail) (users s)
                | None => None
                end with
          | Some user =>
              if password_ok
              then (update_user (User.id user) (User.with_last_login now) s,
                    Redirect (Some (msg_logged_in, cat_success)) to_next_or_home)
              else (s, Render (Some (msg_bad_credentials, cat_error)) "login.html")
          | None => (s, Render (Some (msg_bad_credentials, cat_error)) "login.html")
          end
      end
  end.

Definition edit_profile (current_user : User.t) (method : http_method)
  (first_name last_name university bio : option string) (s : database)
  : database * response :=
  match method with
  | GET => (s, Render None "edit_profile.html")
  | POST =>
      (update_user (User.id current_user)
                   (User.with_profile first_name last_name university bio) s,
       Redirect (Some (msg_profile_updated, cat_success)) to_profile)
  end.

(** [toggle_favorite]; [xhr] tells whether the request carries the
    [X-Requested-With: XMLHttpRequest] header. *)
Definition toggle_favorite (current_user : User.t) (material_id : Z) (xhr : bool)
  (s : database) : database * response :=
  match get_material s material_id with
  | None => (s, NotFound)
  | Some material =>
      let toggled :=
        if contains (favorite_materials s (User.id current_user)) material
        then (with_favorites
                (filter (fun row =>
                           negb ((fst row =? User.id current_user)
                                 && (StudyMaterial.id material =? snd row)))
                        (favorites s)) s,
              msg_favorite_removed)
        else (with_favorites
                (favorites s ++ [(User.id current_user, StudyMaterial.id material)]) s,
              msg_favorite_added) in
      (fst toggled,
       if xhr then Json true (snd toggled)
       else Redirect (Some (snd toggled, cat_success)) to_referrer_or_home)
  end.

(** ** Requests of a session *)

(** The requests that write to the store. *)
Inductive request :=
| req_register (method : http_method)
               (username email password confirm_password : option string)
               (password_hash : string)
| req_login (method : http_method) (email : option string) (password_ok : bool)
            (now : Z)
| req_edit_profile (method : http_method)
                   (first_name last_name university bio : option string)
| req_material_detail (id : Z)
| req_sell (method : http_method) (f : material_form) (file : upload)
| req_edit_material (method : http_method) (id : Z) (f : material_form)
| req_delete_material (id : Z)
| req_add_to_cart (material_id : Z)
| req_remove_from_cart (material_id : Z)
| req_checkout (method : http_method) (uuid_hex : string) (now : Z)
               (storage_failure : option nat)
| req_download_material (material_id now : Z)
| req_add_review (id : Z) (rating : option Z) (comment : option string)
| req_toggle_favorite (material_id : Z) (xhr : bool).

(** [load_user] for the user id kept in the session, if any. *)
Definition load_user (session : option Z) (s : database) : option User.t :=
  match session with
  | Some user_id => get_user s user_id
  | None => None
  end.

(** [login_required] *)
Definition login_required (session : option Z) (s : database)
  (view : User.t -> database * response) : database * response :=
  match load_user session s with
  | Some current_user => view current_user
  | None => (s, LoginRequired)
  end.

(** Routing. *)
Definition handle (session : option Z) (r : request) (s : database)
  : database * response :=
  match r with
  | req_register method username email password confirm_password password_hash =>
      register (load_user session s) method username email password
               confirm_password password_hash s
  | req_login method email password_ok now =>
      login (load_user session s) method email password_ok now s
  | req_material_detail id => material_detail id s
  | req_edit_profile method first_name last_name university bio =>
      login_required session s
        (fun cu => edit_profile cu method first_name last_name university bio s)
  | req_sell method f file =>
      login_required session s (fun cu => sell cu method f file s)
  | req_edit_material method id f =>
      login_required session s (fun cu => edit_material cu method id f s)
  | req_delete_material id =>
      login_required session s (fun cu => delete_material cu id s)
  | req_add_to_cart material_id =>
      login_required session s (fun cu => add_to_cart cu material_id s)
  | req_remove_from_cart material_id =>
      login_required session s (fun cu => remove_from_cart cu material_id s)
  | req_checkout method uuid_hex now storage_failure =>
      login_required session s
        (fun cu => checkout cu method uuid_hex now storage_failure s)
  | req_download_material material_id now =>
      login_required session s (fun cu => download_material cu material_id now s)
  | req_add_review id rating comment =>
      login_required session s (fun cu => add_review cu id rating comment s)
  | req_toggle_favorite material_id xhr =>
      login_required session s (fun cu => toggle_favorite cu material_id xhr s)
  end.

(** A run of requests, each with the session it arrives in. *)
Fixpoint run (rs : list (option Z * request)) (s : database) : database :=
  match rs with
  | [] => s
  | (session, r) :: rest => run rest (fst (handle session r s))
  end.

(** ** Uploads *)

Definition ALLOWED_EXTENSIONS : list string :=
  ["pdf"; "zip"; "pptx"; "docx"; "txt"; "png"; "jpg"; "jpeg"]%string.

Definition lower_ascii (c : ascii) : ascii :=
  let n := nat_of_ascii c in
  if ((65 <=? n) && (n <=? 90))%nat then ascii_of_nat (n + 32) else c.

Fixpoint lower (s : string) : string :=
  match s with
  | EmptyString => EmptyString
  | String c r => String (lower_ascii c) (lower r)
  end.

Definition is_dot (c : ascii) : bool := Ascii.eqb c "."%char.

(** ['.' in s] *)
Fixpoint has_dot (s : string) : bool :=
  match s with
  | EmptyString => false
  | String c r => is_dot c || has_dot r
  end.

(** The text before and the text after the last dot, if there is a dot. *)
Fixpoint split_last_dot (s : string) : option (string * string) :=
  match s with
  | EmptyString => None
  | String c r =>
      match split_last_dot r with
      | Some (head, tail) => Some (String c head, tail)
      | None => if is_dot c then Some (EmptyString, r) else None
      end
  end.

(** [s.rsplit('.', 1)] *)
Definition rsplit_dot (s : string) : list string :=
  match split_last_dot s with
  | Some (head, tail) => [head; tail]
  | None => [s]
  end.

(** [filename.rsplit('.', 1)[1].lower()] *)
Definition extension (filename : string) : string :=
  lower (nth 1 (rsplit_dot filename) EmptyString).

Definition allowed_file (filename : string) : bool :=
  has_dot filename
  && existsb (String.eqb (extension filename)) ALLOWED_EXTENSIONS.

(** The upload plumbing of [sell]: [file] is the name of the [file] part of
    the request, if there is one; the storage name is built from the hex
    digits of a fresh uuid. *)
Definition receive_upload (file : option string) (uuid_hex : string) : upload :=
  match file with
  | None => no_file_part
  | Some name =>
      if String.eqb name EmptyString then empty_filename
      else if allowed_file name
      then stored (uuid_hex ++ "." ++ extension name)%string (extension name)
      else disallowed_file
  end.

(** ** Pages that only read *)

(** [api_cart_count], and [cart_count] of [inject_globals]. *)
Definition api_cart_count (session : option Z) (s : database) : Z :=
  match load_user session s with
  | Some current_user => Z.of_nat (List.length (cart s (User.id current_user)))
  | None => 0
  end.

(** [seller_profile]: the seller and the materials handed to the template;
    [None] is the 404. *)
Definition seller_profile (id : Z) (s : database)
  : option (User.t * list StudyMaterial.t) :=
  match get_user s id with
  | None => None
  | Some seller =>
      Some (seller,
            filter (fun m => (StudyMaterial.seller_id m =? User.id seller)
                             && StudyMaterial.is_active m)
                   (materials s))
  end.

(** [order_detail]: the order handed to the template, the refusal
    ('Nemáte oprávnenie zobraziť túto objednávku.', redirect home) or the
    404. *)
Inductive order_page :=
| order_shown (order : Order.t)
| order_forbidden
| order_not_found.

Definition order_detail (current_user : User.t) (id : Z) (s : database)
  : order_page :=
  match find (fun o => Order.id o =? id) (orders s) with
  | None => order_not_found
  | Some order =>
      if negb (Order.buyer_id order =? User.id current_user)
         && negb (User.is_admin current_user)
      then order_forbidden
      else order_shown order
  end.

(** ** A small marketplace

    Alice (1) sells, Bob (2) buys: the scenario of the specification, from an
    empty database. *)

Definition empty_db : database := mkDb [] [] [] [] [] [] [].

Definition alice : User.t :=
  User.mk 1 "alice" "alice@example.org" "pbkdf2:a" None None None None
          false false None 0%Q.

Definition bob : User.t :=
  User.mk 2 "bob" "bob@example.org" "pbkdf2:b" None None None None
          false false None 0%Q.

Definition registered : database :=
  run [(None, req_register POST (Some "alice"%string) (Some "alice@example.org"%string)
                           (Some "wonderland"%string) (Some "wonderland"%string)
                           "pbkdf2:a");
       (None, req_register POST (Some "bob"%string) (Some "bob@example.org"%string)
                           (Some "builder"%string) (Some "builder"%string)
                           "pbkdf2:b")]
      empty_db.

Definition notes_form (p : Q) : material_form :=
  mkForm (Some "Notes"%string) (Some "Lecture notes"%string) (Some p).

(** Alice uploads material 1 at price [p]. *)
Definition listed (p : Q) : database :=
  run [(Some 1, req_sell POST (notes_form p) (stored "0a1b.pdf" "pdf"))] registered.

(** ... and Bob puts it into his cart. *)
Definition carted (p : Q) : database :=
  run [(Some 2, req_add_to_cart 1)] (listed p).

(** ... and checks out at time 100 with a uuid starting [deadbeef]. *)
Definition bought (p : Q) : database :=
  run [(Some 2, req_checkout POST "deadbeef00112233" 100 None)] (carted p).

(** ... once more after that purchase: Alice lists material 2, Bob carts it. *)
Definition carted_again (p q : Q) : database :=
  run [(Some 1, req_sell POST (mkForm (Some "Slides"%string) (Some "Deck"%string)
                                      (Some q))
                         (stored "9f8e.pptx" "pptx"));
       (Some 2, req_add_to_cart 2)] (bought p).

(** Bob's second checkout, at time 300. *)
Definition second_checkout : database * response :=
  checkout bob POST "cafe0123456789ab" 300 None (carted_again 10 5).

(** The checkout of that cart with a store failure at its first position. *)
Definition failed_checkout : database * response :=
  checkout bob POST "cafe0123456789ab" 300 (Some O) (carted_again 10 5).

(** Bob reviews his purchase with five stars. *)
Definition reviewed : database :=
  run [(Some 2, req_add_review 1 (Some 5) None)] (bought 10).

(** Alice withdraws her notes right after listing them. *)
Definition delisted : database :=
  run [(Some 1, req_delete_material 1)] (listed 10).

(** The row of the notes in these states. *)
Definition notes_listed : StudyMaterial.t :=
  StudyMaterial.mk 1 "Notes" "Lecture notes" 10 "0a1b.pdf" "pdf" 0 0 0 0 true 1.

Definition notes_bought : StudyMaterial.t :=
  StudyMaterial.with_downloads 1 notes_listed.

Definition notes_reviewed : StudyMaterial.t :=
  StudyMaterial.with_rating 5 1 notes_bought.

Definition notes_delisted : StudyMaterial.t :=
  StudyMaterial.with_is_active false notes_listed.

(** ** Vocabulary of the properties *)

(** What the checkout loop has done to one user's earnings after the cart
    [ms]: one credit per cart material sold by [uid], in cart order. *)
Definition credited (ms : list StudyMaterial.t) (uid : Z) (e : Q) : Q :=
  fold_left (fun acc m =>
               if StudyMaterial.seller_id m =? uid
               then (acc + StudyMaterial.price m * seller_share)%Q
               else acc)
            ms e.

(** ... to one material's download counter. *)
Definition downloaded (ms : list StudyMaterial.t) (mid : Z) (d : Z) : Z :=
  fold_left (fun acc m => if StudyMaterial.id m =? mid then acc + 1 else acc) ms d.

(** ... and to the order item table. *)
Definition appended_items (oid : Z) (ms : list StudyMaterial.t)
  (ois : list OrderItem.t) : list OrderItem.t :=
  fold_left (fun acc m =>
               acc ++ [OrderItem.mk (next_id (map OrderItem.id acc))
                                    (StudyMaterial.price m) oid
                                    (StudyMaterial.id m) 0 None])
            ms ois.

(** Every order item belongs to an order of the table (the foreign key of
    [OrderItem.order_id]). *)
Definition items_reference_orders (s : database) : Prop :=
  Forall (fun oi => In (OrderItem.order_id oi) (map Order.id (orders s)))
         (order_items s).

(** User [uid] holds a completed order with an item for material [mid]. *)
Definition completed_purchase (s : database) (uid mid : Z) : Prop :=
  exists o oi,
    In o (orders s) /\ In oi (order_items s) /\
    OrderItem.order_id oi = Order.id o /\
    Order.buyer_id o = uid /\
    Order.status o = completed /\
    OrderItem.material_id oi = mid.

(** The arithmetic mean of a list of star ratings, [0] for none. *)
Definition arithmetic_mean (xs : list Z) : Q :=
  match xs with
  | [] => 0%Q
  | _ :: _ => (inject_Z (fold_left Z.add xs 0%Z) / inject_Z (Z.of_nat (List.length xs)))%Q
  end.

(** The aggregate columns of a material agree with its reviews. *)
Definition rating_matches_reviews (s : database) (m : StudyMaterial.t) : Prop :=
  StudyMaterial.rating m
    = arithmetic_mean (map Review.rating (reviews_of s (StudyMaterial.id m)))
  /\ StudyMaterial.rating_count m
     = Z.of_nat (List.length (reviews_of s (StudyMaterial.id m))).

Definition ratings_consistent (s : database) : Prop :=
  Forall (rating_matches_reviews s) (materials s).

(** At most one review per (material, reviewer). *)
Definition one_review_per_pair (s : database) : Prop :=
  NoDup (map (fun r => (Review.material_id r, Review.reviewer_id r)) (reviews s)).

(** Order numbers are pairwise distinct. *)
Definition order_numbers_unique (s : database) : Prop :=
  NoDup (map Order.order_number (orders s)).


(** The pending state once the checkout loop has run over the cart [ms]. *)
Definition loop_result (oid : Z) (ms : list StudyMaterial.t) (s : database)
  : database :=
  mkDb (map (fun u => User.with_total_earnings
                        (credited ms (User.id u) (User.total_earnings u)) u)
            (users s))
       (map (fun m => StudyMaterial.with_downloads
                        (downloaded ms (StudyMaterial.id m) (StudyMaterial.downloads m)) m)
            (materials s))
       (reviews s) (orders s)
       (appended_items oid ms (order_items s))
       (cart_items s) (favorites s).

(** One turn of the loop, for a seller that exists. *)
Definition loop_step (oid : Z) (material : StudyMaterial.t) (s : database)
  : database :=
  update_user (StudyMaterial.seller_id material)
    (fun u => User.with_total_earnings
                (User.total_earnings u
                 + StudyMaterial.price material * seller_share)%Q u)
    (update_material (StudyMaterial.id material)
       (fun m => StudyMaterial.with_downloads (StudyMaterial.downloads m + 1) m)
       (with_order_items
          (order_items s ++
             [OrderItem.mk (next_id (map OrderItem.id (order_items s)))
                           (StudyMaterial.price material) oid
                           (StudyMaterial.id material) 0 None]) s)).

(** The store failure planned for the loop does not strike within [n] turns. *)
Definition spares (storage_failure : option nat) (n : nat) : Prop :=
  match storage_failure with
  | None => True
  | Some k => (n <= k)%nat
  end.

(** The response of a checkout that went through. *)
Definition order_placed (oid : Z) : response :=
  Redirect (Some (msg_order_ok, cat_success)) (to_order_detail oid).

(** The order a checkout of [current_user] inserts into [s]. *)
Definition new_order (current_user : User.t) (uuid_hex : string) (now : Z)
  (s : database) : Order.t :=
  Order.mk (next_id (map Order.id (orders s)))
           (make_order_number uuid_hex)
           (sum_prices (map StudyMaterial.price (cart s (User.id current_user))))
           completed (Some "card"%string) (Some now) (User.id current_user).

(** The state a checkout that went through commits. *)
Definition checkout_result (current_user : User.t) (uuid_hex : string) (now : Z)
  (s : database) : database :=
  delete_cart_rows (User.id current_user) (cart s (User.id current_user))
    (loop_result (next_id (map Order.id (orders s)))
                 (cart s (User.id current_user))
                 (with_orders (orders s ++ [new_order current_user uuid_hex now s]) s)).

(** The review [add_review] inserts, and the state it commits. *)
Definition new_review (current_user : User.t) (mid rating : Z)
  (comment : option string) (material : StudyMaterial.t) (s : database) : Review.t :=
  Review.mk (next_id (map Review.id (reviews s))) rating comment mid
            (User.id current_user) (StudyMaterial.seller_id material).

Definition review_result (current_user : User.t) (mid rating : Z)
  (comment : option string) (material : StudyMaterial.t) (s : database) : database :=
  let s1 := with_reviews
              (reviews s ++ [new_review current_user mid rating comment material s]) s in
  update_material (StudyMaterial.id material) (update_rating s1) s1.

Definition review_added (mid : Z) : response :=
  Redirect (Some (msg_review_added, cat_success)) (to_material_detail mid).

Definition is_checkout (r : request) : bool :=
  match r with req_checkout _ _ _ _ => true | _ => false end.

Definition is_add_review (r : request) : bool :=
  match r with req_add_review _ _ _ => true | _ => false end.



Definition row_eq_dec (x y : Z * Z) : {x = y} + {x <> y}.
Proof. decide equality; apply Z.eq_dec. Defined.

(** Every review belongs to a material of the catalogue (the foreign key of
    [Review.material_id]). *)
Definition reviews_reference_materials (s : database) : Prop :=
  Forall (fun rv => In (Review.material_id rv) (map StudyMaterial.id (materials s)))
         (reviews s).

(** The key and the aggregate columns of a material row. *)
Definition rating_entry (m : StudyMaterial.t) : Z * Q * Z :=
  (StudyMaterial.id m, StudyMaterial.rating m, StudyMaterial.rating_count m).

(** Reviews and aggregates fit the catalogue. *)
Definition well_rated (s : database) : Prop :=
  reviews_reference_materials s /\ ratings_consistent s.

(** The constraints of the schema and the aggregates, together. *)
Definition well_formed (s : database) : Prop :=
  items_reference_orders s
  /\ NoDup (cart_items s)
  /\ order_numbers_unique s
  /\ one_review_per_pair s
  /\ well_rated s.

(** The stores the application can get into, starting without any row. *)
Definition reachable (s : database) : Prop :=
  exists rs, s = run rs empty_db.

(** ** Vocabulary of the further properties *)

(** All downloads counted on order items. *)
Definition download_total (s : database) : Z :=
  fold_right Z.add 0 (map OrderItem.download_count (order_items s)).

(** The columns the schema constraints speak about. *)
Definition user_key (u : User.t) : Z * bool := (User.id u, User.is_seller u).

Definition material_key (m : StudyMaterial.t) : Z * Z :=
  (StudyMaterial.id m, StudyMaterial.seller_id m).

Definition item_key (oi : OrderItem.t) : Z * Z * Z :=
  (OrderItem.id oi, OrderItem.order_id oi, OrderItem.material_id oi).

(** The columns of an order item that record the sale, and the columns of a
    material that say whose file it is. *)
Definition item_sale (oi : OrderItem.t) : Z * Z * Z * Q :=
  (item_key oi, OrderItem.price oi).

Definition material_file (m : StudyMaterial.t) : Z * Z * string :=
  (StudyMaterial.id m, StudyMaterial.seller_id m, StudyMaterial.file_path m).

(** Between [s] and [s'] no material was dropped or changed hands or file,
    and no order of [s] was dropped or changed, nor the sale its items
    record. *)
Definition records_kept (s s' : database) : Prop :=
  (exists added,
      map material_file (materials s')
      = map material_file (materials s) ++ added)
  /\ forall o, In o (orders s) ->
                In o (orders s')
                /\ map item_sale (items s' (Order.id o))
                   = map item_sale (items s (Order.id o)).

(** The columns of a user row that make the account: key, name, address,
    password hash and the administrator flag. *)
Definition user_account (u : User.t) : Z * string * string * string * bool :=
  (User.id u, User.username u, User.email u, User.password_hash u,
   User.is_admin u).

(** The credits a checkout of the cart [ms] adds to the earnings of user
    [uid], in the order in which the loop adds them. *)
Definition credits_of (ms : list StudyMaterial.t) (uid : Z) : list Q :=
  map (fun m => (StudyMaterial.price m * seller_share)%Q)
      (filter (fun m => StudyMaterial.seller_id m =? uid) ms).

(** The counters of a material, each with the key of the row. *)
Definition material_views (m : StudyMaterial.t) : Z * Z :=
  (StudyMaterial.id m, StudyMaterial.views m).

Definition material_downloads (m : StudyMaterial.t) : Z * Z :=
  (StudyMaterial.id m, StudyMaterial.downloads m).

(** The order items that sold material [mid]. *)
Definition sales_of (s : database) (mid : Z) : list OrderItem.t :=
  filter (fun oi => OrderItem.material_id oi =? mid) (order_items s).

(** [downloads] of every material is the number of its sales. *)
Definition sales_counted (s : database) : Prop :=
  Forall (fun m => StudyMaterial.downloads m
                   = Z.of_nat (List.length (sales_of s (StudyMaterial.id m))))
         (materials s).

(** The requests for the detail page of material [mid] in a run. *)
Definition is_detail_of (mid : Z) (r : request) : bool :=
  match r with
  | req_material_detail id => id =? mid
  | _ => false
  end.

Definition detail_requests (mid : Z) (rs : list (option Z * request)) : Z :=
  Z.of_nat (List.length (filter (fun sr => is_detail_of mid (snd sr)) rs)).

Definition is_sell (r : request) : bool :=
  match r with req_sell _ _ _ => true | _ => false end.

Definition is_material_detail (r : request) : bool :=
  match r with req_material_detail _ => true | _ => false end.

(** Two stores agree on these columns, table by table. *)
Definition users_same (s s' : database) : Prop :=
  map User.id (users s') = map User.id (users s)
  /\ map User.username (users s') = map User.username (users s)
  /\ map User.email (users s') = map User.email (users s)
  /\ map User.is_admin (users s') = map User.is_admin (users s).

Definition flags_same (s s' : database) : Prop :=
  map user_key (users s') = map user_key (users s).

Definition materials_same (s s' : database) : Prop :=
  map material_key (materials s') = map material_key (materials s).

Definition orders_same (s s' : database) : Prop :=
  orders s' = orders s
  /\ map item_key (order_items s') = map item_key (order_items s).

Definition same_columns (s s' : database) : Prop :=
  users_same s s' /\ flags_same s s' /\ materials_same s s' /\ orders_same s s'
  /\ reviews s' = reviews s /\ cart_items s' = cart_items s.

(** The requests that leave these columns alone. *)
Definition is_quiet (r : request) : bool :=
  match r with
  | req_login _ _ _ _ | req_edit_profile _ _ _ _ _ | req_material_detail _
  | req_edit_material _ _ _ | req_delete_material _
  | req_download_material _ _ | req_toggle_favorite _ _ => true
  | _ => false
  end.

(** User names, e-mail addresses and keys of users are not shared. *)
Definition accounts_unique (s : database) : Prop :=
  NoDup (map User.id (users s))
  /\ NoDup (map User.username (users s))
  /\ NoDup (map User.email (users s)).

Definition no_admin (s : database) : Prop :=
  Forall (fun a => a = false) (map User.is_admin (users s)).

(** Material [mid] is on record as sold by user [sid]. *)
Definition sold_by (s : database) (mid sid : Z) : Prop :=
  In (mid, sid) (map material_key (materials s)).

(** Materials have keys of their own and a seller that is a user flagged as
    a seller. *)
Definition catalogue_sound (s : database) : Prop :=
  NoDup (map StudyMaterial.id (materials s))
  /\ Forall (fun k => In (snd k, true) (map user_key (users s)))
            (map material_key (materials s)).

(** Orders and order items have keys of their own; every order is completed. *)
Definition orders_sound (s : database) : Prop :=
  NoDup (map Order.id (orders s))
  /\ NoDup (map OrderItem.id (order_items s))
  /\ Forall (fun o => Order.status o = completed) (orders s).

(** A cart row is for a material of the catalogue that its user does not
    sell. *)
Definition cart_row_sound (s : database) (row : Z * Z) : Prop :=
  exists sid, sold_by s (snd row) sid /\ sid <> fst row.

Definition carts_sound (s : database) : Prop :=
  Forall (cart_row_sound s) (cart_items s).

(** User [uid] has an order with an item for material [mid]. *)
Definition has_bought (s : database) (uid mid : Z) : Prop :=
  exists o k,
    In o (orders s) /\ In k (map item_key (order_items s))
    /\ snd (fst k) = Order.id o /\ Order.buyer_id o = uid /\ snd k = mid.

(** Nobody has bought a material of their own. *)
Definition purchases_sound (s : database) : Prop :=
  forall uid mid, has_bought s uid mid ->
                  exists sid, sold_by s mid sid /\ sid <> uid.

(** A review has one to five stars, was written by a buyer of the material
    and names the seller of the material. *)
Definition review_sound (s : database) (rv : Review.t) : Prop :=
  1 <= Review.rating rv <= 5
  /\ has_bought s (Review.reviewer_id rv) (Review.material_id rv)
  /\ sold_by s (Review.material_id rv) (Review.seller_id rv).

Definition reviews_sound (s : database) : Prop :=
  Forall (review_sound s) (reviews s).

Definition sound (s : database) : Prop :=
  accounts_unique s /\ no_admin s /\ catalogue_sound s /\ orders_sound s
  /\ carts_sound s /\ purchases_sound s /\ reviews_sound s.

(** ** Rows and lookups *)

Lemma get_material_some (s : database) (mid : Z) (m : StudyMaterial.t) :
  get_material s mid = Some m -> In m (materials s) /\ StudyMaterial.id m = mid.
Proof.
  unfold get_material. intros H. apply find_some in H as [Hin Heq].
  split; [assumption | now apply Z.eqb_eq].
Qed.

(** A lookup by key only depends on the list of keys for its success. *)
Lemma find_key_map {A : Type} (key : A -> Z) (f : A -> A) (k : Z) (l : list A) :
  (forall a, key (f a) = key a) ->
  find (fun a => key a =? k) (map f l) = option_map f (find (fun a => key a =? k) l).
Proof.
  intros Hkey. induction l as [|a l IH]; simpl; [reflexivity|].
  rewrite Hkey. destruct (key a =? k); [reflexivity | exact IH].
Qed.

Lemma next_id_above (ids : list Z) (i : Z) : In i ids -> i < next_id ids.
Proof.
  unfold next_id. induction ids as [|j ids IH]; cbn [fold_right In]; [tauto|].
  intros [->|Hin]; [lia | specialize (IH Hin); lia].
Qed.

(** ** The checkout loop *)

Lemma loop_result_nil (oid : Z) (s : database) : loop_result oid [] s = s.
Proof.
  destruct s as [us ms rs os ois cs fs]. unfold loop_result; simpl. f_equal.
  - rewrite <- (map_id us) at 2. apply map_ext. intros u. destruct u; reflexivity.
  - rewrite <- (map_id ms) at 2. apply map_ext. intros m. destruct m; reflexivity.
Qed.

Lemma loop_result_cons (oid : Z) (m : StudyMaterial.t) (rest : list StudyMaterial.t)
  (s : database) :
  loop_result oid (m :: rest) s = loop_result oid rest (loop_step oid m s).
Proof.
  destruct s as [us ms rs os ois cs fs]. unfold loop_result, loop_step; simpl. f_equal.
  - rewrite map_map. apply map_ext. intros u. unfold credited; simpl.
    rewrite (Z.eqb_sym (StudyMaterial.seller_id m) (User.id u)).
    destruct (User.id u =? StudyMaterial.seller_id m); destruct u; reflexivity.
  - rewrite map_map. apply map_ext. intros x. unfold downloaded; simpl.
    rewrite (Z.eqb_sym (StudyMaterial.id m) (StudyMaterial.id x)).
    destruct (StudyMaterial.id x =? StudyMaterial.id m); destruct x; reflexivity.
Qed.

Lemma loop_step_get_user (oid : Z) (m : StudyMaterial.t) (s : database) (uid : Z) :
  get_user (loop_step oid m s) uid = None <-> get_user s uid = None.
Proof.
  unfold loop_step, get_user, update_user, update_material; simpl.
  rewrite (find_key_map User.id).
  - destruct (find _ (users s)); simpl; split; congruence.
  - intros u. destruct (User.id u =? _); destruct u; reflexivity.
Qed.

(** One turn of the loop, as a step of the unit of work. *)
Lemma loop_turn (storage_failure : option nat) (oid : Z) (m : StudyMaterial.t)
  (rest : list StudyMaterial.t) (s : database) :
  storage_failure <> Some O ->
  create_order_items storage_failure oid (m :: rest) s
  = match get_user s (StudyMaterial.seller_id m) with
    | Some _ => create_order_items (option_map Nat.pred storage_failure) oid rest
                                   (loop_step oid m s)
    | None => inl AttributeError
    end.
Proof.
  intros Hsf. cbn [create_order_items].
  destruct storage_failure as [[|k]|]; [congruence | |];
    unfold bind, add_order_item, modify, credit_seller;
    change (get_user (update_material _ _ _) ?x) with (get_user s x);
    destruct (get_user s (StudyMaterial.seller_id m)); reflexivity.
Qed.

(** A loop that comes through has produced exactly [loop_result]. *)
Lemma create_order_items_inr (storage_failure : option nat) (oid : Z)
  (ms : list StudyMaterial.t) (s s' : database) :
  create_order_items storage_failure oid ms s = inr (tt, s') ->
  s' = loop_result oid ms s.
Proof.
  revert storage_failure s. induction ms as [|m rest IH]; intros sf s H.
  - rewrite loop_result_nil. cbv in H. congruence.
  - rewrite loop_result_cons.
    assert (Hsf : sf <> Some O) by (intros ->; discriminate H).
    rewrite (loop_turn sf oid m rest s Hsf) in H.
    destruct (get_user s (StudyMaterial.seller_id m)); [|discriminate H].
    eapply IH; exact H.
Qed.

(** It comes through when the store holds and every seller is a user. *)
Lemma create_order_items_succeeds (storage_failure : option nat) (oid : Z)
  (ms : list StudyMaterial.t) (s : database) :
  spares storage_failure (List.length ms) ->
  Forall (fun m => get_user s (StudyMaterial.seller_id m) <> None) ms ->
  create_order_items storage_failure oid ms s = inr (tt, loop_result oid ms s).
Proof.
  revert storage_failure s. induction ms as [|m rest IH]; intros sf s Hsf Hsellers.
  - rewrite loop_result_nil. reflexivity.
  - rewrite loop_result_cons. inversion Hsellers as [|? ? Hm Hrest]; subst.
    rewrite loop_turn.
    + destruct (get_user s (StudyMaterial.seller_id m)); [|congruence].
      apply IH.
      * destruct sf as [k|]; simpl in *; [lia | exact I].
      * eapply Forall_impl; [|exact Hrest]. intros x Hx Hnone.
        apply Hx. now apply (loop_step_get_user oid m s).
    + destruct sf as [k|]; simpl in Hsf; [|congruence].
      intros Heq. injection Heq as ->. lia.
Qed.

(** A store failure planned inside the cart stops the loop. *)
Lemma create_order_items_fails (k : nat) (oid : Z) (ms : list StudyMaterial.t)
  (s : database) :
  (k < List.length ms)%nat ->
  exists e, create_order_items (Some k) oid ms s = inl e.
Proof.
  revert k s. induction ms as [|m rest IH]; intros k s Hk; simpl in Hk; [lia|].
  destruct k as [|k]; [eexists; reflexivity|].
  rewrite loop_turn by congruence.
  destruct (get_user s (StudyMaterial.seller_id m)).
  - apply IH. lia.
  - eexists; reflexivity.
Qed.

(** ** Checkout as a whole *)

Lemma number_taken_spec (n : string) (os : list Order.t) :
  existsb (fun o => String.eqb (Order.order_number o) n) os = true
  <-> In n (map Order.order_number os).
Proof.
  rewrite existsb_exists, in_map_iff. split.
  - intros [o [Hin Heq]]. apply String.eqb_eq in Heq. now exists o.
  - intros [o [Heq Hin]]. exists o. split; [assumption | now apply String.eqb_eq].
Qed.

(** What the body of the POST branch hands to the commit. *)
Lemma checkout_post_inr (cu : User.t) (uuid_hex : string) (now : Z)
  (sf : option nat) (s s' : database) (r : response) :
  checkout_post cu uuid_hex now sf s = inr (r, s') ->
  ~ In (make_order_number uuid_hex) (map Order.order_number (orders s))
  /\ r = order_placed (next_id (map Order.id (orders s)))
  /\ s' = checkout_result cu uuid_hex now s.
Proof.
  unfold checkout_post, bind, flush_order. intros H.
  destruct (existsb _ (orders s)) eqn:Htaken; [discriminate H|].
  destruct (create_order_items sf _ _ _) as [e|[[] s1]] eqn:Hloop; [discriminate H|].
  apply create_order_items_inr in Hloop. subst s1.
  unfold modify, ret in H. injection H as <- <-.
  split; [|split; reflexivity].
  rewrite <- number_taken_spec. congruence.
Qed.

Lemma checkout_post_succeeds (cu : User.t) (uuid_hex : string) (now : Z)
  (sf : option nat) (s : database) :
  ~ In (make_order_number uuid_hex) (map Order.order_number (orders s)) ->
  spares sf (List.length (cart s (User.id cu))) ->
  Forall (fun m => get_user s (StudyMaterial.seller_id m) <> None)
         (cart s (User.id cu)) ->
  checkout_post cu uuid_hex now sf s
  = inr (order_placed (next_id (map Order.id (orders s))),
         checkout_result cu uuid_hex now s).
Proof.
  intros Hfresh Hsf Hsellers. unfold checkout_post, bind, flush_order.
  destruct (existsb _ (orders s)) eqn:Htaken.
  - apply number_taken_spec in Htaken. contradiction.
  - rewrite create_order_items_succeeds; [reflexivity | exact Hsf | exact Hsellers].
Qed.

(** A checkout either commits [checkout_result] or leaves the store as it was. *)
Lemma checkout_inv (cu : User.t) (method : http_method) (uuid_hex : string)
  (now : Z) (sf : option nat) (s s' : database) (r : response) :
  checkout cu method uuid_hex now sf s = (s', r) ->
  (s' = s /\ forall oid, r <> order_placed oid)
  \/ (method = POST
      /\ cart s (User.id cu) <> []
      /\ ~ In (make_order_number uuid_hex) (map Order.order_number (orders s))
      /\ r = order_placed (next_id (map Order.id (orders s)))
      /\ s' = checkout_result cu uuid_hex now s).
Proof.
  unfold checkout. intros H.
  destruct (cart s (User.id cu)) as [|m ms] eqn:Hcart.
  - injection H as <- <-. left. split; [reflexivity | discriminate].
  - destruct method.
    + injection H as <- <-. left. split; [reflexivity | discriminate].
    + unfold run_request in H.
      destruct (checkout_post cu uuid_hex now sf s) as [e|[r0 s0]] eqn:Hpost.
      * injection H as <- <-. left. split; [reflexivity | discriminate].
      * injection H as <- <-. apply checkout_post_inr in Hpost as (Hf & Hr & Hs).
        right. rewrite <- Hcart at 1. repeat split; try assumption.
        rewrite Hcart. discriminate.
Qed.

Lemma appended_items_spec (oid : Z) (ms : list StudyMaterial.t)
  (ois : list OrderItem.t) :
  exists fresh,
    appended_items oid ms ois = ois ++ fresh
    /\ map (fun oi => (OrderItem.order_id oi, OrderItem.material_id oi,
                       OrderItem.price oi)) fresh
       = map (fun m => (oid, StudyMaterial.id m, StudyMaterial.price m)) ms.
Proof.
  revert ois. induction ms as [|m rest IH]; intros ois.
  - exists []. split; [now rewrite app_nil_r | reflexivity].
  - unfold appended_items in *. cbn [fold_left].
    destruct (IH (ois ++ [OrderItem.mk (next_id (map OrderItem.id ois))
                                       (StudyMaterial.price m) oid
                                       (StudyMaterial.id m) 0 None]))
      as [fresh [Happ Hmap]].
    eexists (_ :: fresh). split.
    + rewrite Happ, <- app_assoc. reflexivity.
    + cbn [map]. rewrite Hmap. reflexivity.
Qed.

Lemma flat_map_nil {A B : Type} (f : A -> list B) (l : list A) :
  (forall x, In x l -> f x = []) -> flat_map f l = [].
Proof.
  induction l as [|a l IH]; intros H; simpl; [reflexivity|].
  rewrite (H a) by now left. apply IH. intros x Hx. apply H. now right.
Qed.

Lemma cart_member (s : database) (uid : Z) (row : Z * Z) (m : StudyMaterial.t) :
  In row (cart_items s) -> fst row = uid -> get_material s (snd row) = Some m ->
  In m (cart s uid).
Proof.
  intros Hin Hfst Hget. unfold cart, joined. apply in_flat_map. exists row.
  split; [assumption|]. rewrite Hfst, Z.eqb_refl, Hget. now left.
Qed.

(** The materials of the committed state are those of [s], downloads apart. *)
Lemma checkout_result_get_material (cu : User.t) (uuid_hex : string) (now : Z)
  (s : database) (mid : Z) :
  get_material (checkout_result cu uuid_hex now s) mid = None
  <-> get_material s mid = None.
Proof.
  unfold get_material, checkout_result, delete_cart_rows, loop_result; simpl.
  rewrite (find_key_map StudyMaterial.id).
  - destruct (find _ (materials s)); simpl; split; congruence.
  - intros m. destruct m; reflexivity.
Qed.

Lemma checkout_result_cart (cu : User.t) (uuid_hex : string) (now : Z) (s : database) :
  cart (checkout_result cu uuid_hex now s) (User.id cu) = [].
Proof.
  unfold cart at 1, joined. apply flat_map_nil. intros row Hrow.
  unfold checkout_result at 1, delete_cart_rows at 1 in Hrow. simpl in Hrow.
  apply filter_In in Hrow as [Hin Hkeep].
  destruct (fst row =? User.id cu) eqn:Huid; [|reflexivity].
  destruct (get_material (checkout_result cu uuid_hex now s) (snd row)) eqn:Hget;
    [|reflexivity].
  exfalso. simpl in Hkeep.
  destruct (get_material s (snd row)) as [m|] eqn:Hold.
  - apply Z.eqb_eq in Huid.
    assert (Hm := cart_member s (User.id cu) row m Hin Huid Hold).
    apply get_material_some in Hold as [_ Hid].
    assert (Hex : existsb (fun x => StudyMaterial.id x =? snd row)
                          (cart s (User.id cu)) = true).
    { apply existsb_exists. exists m. split; [assumption | now apply Z.eqb_eq]. }
    rewrite Hex in Hkeep. discriminate Hkeep.
  - apply (proj2 (checkout_result_get_material cu uuid_hex now s (snd row))) in Hold.
    congruence.
Qed.

Lemma split_item_keys (oid : Z) (fresh : list OrderItem.t) (ms : list StudyMaterial.t) :
  map (fun oi => (OrderItem.order_id oi, OrderItem.material_id oi,
                  OrderItem.price oi)) fresh
  = map (fun m => (oid, StudyMaterial.id m, StudyMaterial.price m)) ms ->
  Forall (fun oi => OrderItem.order_id oi = oid) fresh
  /\ map (fun oi => (OrderItem.material_id oi, OrderItem.price oi)) fresh
     = map (fun m => (StudyMaterial.id m, StudyMaterial.price m)) ms.
Proof.
  revert ms. induction fresh as [|oi fresh IH]; intros [|m ms] H; simpl in H;
    try discriminate H.
  - split; [constructor | reflexivity].
  - injection H as Ho Hm Hp Hrest. destruct (IH ms Hrest) as [Hall Hmap]. split.
    + constructor; assumption.
    + simpl. now rewrite Hm, Hp, Hmap.
Qed.

Lemma filter_all {A : Type} (p : A -> bool) (l : list A) :
  Forall (fun a => p a = true) l -> filter p l = l.
Proof.
  induction 1 as [|a l Ha _ IH]; simpl; [reflexivity|]. now rewrite Ha, IH.
Qed.

Lemma filter_none {A : Type} (p : A -> bool) (l : list A) :
  Forall (fun a => p a = false) l -> filter p l = [].
Proof.
  induction 1 as [|a l Ha _ IH]; simpl; [reflexivity|]. now rewrite Ha, IH.
Qed.

(** The items of the new order are the cart, material by material. *)
Lemma checkout_result_items (cu : User.t) (uuid_hex : string) (now : Z) (s : database) :
  items_reference_orders s ->
  map (fun oi => (OrderItem.material_id oi, OrderItem.price oi))
      (items (checkout_result cu uuid_hex now s) (next_id (map Order.id (orders s))))
  = map (fun m => (StudyMaterial.id m, StudyMaterial.price m)) (cart s (User.id cu)).
Proof.
  intros Hfk. unfold items.
  change (order_items (checkout_result cu uuid_hex now s))
    with (appended_items (next_id (map Order.id (orders s)))
                         (cart s (User.id cu)) (order_items s)).
  destruct (appended_items_spec (next_id (map Order.id (orders s)))
                                (cart s (User.id cu)) (order_items s))
    as [fresh [-> Hkeys]].
  apply split_item_keys in Hkeys as [Hall Hmap].
  rewrite filter_app, filter_none, filter_all; [exact Hmap | |].
  - eapply Forall_impl; [|exact Hall]. intros oi Hoi. now apply Z.eqb_eq.
  - eapply Forall_impl; [|exact Hfk]. intros oi Hoi. apply Z.eqb_neq.
    apply next_id_above in Hoi. lia.
Qed.

Lemma edit_material_keeps_orders (editor : User.t) (method : http_method) (mid : Z)
  (f : material_form) (s : database) :
  orders (fst (edit_material editor method mid f s)) = orders s
  /\ order_items (fst (edit_material editor method mid f s)) = order_items s.
Proof.
  unfold edit_material.
  destruct (get_material s mid); [|split; reflexivity].
  destruct (_ && _); [split; reflexivity|].
  destruct method; [split; reflexivity|].
  destruct (checked_form f) as [[[ti de] p]|]; split; reflexivity.
Qed.

(** With a cart, a number not yet in use, a store that holds and sellers that
    exist, the POST goes through. *)
Lemma checkout_succeeds (cu : User.t) (uuid_hex : string) (now : Z)
  (sf : option nat) (s : database) :
  cart s (User.id cu) <> [] ->
  ~ In (make_order_number uuid_hex) (map Order.order_number (orders s)) ->
  spares sf (List.length (cart s (User.id cu))) ->
  Forall (fun m => get_user s (StudyMaterial.seller_id m) <> None)
         (cart s (User.id cu)) ->
  checkout cu POST uuid_hex now sf s
  = (checkout_result cu uuid_hex now s,
     order_placed (next_id (map Order.id (orders s)))).
Proof.
  intros Hcart Hfresh Hsf Hsellers. unfold checkout, run_request.
  rewrite checkout_post_succeeds by assumption.
  destruct (cart s (User.id cu)); [congruence | reflexivity].
Qed.

(** A number already in use makes the flush, hence the request, fail. *)
Lemma checkout_post_collision (cu : User.t) (uuid_hex : string) (now : Z)
  (sf : option nat) (s : database) :
  In (make_order_number uuid_hex) (map Order.order_number (orders s)) ->
  checkout_post cu uuid_hex now sf s = inl IntegrityError.
Proof.
  intros Hin. apply number_taken_spec in Hin.
  unfold checkout_post, bind, flush_order. now rewrite Hin.
Qed.

(** ** Entitlement *)

Lemma order_status_eqb_eq (a b : order_status) :
  order_status_eqb a b = true <-> a = b.
Proof. destruct a, b; simpl; split; congruence. Qed.

(** The purchase query finds a row exactly when a completed purchase exists. *)
Lemma purchased_item_spec (s : database) (uid mid : Z) :
  (exists oi, purchased_item s uid mid = Some oi) <-> completed_purchase s uid mid.
Proof.
  unfold purchased_item, completed_purchase. split.
  - intros [oi Hfind]. apply find_some in Hfind as [Hin Hp].
    apply andb_true_iff in Hp as [Hex Hmid].
    apply existsb_exists in Hex as [o [Ho Hc]].
    apply andb_true_iff in Hc as [Hc Hst]. apply andb_true_iff in Hc as [Hid Hb].
    exists o, oi. repeat split; try assumption.
    + symmetry. now apply Z.eqb_eq.
    + now apply Z.eqb_eq.
    + now apply order_status_eqb_eq.
    + now apply Z.eqb_eq.
  - intros (o & oi & Ho & Hoi & Hid & Hb & Hst & Hmid).
    match goal with |- exists x, find ?p ?l = Some x => destruct (find p l) eqn:Hfind end.
    + eexists; reflexivity.
    + exfalso. apply find_none with (x := oi) in Hfind; [|assumption].
      apply andb_false_iff in Hfind as [Hex|Hm].
      * assert (Htrue : existsb (fun o0 => (Order.id o0 =? OrderItem.order_id oi)
                                           && (Order.buyer_id o0 =? uid)
                                           && order_status_eqb (Order.status o0) completed)
                                (orders s) = true).
        { apply existsb_exists. exists o. split; [assumption|].
          rewrite Hid, Hb, Hst, !Z.eqb_refl. reflexivity. }
        congruence.
      * rewrite Hmid, Z.eqb_refl in Hm. discriminate Hm.
Qed.

Lemma purchased_item_none (s : database) (uid mid : Z) :
  purchased_item s uid mid = None <-> ~ completed_purchase s uid mid.
Proof.
  rewrite <- purchased_item_spec. split.
  - intros H [oi Hoi]. congruence.
  - intros H. destruct (purchased_item s uid mid) eqn:Hp; [|reflexivity].
    exfalso. apply H. eexists; reflexivity.
Qed.

Lemma has_access_spec (s : database) (cu : User.t) (m : StudyMaterial.t) :
  has_access s cu m = true
  <-> User.id cu = StudyMaterial.seller_id m
      \/ completed_purchase s (User.id cu) (StudyMaterial.id m).
Proof.
  unfold has_access. rewrite orb_true_iff, Z.eqb_eq, <- purchased_item_spec.
  split; (intros [H|H]; [left; congruence | right]).
  - destruct (purchased_item s _ _); [eexists; reflexivity | discriminate H].
  - destruct H as [oi ->]. reflexivity.
Qed.

(** [download_material] answers as [has_access] says. *)
Lemma download_by_access (s : database) (cu : User.t) (m : StudyMaterial.t)
  (mid now : Z) :
  get_material s mid = Some m ->
  snd (download_material cu mid now s)
  = (if has_access s cu m
     then SendFile (StudyMaterial.file_path m) (download_name m)
     else Redirect (Some (msg_no_access, cat_error)) (to_material_detail mid))
  /\ (has_access s cu m = false -> fst (download_material cu mid now s) = s).
Proof.
  intros Hget. destruct (get_material_some s mid m Hget) as [_ Hid].
  unfold download_material, has_access. rewrite Hget, Hid.
  destruct (StudyMaterial.seller_id m =? User.id cu); simpl.
  - split; [reflexivity | discriminate].
  - destruct (purchased_item s (User.id cu) mid); simpl;
      (split; [reflexivity | congruence]).
Qed.

(** ** What each handler leaves alone *)

Ltac break_handler :=
  repeat match goal with
         | |- context [match ?x with _ => _ end] =>
             lazymatch x with
             | context [match _ with _ => _ end] => fail
             | _ => destruct x
             end
         end;
  simpl; try reflexivity.

Ltac open_handlers :=
  unfold login_required, register, login, edit_profile, toggle_favorite,
    material_detail, sell, sell_post, run_request, edit_material,
    delete_material, add_to_cart, remove_from_cart, download_material;
  cbv beta.

Lemma add_review_inv (cu : User.t) (mid : Z) (rating : option Z)
  (comment : option string) (s s' : database) (r : response) :
  add_review cu mid rating comment s = (s', r) ->
  (s' = s /\ r <> review_added mid)
  \/ exists m rt,
       get_material s mid = Some m
       /\ completed_purchase s (User.id cu) mid
       /\ existing_review s mid (User.id cu) = None
       /\ rating = Some rt /\ rating_rejected rt = false
       /\ r = review_added mid
       /\ s' = review_result cu mid rt comment m s.
Proof.
  unfold add_review. intros H.
  destruct (get_material s mid) as [m|] eqn:Hget;
    [|injection H as <- <-; left; split; [reflexivity | discriminate]].
  destruct (purchased_item s (User.id cu) mid) as [oi|] eqn:Hp;
    [|injection H as <- <-; left; split; [reflexivity | discriminate]].
  destruct (existing_review s mid (User.id cu)) eqn:Hex;
    [injection H as <- <-; left; split; [reflexivity | discriminate]|].
  destruct rating as [rt|];
    [|injection H as <- <-; left; split; [reflexivity | discriminate]].
  destruct (rating_rejected rt) eqn:Hrt;
    [injection H as <- <-; left; split; [reflexivity | discriminate]|].
  injection H as <- <-. right. exists m, rt.
  repeat split; try assumption; try reflexivity.
  apply purchased_item_spec. eexists; exact Hp.
Qed.

Lemma handle_keeps_reviews (session : option Z) (r : request) (s : database) :
  is_add_review r = false -> reviews (fst (handle session r s)) = reviews s.
Proof.
  intros Hr. destruct r; try discriminate Hr; unfold handle.
  all: try (open_handlers; break_handler).
  match goal with
  | |- context [checkout ?a ?b ?c ?d ?e ?f] =>
      destruct (checkout a b c d e f) as [s' r'] eqn:H
  end.
  apply checkout_inv in H as [[-> _]|(_ & _ & _ & _ & ->)]; reflexivity.
Qed.

Lemma handle_keeps_orders (session : option Z) (r : request) (s : database) :
  is_checkout r = false -> orders (fst (handle session r s)) = orders s.
Proof.
  intros Hr. destruct r; try discriminate Hr; unfold handle.
  all: try (open_handlers; break_handler).
  match goal with
  | |- context [add_review ?a ?b ?c ?d ?e] =>
      destruct (add_review a b c d e) as [s' r'] eqn:H
  end.
  apply add_review_inv in H as [[-> _]|(m & rt & _ & _ & _ & _ & _ & _ & ->)];
    reflexivity.
Qed.




Lemma NoDup_snoc {A : Type} (l : list A) (x : A) :
  NoDup l -> ~ In x l -> NoDup (l ++ [x]).
Proof.
  induction 1 as [|a l Ha Hl IH]; intros Hx; simpl.
  - constructor; [tauto | constructor].
  - constructor.
    + rewrite in_app_iff. simpl. intros [H|[H|[]]]; [tauto | subst; apply Hx; now left].
    + apply IH. intros H. apply Hx. now right.
Qed.

(** ** Invariants of the request loop *)

Lemma existing_review_none (s : database) (mid uid : Z) :
  existing_review s mid uid = None
  <-> ~ In (mid, uid)
          (map (fun r => (Review.material_id r, Review.reviewer_id r)) (reviews s)).
Proof.
  unfold existing_review. split.
  - intros Hnone Hin. apply in_map_iff in Hin as [rv [Heq Hin]].
    apply (find_none _ _ Hnone) in Hin. injection Heq as Hm Hu.
    rewrite Hm, Hu, !Z.eqb_refl in Hin. discriminate Hin.
  - intros Hnot. destruct (find _ (reviews s)) as [rv|] eqn:Hfind; [|reflexivity].
    exfalso. apply find_some in Hfind as [Hin Htest]. apply Hnot.
    apply andb_true_iff in Htest as [Hm Hu].
    apply Z.eqb_eq in Hm. apply Z.eqb_eq in Hu.
    apply in_map_iff. exists rv. split; [now rewrite Hm, Hu | assumption].
Qed.

Lemma handle_one_review_per_pair (session : option Z) (r : request) (s : database) :
  one_review_per_pair s -> one_review_per_pair (fst (handle session r s)).
Proof.
  intros Hinv. unfold one_review_per_pair.
  destruct (is_add_review r) eqn:Hr; [|now rewrite handle_keeps_reviews].
  destruct r; try discriminate Hr. unfold handle, login_required.
  destruct (load_user session s) as [cu|]; [|exact Hinv].
  match goal with
  | |- context [add_review ?a ?b ?c ?d ?e] =>
      destruct (add_review a b c d e) as [s' r'] eqn:H
  end.
  apply add_review_inv in H as [[-> _]|(m & rt & _ & _ & Hnone & _ & _ & _ & ->)];
    [exact Hinv|].
  apply existing_review_none in Hnone.
  change (reviews (fst (review_result cu id rt comment m s, r')))
    with (reviews s ++ [new_review cu id rt comment m s]).
  rewrite map_app. apply NoDup_snoc; assumption.
Qed.

Lemma run_one_review_per_pair (rs : list (option Z * request)) (s : database) :
  one_review_per_pair s -> one_review_per_pair (run rs s).
Proof.
  revert s. induction rs as [|[session r] rs IH]; intros s Hinv; simpl; [exact Hinv|].
  apply IH. now apply handle_one_review_per_pair.
Qed.

Lemma handle_order_numbers_unique (session : option Z) (r : request) (s : database) :
  order_numbers_unique s -> order_numbers_unique (fst (handle session r s)).
Proof.
  intros Hinv. unfold order_numbers_unique.
  destruct (is_checkout r) eqn:Hr; [|now rewrite handle_keeps_orders].
  destruct r; try discriminate Hr. unfold handle, login_required.
  destruct (load_user session s) as [cu|]; [|exact Hinv].
  match goal with
  | |- context [checkout ?a ?b ?c ?d ?e ?f] =>
      destruct (checkout a b c d e f) as [s' r'] eqn:H
  end.
  apply checkout_inv in H as [[-> _]|(_ & _ & Hfresh & _ & ->)]; [exact Hinv|].
  change (orders (fst (checkout_result cu uuid_hex now s, r')))
    with (orders s ++ [new_order cu uuid_hex now s]).
  rewrite map_app. apply NoDup_snoc; assumption.
Qed.

(** ** Earnings *)






(** ** Ratings *)

Lemma update_rating_matches (s : database) (x : StudyMaterial.t) :
  rating_matches_reviews s (update_rating s x).
Proof.
  unfold rating_matches_reviews, update_rating.
  destruct (reviews_of s (StudyMaterial.id x)) as [|rv rvs] eqn:Hrs.
  - destruct x; simpl in *. rewrite Hrs. split; reflexivity.
  - assert (Hid : StudyMaterial.id
                    (StudyMaterial.with_rating
                       (inject_Z (sum_ratings (rv :: rvs))
                        / inject_Z (Z.of_nat (List.length (rv :: rvs))))%Q
                       (Z.of_nat (List.length (rv :: rvs))) x)
                  = StudyMaterial.id x) by (destruct x; reflexivity).
    rewrite Hid, Hrs. split.
    + destruct x; unfold arithmetic_mean, sum_ratings;
        cbn [map List.length StudyMaterial.rating StudyMaterial.with_rating].
      rewrite length_map. reflexivity.
    + destruct x; reflexivity.
Qed.

(** A review for another material does not disturb the aggregate of this one. *)
Lemma review_elsewhere (s : database) (rv : Review.t) (x : StudyMaterial.t) :
  Review.material_id rv <> StudyMaterial.id x ->
  rating_matches_reviews s x ->
  rating_matches_reviews (with_reviews (reviews s ++ [rv]) s) x.
Proof.
  intros Hne H. unfold rating_matches_reviews, reviews_of in *. simpl.
  rewrite filter_app. simpl.
  apply Z.eqb_neq in Hne. rewrite Hne, app_nil_r. exact H.
Qed.

(** After an accepted review every row of the reviewed material agrees with
    its reviews, and the rows that agreed before still do. *)
Lemma review_result_ratings (cu : User.t) (mid rt : Z) (comment : option string)
  (m : StudyMaterial.t) (s : database) (x : StudyMaterial.t) :
  StudyMaterial.id m = mid ->
  In x (materials (review_result cu mid rt comment m s)) ->
  (StudyMaterial.id x = mid
   \/ exists x0, In x0 (materials s) /\ x = x0 /\ rating_matches_reviews s x0) ->
  rating_matches_reviews (review_result cu mid rt comment m s) x.
Proof.
  intros Hm Hin Hcase.
  set (s1 := with_reviews (reviews s ++ [new_review cu mid rt comment m s]) s).
  change (rating_matches_reviews s1 x).
  change (In x (map (fun y => if StudyMaterial.id y =? StudyMaterial.id m
                              then update_rating s1 y else y) (materials s))) in Hin.
  apply in_map_iff in Hin as [y [Hy Hyin]].
  destruct (StudyMaterial.id y =? StudyMaterial.id m) eqn:Hid.
  - subst x. apply update_rating_matches.
  - subst x. apply Z.eqb_neq in Hid. rewrite Hm in Hid.
    destruct Hcase as [Heq|[x0 [_ [<- Hok]]]]; [contradiction|].
    apply review_elsewhere; [|exact Hok]. simpl. congruence.
Qed.

Lemma add_review_ratings_consistent (cu : User.t) (mid : Z) (rating : option Z)
  (comment : option string) (s : database) :
  ratings_consistent s ->
  ratings_consistent (fst (add_review cu mid rating comment s)).
Proof.
  intros Hinv. destruct (add_review cu mid rating comment s) as [s' r] eqn:H.
  apply add_review_inv in H as [[-> _]|(m & rt & Hget & _ & _ & _ & _ & _ & ->)];
    [exact Hinv|].
  apply get_material_some in Hget as [_ Hm]. simpl.
  unfold ratings_consistent in *. apply Forall_forall. intros x Hx.
  apply review_result_ratings; [exact Hm | exact Hx |].
  pose proof Hx as Hx'.
  change (In x (map (fun y => if StudyMaterial.id y =? StudyMaterial.id m
                              then update_rating
                                     (with_reviews
                                        (reviews s ++ [new_review cu mid rt comment m s]) s) y
                              else y) (materials s))) in Hx'.
  apply in_map_iff in Hx' as [y [Hy Hyin]].
  destruct (StudyMaterial.id y =? StudyMaterial.id m) eqn:Hid.
  - left. subst x. apply Z.eqb_eq in Hid. rewrite <- Hm, <- Hid.
    unfold update_rating. destruct (reviews_of _ _); destruct y; reflexivity.
  - right. exists y. subst x. split; [exact Hyin|]. split; [reflexivity|].
    rewrite Forall_forall in Hinv. now apply Hinv.
Qed.

(** ** Carts *)

Lemma in_cart_spec (s : database) (uid : Z) (m : StudyMaterial.t) :
  in_cart s uid m = true
  <-> In (StudyMaterial.id m) (map StudyMaterial.id (cart s uid)).
Proof.
  unfold in_cart, contains. rewrite existsb_exists, in_map_iff. split.
  - intros [c [Hc Heq]]. exists c. split; [now apply Z.eqb_eq | assumption].
  - intros [c [Heq Hc]]. exists c. split; [assumption | now apply Z.eqb_eq].
Qed.

(** A material of the catalogue sits in a cart as often as the cart table has
    the row for it. *)
Lemma cart_count (s : database) (uid mid : Z) (m : StudyMaterial.t)
  (rows : list (Z * Z)) :
  get_material s mid = Some m ->
  count_occ Z.eq_dec (map StudyMaterial.id (cart (with_cart_items rows s) uid)) mid
  = count_occ row_eq_dec rows (uid, mid).
Proof.
  intros Hget. unfold cart, joined.
  change (cart_items (with_cart_items rows s)) with rows.
  change (get_material (with_cart_items rows s)) with (get_material s).
  induction rows as [|[a b] rows IH]; [reflexivity|].
  cbn [flat_map fst snd]. rewrite map_app, count_occ_app, IH.
  destruct (row_eq_dec (a, b) (uid, mid)) as [Heq|Hne].
  - rewrite (count_occ_cons_eq row_eq_dec _ Heq).
    injection Heq as -> ->. rewrite Z.eqb_refl, Hget.
    apply get_material_some in Hget as [_ Hm]. cbn [map].
    rewrite (count_occ_cons_eq Z.eq_dec _ Hm). reflexivity.
  - rewrite (count_occ_cons_neq row_eq_dec _ Hne).
    destruct (a =? uid) eqn:Ha; [|reflexivity].
    apply Z.eqb_eq in Ha. subst a.
    destruct (get_material s b) as [c|] eqn:Hb; [|reflexivity].
    apply get_material_some in Hb as [_ Hc]. cbn [map].
    rewrite count_occ_cons_neq; [reflexivity|].
    intros Habs. apply Hne. congruence.
Qed.

Lemma with_cart_items_same (s : database) : with_cart_items (cart_items s) s = s.
Proof. destruct s; reflexivity. Qed.

(** ** Stores the application can reach *)

Lemma run_invariant (P : database -> Prop) :
  (forall session r s, P s -> P (fst (handle session r s))) ->
  forall rs s, P s -> P (run rs s).
Proof.
  intros Hstep rs. induction rs as [|[session r] rs IH]; intros s Hs; simpl;
    [exact Hs|].
  apply IH. now apply Hstep.
Qed.

Lemma handle_items_reference_orders (session : option Z) (r : request) (s : database) :
  items_reference_orders s -> items_reference_orders (fst (handle session r s)).
Proof.
  intros Hinv. destruct r; unfold handle.
  all: try (open_handlers; break_handler; exact Hinv).
  - (* checkout *)
    unfold login_required. destruct (load_user session s) as [cu|]; [|exact Hinv].
    match goal with
    | |- context [checkout ?a ?b ?c ?d ?e ?f] =>
        destruct (checkout a b c d e f) as [s' r'] eqn:H
    end.
    apply checkout_inv in H as [[-> _]|(_ & _ & _ & _ & ->)]; [exact Hinv|].
    unfold items_reference_orders in *.
    change (order_items (fst (checkout_result cu uuid_hex now s, r')))
      with (appended_items (next_id (map Order.id (orders s)))
                           (cart s (User.id cu)) (order_items s)).
    change (orders (fst (checkout_result cu uuid_hex now s, r')))
      with (orders s ++ [new_order cu uuid_hex now s]).
    destruct (appended_items_spec (next_id (map Order.id (orders s)))
                                  (cart s (User.id cu)) (order_items s))
      as [fresh [-> Hkeys]].
    apply split_item_keys in Hkeys as [Hall _].
    rewrite map_app. apply Forall_app. split.
    + eapply Forall_impl; [|exact Hinv]. intros oi Hoi.
      apply in_or_app. now left.
    + eapply Forall_impl; [|exact Hall]. intros oi Hoi.
      apply in_or_app. right. left. now rewrite Hoi.
  - (* download_material *)
    open_handlers; break_handler; try exact Hinv.
    unfold items_reference_orders in *. simpl.
    rewrite Forall_map. eapply Forall_impl; [|exact Hinv].
    intros oi Hoi. destruct (OrderItem.id oi =? _); exact Hoi.
  - (* add_review *)
    unfold login_required. destruct (load_user session s) as [cu|]; [|exact Hinv].
    match goal with
    | |- context [add_review ?a ?b ?c ?d ?e] =>
        destruct (add_review a b c d e) as [s' r'] eqn:H
    end.
    apply add_review_inv in H as [[-> _]|(m & rt & _ & _ & _ & _ & _ & _ & ->)];
      exact Hinv.
Qed.

(** A material that is not in the cart has no row in the cart table. *)
Lemma not_in_cart_no_row (s : database) (uid mid : Z) (m : StudyMaterial.t) :
  get_material s mid = Some m ->
  in_cart s uid m = false ->
  ~ In (uid, mid) (cart_items s).
Proof.
  intros Hget Hout.
  assert (Hcount := cart_count s uid mid m (cart_items s) Hget).
  rewrite with_cart_items_same in Hcount.
  apply (count_occ_not_In row_eq_dec). rewrite <- Hcount.
  apply count_occ_not_In. intros Hin.
  apply get_material_some in Hget as [_ Hid]. rewrite <- Hid in Hin.
  apply in_cart_spec in Hin. congruence.
Qed.

Lemma handle_cart_key (session : option Z) (r : request) (s : database) :
  NoDup (cart_items s) -> NoDup (cart_items (fst (handle session r s))).
Proof.
  intros Hinv. destruct r; unfold handle.
  all: try (open_handlers; break_handler; exact Hinv).
  - (* add_to_cart *)
    unfold login_required. destruct (load_user session s) as [cu|]; [|exact Hinv].
    unfold add_to_cart.
    destruct (get_material s material_id) as [m|] eqn:Hget; [|exact Hinv].
    destruct (_ =? _); [exact Hinv|].
    destruct (in_cart s (User.id cu) m) eqn:Hout; [exact Hinv|].
    simpl. apply NoDup_snoc; [exact Hinv|].
    destruct (get_material_some s material_id m Hget) as [_ ->].
    now apply (not_in_cart_no_row s (User.id cu) material_id m).
  - (* remove_from_cart *)
    open_handlers; break_handler; try exact Hinv. now apply NoDup_filter.
  - (* checkout *)
    unfold login_required. destruct (load_user session s) as [cu|]; [|exact Hinv].
    match goal with
    | |- context [checkout ?a ?b ?c ?d ?e ?f] =>
        destruct (checkout a b c d e f) as [s' r'] eqn:H
    end.
    apply checkout_inv in H as [[-> _]|(_ & _ & _ & _ & ->)]; [exact Hinv|].
    simpl. now apply NoDup_filter.
  - (* add_review *)
    unfold login_required. destruct (load_user session s) as [cu|]; [|exact Hinv].
    match goal with
    | |- context [add_review ?a ?b ?c ?d ?e] =>
        destruct (add_review a b c d e) as [s' r'] eqn:H
    end.
    apply add_review_inv in H as [[-> _]|(m & rt & _ & _ & _ & _ & _ & _ & ->)];
      exact Hinv.
Qed.

Lemma material_ids_of_entries (ms : list StudyMaterial.t) :
  map StudyMaterial.id ms = map (fun e => fst (fst e)) (map rating_entry ms).
Proof. rewrite map_map. reflexivity. Qed.

(** Reviews and aggregates only look at the review table and at the key and
    aggregate columns of the materials. *)
Lemma ratings_transfer (s s' : database) :
  reviews s' = reviews s ->
  map rating_entry (materials s') = map rating_entry (materials s) ->
  well_rated s -> well_rated s'.
Proof.
  intros Hrev Hmap [Hfk Hrc]. split.
  - unfold reviews_reference_materials in *.
    now rewrite Hrev, material_ids_of_entries, Hmap, <- material_ids_of_entries.
  - unfold ratings_consistent in *.
    set (Q := fun e : Z * Q * Z =>
                snd (fst e)
                = arithmetic_mean
                    (map Review.rating
                         (filter (fun r => Review.material_id r =? fst (fst e))
                                 (reviews s)))
                /\ snd e
                   = Z.of_nat
                       (List.length
                          (filter (fun r => Review.material_id r =? fst (fst e))
                                  (reviews s)))).
    assert (Hs : forall m, rating_matches_reviews s m <-> Q (rating_entry m))
      by (intros m; reflexivity).
    assert (Hs' : forall m, rating_matches_reviews s' m <-> Q (rating_entry m))
      by (intros m; unfold rating_matches_reviews, reviews_of; rewrite Hrev;
          reflexivity).
    apply Forall_forall. intros m Hm. apply Hs'.
    assert (HQ : Forall Q (map rating_entry (materials s))).
    { apply Forall_map. eapply Forall_impl; [|exact Hrc]. intros x. apply Hs. }
    rewrite <- Hmap in HQ. rewrite Forall_forall in HQ.
    apply HQ. now apply in_map.
Qed.

Lemma update_rating_id (s : database) (x : StudyMaterial.t) :
  StudyMaterial.id (update_rating s x) = StudyMaterial.id x.
Proof. unfold update_rating. destruct (reviews_of _ _); destruct x; reflexivity. Qed.

Ltac same_ratings Hinv :=
  simpl;
  first
    [ exact Hinv
    | eapply ratings_transfer;
      [ | | exact Hinv ];
      [ reflexivity
      | simpl;
        first [ reflexivity
              | rewrite map_map; apply map_ext;
                let m := fresh "m" in
                intros m;
                match goal with
                | |- context [if ?c then _ else _] => destruct c
                end;
                destruct m; reflexivity ] ] ].

Lemma handle_well_rated (session : option Z) (r : request) (s : database) :
  well_rated s -> well_rated (fst (handle session r s)).
Proof.
  intros Hinv. destruct r; unfold handle.
  all: try (open_handlers; break_handler; same_ratings Hinv).
  - (* sell *)
    unfold login_required. destruct (load_user session s) as [cu|]; [|exact Hinv].
    unfold sell. destruct method; [exact Hinv|].
    destruct file; try exact Hinv.
    unfold run_request, sell_post.
    destruct (checked_form f) as [[[ti de] p]|]; [|exact Hinv].
    set (s1 := if User.is_seller cu then s
               else update_user (User.id cu) (User.with_is_seller true) s).
    assert (Hm : materials s1 = materials s) by (subst s1; destruct (User.is_seller cu); reflexivity).
    assert (Hr : reviews s1 = reviews s) by (subst s1; destruct (User.is_seller cu); reflexivity).
    destruct Hinv as [Hfk Hrc]. cbn [fst]. split.
    + unfold reviews_reference_materials in *. simpl. rewrite Hr, Hm, map_app.
      eapply Forall_impl; [|exact Hfk]. intros rv Hrv. apply in_or_app. now left.
    + unfold ratings_consistent in *. simpl. rewrite Hm. apply Forall_app. split.
      * eapply Forall_impl; [|exact Hrc]. intros x Hx.
        unfold rating_matches_reviews, reviews_of in *. simpl. now rewrite Hr.
      * constructor; [|constructor].
        unfold rating_matches_reviews, reviews_of. simpl. rewrite Hr.
        rewrite filter_none; [split; reflexivity|].
        eapply Forall_impl; [|exact Hfk]. intros rv Hrv. apply Z.eqb_neq.
        apply next_id_above in Hrv. lia.
  - (* checkout *)
    unfold login_required. destruct (load_user session s) as [cu|]; [|exact Hinv].
    match goal with
    | |- context [checkout ?a ?b ?c ?d ?e ?f] =>
        destruct (checkout a b c d e f) as [s' r'] eqn:H
    end.
    apply checkout_inv in H as [[-> _]|(_ & _ & _ & _ & ->)]; [exact Hinv|].
    eapply ratings_transfer; [| |exact Hinv]; [reflexivity|].
    simpl. rewrite map_map. apply map_ext. intros m. destruct m; reflexivity.
  - (* add_review *)
    unfold login_required. destruct (load_user session s) as [cu|]; [|exact Hinv].
    destruct Hinv as [Hfk Hrc]. split;
      [|now apply add_review_ratings_consistent].
    destruct (add_review cu id rating comment s) as [s' r'] eqn:H.
    apply add_review_inv in H as [[-> _]|(m & rt & Hget & _ & _ & _ & _ & _ & ->)];
      [exact Hfk|].
    unfold reviews_reference_materials in *. simpl.
    assert (Hids : map StudyMaterial.id
                     (map (fun y => if StudyMaterial.id y =? StudyMaterial.id m
                                    then update_rating
                                           (with_reviews
                                              (reviews s ++ [new_review cu id rt comment m s]) s) y
                                    else y) (materials s))
                   = map StudyMaterial.id (materials s)).
    { rewrite map_map. apply map_ext. intros y.
      destruct (_ =? _); [apply update_rating_id | reflexivity]. }
    rewrite Hids. apply Forall_app. split; [exact Hfk|].
    constructor; [|constructor]. simpl.
    apply get_material_some in Hget as [Hin <-]. now apply in_map.
Qed.

Lemma handle_well_formed (session : option Z) (r : request) (s : database) :
  well_formed s -> well_formed (fst (handle session r s)).
Proof.
  intros (H1 & H2 & H3 & H4 & H5). repeat split.
  - now apply handle_items_reference_orders.
  - now apply handle_cart_key.
  - now apply handle_order_numbers_unique.
  - now apply handle_one_review_per_pair.
  - now apply handle_well_rated.
  - now apply handle_well_rated.
Qed.

(** Every store the application can reach respects the schema and has its
    aggregates right. *)
Lemma reachable_well_formed (s : database) : reachable s -> well_formed s.
Proof.
  intros [rs ->]. apply (run_invariant well_formed).
  - apply handle_well_formed.
  - repeat split; constructor.
Qed.

(** ** Claims *)

(** C1. A checkout that goes through leaves the buyer's cart empty and
    appends one order: completed, its total the sum of the prices the cart
    materials had at that moment, with one order item per cart material that
    stores that material's price, so that the item prices add up to the total.
    Editing a material afterwards (its price included) changes neither the
    order table nor the order items. *)
Theorem checkout_freezes_order (cu : User.t) (method : http_method)
  (uuid_hex : string) (now : Z) (sf : option nat) (s s' : database) (oid : Z) :
  items_reference_orders s ->
  checkout cu method uuid_hex now sf s = (s', order_placed oid) ->
  cart s (User.id cu) <> []
  /\ cart s' (User.id cu) = []
  /\ exists order,
       orders s' = orders s ++ [order]
       /\ Order.id order = oid
       /\ Order.buyer_id order = User.id cu
       /\ Order.status order = completed
       /\ Order.total_amount order
          = sum_prices (map StudyMaterial.price (cart s (User.id cu)))
       /\ map (fun oi => (OrderItem.material_id oi, OrderItem.price oi)) (items s' oid)
          = map (fun m => (StudyMaterial.id m, StudyMaterial.price m))
                (cart s (User.id cu))
       /\ sum_prices (map OrderItem.price (items s' oid)) = Order.total_amount order
       /\ forall editor method' mid f,
            orders (fst (edit_material editor method' mid f s')) = orders s'
            /\ items (fst (edit_material editor method' mid f s')) oid = items s' oid.
Proof.
  intros Hfk H. apply checkout_inv in H as [[_ Hr]|(_ & Hcart & _ & Hr & ->)].
  - now elim (Hr oid).
  - injection Hr as ->.
    assert (Hitems := checkout_result_items cu uuid_hex now s Hfk).
    split; [exact Hcart|]. split; [apply checkout_result_cart|].
    exists (new_order cu uuid_hex now s).
    repeat split; try reflexivity; try exact Hitems.
    + apply (f_equal (map snd)) in Hitems. rewrite !map_map in Hitems.
      exact (f_equal sum_prices Hitems).
    + apply edit_material_keeps_orders.
    + unfold items. now rewrite (proj2 (edit_material_keeps_orders _ _ _ _ _)).
Qed.

(** C2. Checkout is all or nothing.  Whatever happens, the committed store is
    either the one before the request or the one with every effect of the
    checkout; a request that ends in the 500 handler commits nothing.  In
    particular a store failure after [k] of the order items, with the order
    already flushed into the pending session, ends there. *)
Theorem checkout_all_or_nothing (cu : User.t) (method : http_method)
  (uuid_hex : string) (now : Z) (sf : option nat) (s s' : database) (r : response) :
  checkout cu method uuid_hex now sf s = (s', r) ->
  (s' = s \/ s' = checkout_result cu uuid_hex now s /\ exists oid, r = order_placed oid)
  /\ (r = ServerError -> s' = s)
  /\ (forall k,
        method = POST -> sf = Some k ->
        (k < List.length (cart s (User.id cu)))%nat ->
        r = ServerError /\ s' = s
        /\ (~ In (make_order_number uuid_hex) (map Order.order_number (orders s)) ->
            exists e,
              create_order_items (Some k) (next_id (map Order.id (orders s)))
                (cart s (User.id cu))
                (with_orders (orders s ++ [new_order cu uuid_hex now s]) s)
              = inl e)).
Proof.
  intros H. split; [|split].
  - apply checkout_inv in H as [[-> _]|(_ & _ & _ & -> & ->)].
    + now left.
    + right. split; [reflexivity | eexists; reflexivity].
  - intros ->. apply checkout_inv in H as [[-> _]|(_ & _ & _ & Hr & _)].
    + reflexivity.
    + discriminate Hr.
  - intros k -> -> Hk. unfold checkout, run_request in H.
    assert (Hfail : exists e, checkout_post cu uuid_hex now (Some k) s = inl e).
    { unfold checkout_post, bind, flush_order.
      destruct (existsb _ (orders s)); [eexists; reflexivity|].
      destruct (create_order_items_fails k (next_id (map Order.id (orders s)))
                  (cart s (User.id cu))
                  (with_orders (orders s ++ [new_order cu uuid_hex now s]) s) Hk)
        as [e He].
      unfold new_order in He. rewrite He. eexists; reflexivity. }
    destruct Hfail as [e He]. rewrite He in H.
    destruct (cart s (User.id cu)) as [|m ms] eqn:Hcart; [simpl in Hk; lia|].
    injection H as <- <-. split; [reflexivity|]. split; [reflexivity|].
    intros _. rewrite <- Hcart. apply create_order_items_fails.
    rewrite Hcart. exact Hk.
Qed.

(** C3. [has_access] holds exactly for the seller of the material and for a
    user with a completed order that contains an item for it.  The seller
    always has access; [download_material] sends the file when [has_access]
    holds and otherwise answers with the access error and writes nothing. *)
Theorem access_by_ownership_or_purchase (s : database) (cu : User.t)
  (m : StudyMaterial.t) :
  (has_access s cu m = true
   <-> User.id cu = StudyMaterial.seller_id m
       \/ completed_purchase s (User.id cu) (StudyMaterial.id m))
  /\ (User.id cu = StudyMaterial.seller_id m -> has_access s cu m = true)
  /\ forall mid now,
       get_material s mid = Some m ->
       snd (download_material cu mid now s)
       = (if has_access s cu m
          then SendFile (StudyMaterial.file_path m) (download_name m)
          else Redirect (Some (msg_no_access, cat_error)) (to_material_detail mid))
       /\ (has_access s cu m = false -> fst (download_material cu mid now s) = s).
Proof.
  split; [apply has_access_spec|]. split.
  - intros H. apply has_access_spec. now left.
  - intros mid now Hget. now apply download_by_access.
Qed.

(** C4. After an accepted review the rating of the reviewed material is the
    arithmetic mean of the ratings of all its reviews and its rating count is
    their number; a store whose materials all agree with their reviews in
    this way ([0] and [0] without reviews) still does after any sequence of
    [add_review] requests; and so does every store reachable from the empty
    database. *)
Theorem rating_is_mean_of_reviews :
  (forall cu mid rating comment s s' x,
      add_review cu mid rating comment s = (s', review_added mid) ->
      In x (materials s') -> StudyMaterial.id x = mid ->
      StudyMaterial.rating x
      = arithmetic_mean (map Review.rating (reviews_of s' mid))
      /\ StudyMaterial.rating_count x = Z.of_nat (List.length (reviews_of s' mid))
      /\ reviews_of s' mid <> [])
  /\ (forall rs s,
        Forall (fun ur => is_add_review (snd ur) = true) rs ->
        ratings_consistent s -> ratings_consistent (run rs s))
  /\ (forall s, reachable s -> ratings_consistent s).
Proof.
  split; [|split];
    [| |intros s Hs; apply reachable_well_formed in Hs; apply Hs].
  - intros cu mid rating comment s s' x H Hx Hid.
    apply add_review_inv in H as [[_ Hr]|(m & rt & Hget & _ & _ & _ & _ & _ & ->)];
      [now elim Hr|].
    apply get_material_some in Hget as [_ Hm].
    destruct (review_result_ratings cu mid rt comment m s x Hm Hx (or_introl Hid))
      as [Hrating Hcount].
    rewrite Hid in Hrating, Hcount. repeat split; try assumption.
    unfold reviews_of, review_result; simpl. rewrite filter_app; simpl.
    rewrite Z.eqb_refl. intros Hnil. apply app_eq_nil in Hnil as [_ Hnil].
    discriminate Hnil.
  - intros rs. induction rs as [|[session r] rs IH]; intros s Hrs Hinv; simpl;
      [exact Hinv|].
    inversion Hrs as [|? ? Hr Hrest]; subst. apply IH; [exact Hrest|].
    destruct r; try discriminate Hr. unfold handle, login_required.
    destruct (load_user session s) as [cu|]; [|exact Hinv].
    now apply add_review_ratings_consistent.
Qed.

(** C5. A review needs a completed purchase: without one [add_review]
    answers with the purchase error and writes nothing, with one it never
    gives that answer.  Owning the material does not help: its seller passes
    the download check and is still turned away. *)
Theorem review_requires_purchase (cu : User.t) (mid : Z) (rating : option Z)
  (comment : option string) (s : database) (m : StudyMaterial.t) :
  get_material s mid = Some m ->
  (~ completed_purchase s (User.id cu) mid ->
   add_review cu mid rating comment s
   = (s, Redirect (Some (msg_only_purchased, cat_error)) (to_material_detail mid)))
  /\ (completed_purchase s (User.id cu) mid ->
      snd (add_review cu mid rating comment s)
      <> Redirect (Some (msg_only_purchased, cat_error)) (to_material_detail mid))
  /\ (StudyMaterial.seller_id m = User.id cu ->
      ~ completed_purchase s (User.id cu) mid ->
      has_access s cu m = true
      /\ add_review cu mid rating comment s
         = (s, Redirect (Some (msg_only_purchased, cat_error))
                        (to_material_detail mid))).
Proof.
  intros Hget.
  assert (Hno : ~ completed_purchase s (User.id cu) mid ->
                add_review cu mid rating comment s
                = (s, Redirect (Some (msg_only_purchased, cat_error))
                               (to_material_detail mid))).
  { intros Hnp. apply purchased_item_none in Hnp.
    unfold add_review. now rewrite Hget, Hnp. }
  split; [exact Hno|]. split.
  - intros Hp. apply purchased_item_spec in Hp as [oi Hoi].
    unfold add_review. rewrite Hget, Hoi.
    destruct (existing_review s mid (User.id cu)); [discriminate|].
    destruct rating as [r|]; [|discriminate].
    destruct (rating_rejected r); discriminate.
  - intros Hseller Hnp. split; [|exact (Hno Hnp)].
    unfold has_access. rewrite Hseller, Z.eqb_refl. reflexivity.
Qed.

(** C6. With a completed purchase and a review of the pair on record, a
    further [add_review] answers with the duplicate error and writes nothing;
    and whatever requests are served, no (material, reviewer) pair ever gets a
    second review: a store without such a pair stays so, and none is
    reachable from the empty database. *)
Theorem second_review_rejected (cu : User.t) (mid : Z) (rating : option Z)
  (comment : option string) (s : database) (m : StudyMaterial.t) (rv : Review.t) :
  get_material s mid = Some m ->
  completed_purchase s (User.id cu) mid ->
  In rv (reviews s) ->
  Review.material_id rv = mid ->
  Review.reviewer_id rv = User.id cu ->
  add_review cu mid rating comment s
  = (s, Redirect (Some (msg_already_reviewed, cat_error)) (to_material_detail mid))
  /\ (forall rs, one_review_per_pair s -> one_review_per_pair (run rs s))
  /\ (forall s0, reachable s0 -> one_review_per_pair s0).
Proof.
  intros Hget Hp Hin Hm Hu.
  split; [|split; [intros rs; apply run_one_review_per_pair|]];
    [|intros s0 Hs0; apply reachable_well_formed in Hs0; apply Hs0].
  apply purchased_item_spec in Hp as [oi Hoi].
  unfold add_review. rewrite Hget, Hoi.
  destruct (existing_review s mid (User.id cu)) eqn:Hex; [reflexivity|].
  exfalso. apply existing_review_none in Hex. apply Hex.
  apply in_map_iff. exists rv. split; [now rewrite Hm, Hu | assumption].
Qed.

(** C7, the draw can collide.  The order number comes from the uuid alone:
    with order [SS-DEADBEEF] on record, a checkout whose uuid starts with
    [deadbeef] generates that very number; the request ends in the 500
    handler. *)
Lemma generated_number_collides :
  In (make_order_number "deadbeef99887766")
     (map Order.order_number (orders (carted_again 10 5)))
  /\ checkout bob POST "deadbeef99887766" 300 None (carted_again 10 5)
     = (carted_again 10 5, ServerError).
Proof. split; [vm_compute; left; reflexivity | vm_compute; reflexivity]. Qed.

(** C7, as the code has it.  A checkout either leaves the order table alone
    or appends one order, and then the number drawn for it is carried by no
    order on record; a draw that is already in use commits nothing and places
    no order (a POST with a cart ends in the 500 handler); so order numbers
    stay pairwise distinct, and they are in every store reachable from the
    empty database. *)
Theorem placed_order_number_is_fresh (cu : User.t) (method : http_method)
  (uuid_hex : string) (now : Z) (sf : option nat) (s s' : database) (r : response) :
  checkout cu method uuid_hex now sf s = (s', r) ->
  (orders s' = orders s
   \/ exists order,
        orders s' = orders s ++ [order]
        /\ Order.order_number order = make_order_number uuid_hex
        /\ ~ In (Order.order_number order) (map Order.order_number (orders s)))
  /\ (In (make_order_number uuid_hex) (map Order.order_number (orders s)) ->
      s' = s
      /\ (forall oid, r <> order_placed oid)
      /\ (method = POST -> cart s (User.id cu) <> [] -> r = ServerError))
  /\ (order_numbers_unique s -> order_numbers_unique s')
  /\ (forall s0, reachable s0 -> order_numbers_unique s0).
Proof.
  intros H.
  split; [|split; [|split;
    [|intros s0 Hs0; apply reachable_well_formed in Hs0; apply Hs0]]].
  - apply checkout_inv in H as [[-> _]|(_ & _ & Hfresh & _ & ->)]; [now left|].
    right. exists (new_order cu uuid_hex now s). repeat split. exact Hfresh.
  - intros Hin. pose proof H as H0.
    apply checkout_inv in H as [[-> Hr]|(_ & _ & Hfresh & _ & _)]; [|contradiction].
    split; [reflexivity|]. split; [exact Hr|].
    intros -> Hcart. unfold checkout, run_request in H0.
    rewrite (checkout_post_collision cu uuid_hex now sf s Hin) in H0.
    destruct (cart s (User.id cu)); [congruence|]. now injection H0 as <-.
  - intros Hinv. apply checkout_inv in H as [[-> _]|(_ & _ & Hfresh & _ & ->)];
      [exact Hinv|].
    unfold order_numbers_unique.
    change (orders (checkout_result cu uuid_hex now s))
      with (orders s ++ [new_order cu uuid_hex now s]).
    rewrite map_app. apply NoDup_snoc; assumption.
Qed.



(** C9. Adding a material somebody else sells to the cart twice in a row
    leaves it there exactly once: the second request changes nothing and
    reports that the material is already in the cart.  The cart table keeps
    its key (one row per user and material). *)
Theorem add_to_cart_twice (cu : User.t) (mid : Z) (s : database)
  (m : StudyMaterial.t) :
  get_material s mid = Some m ->
  StudyMaterial.seller_id m <> User.id cu ->
  NoDup (cart_items s) ->
  let s1 := fst (add_to_cart cu mid s) in
  add_to_cart cu mid s1
  = (s1, Redirect (Some (msg_already_in_cart, cat_info)) to_referrer_or_cart)
  /\ count_occ Z.eq_dec (map StudyMaterial.id (cart s1 (User.id cu))) mid = 1%nat
  /\ NoDup (cart_items s1).
Proof.
  intros Hget Hseller Hkey.
  destruct (get_material_some s mid m Hget) as [_ Hid]. subst mid.
  apply Z.eqb_neq in Hseller.
  assert (Hcount := cart_count s (User.id cu) _ m (cart_items s) Hget).
  rewrite with_cart_items_same in Hcount.
  assert (Hs1 : fst (add_to_cart cu (StudyMaterial.id m) s)
                = if in_cart s (User.id cu) m then s
                  else with_cart_items
                         (cart_items s ++ [(User.id cu, StudyMaterial.id m)]) s).
  { unfold add_to_cart. rewrite Hget, Hseller.
    destruct (in_cart s (User.id cu) m); reflexivity. }
  intros s1. subst s1. rewrite Hs1. clear Hs1.
  destruct (in_cart s (User.id cu) m) eqn:Hin.
  - unfold add_to_cart. rewrite Hget, Hseller, Hin.
    split; [reflexivity|]. split; [|exact Hkey].
    apply in_cart_spec in Hin.
    apply (count_occ_In Z.eq_dec) in Hin.
    pose proof (proj1 (NoDup_count_occ row_eq_dec (cart_items s)) Hkey
                      (User.id cu, StudyMaterial.id m)).
    lia.
  - assert (Hzero : count_occ row_eq_dec (cart_items s)
                              (User.id cu, StudyMaterial.id m) = 0%nat).
    { rewrite <- Hcount. apply count_occ_not_In.
      intros Habs. apply in_cart_spec in Habs. congruence. }
    assert (Hone : count_occ Z.eq_dec
                     (map StudyMaterial.id
                          (cart (with_cart_items
                                   (cart_items s ++ [(User.id cu, StudyMaterial.id m)]) s)
                                (User.id cu))) (StudyMaterial.id m) = 1%nat).
    { rewrite (cart_count s (User.id cu) _ m) by exact Hget.
      rewrite count_occ_app, Hzero.
      rewrite (count_occ_cons_eq row_eq_dec _ eq_refl). reflexivity. }
    split; [|split; [exact Hone|]].
    + unfold add_to_cart.
      change (get_material (with_cart_items _ s) (StudyMaterial.id m))
        with (get_material s (StudyMaterial.id m)).
      rewrite Hget, Hseller.
      assert (Hnow : in_cart (with_cart_items
                                (cart_items s ++ [(User.id cu, StudyMaterial.id m)]) s)
                             (User.id cu) m = true).
      { apply in_cart_spec. apply (count_occ_In Z.eq_dec). lia. }
      rewrite Hnow. reflexivity.
    + simpl. apply NoDup_snoc; [exact Hkey|].
      apply (count_occ_not_In row_eq_dec). exact Hzero.
Qed.

(** C10. Soft deletion revokes nothing.  For a material whose [is_active]
    flag is off: a user other than its seller who does not have it in the
    cart still gets it added; a checkout of a cart that contains it goes
    through as for any cart, the new order has an item for it at its price and
    the rows of its seller are credited with their share of that price; and a
    user with access is still sent its file. *)
Theorem inactive_material_still_sells (s : database) (cu : User.t) (mid : Z)
  (m : StudyMaterial.t) :
  get_material s mid = Some m ->
  StudyMaterial.is_active m = false ->
  (StudyMaterial.seller_id m <> User.id cu ->
   in_cart s (User.id cu) m = false ->
   add_to_cart cu mid s
   = (with_cart_items (cart_items s ++ [(User.id cu, mid)]) s,
      Redirect (Some (msg_added_to_cart, cat_success)) to_referrer_or_cart))
  /\ (forall uuid_hex now sf,
        In m (cart s (User.id cu)) ->
        items_reference_orders s ->
        ~ In (make_order_number uuid_hex) (map Order.order_number (orders s)) ->
        spares sf (List.length (cart s (User.id cu))) ->
        Forall (fun x => get_user s (StudyMaterial.seller_id x) <> None)
               (cart s (User.id cu)) ->
        let oid := next_id (map Order.id (orders s)) in
        let s' := checkout_result cu uuid_hex now s in
        checkout cu POST uuid_hex now sf s = (s', order_placed oid)
        /\ (exists oi, In oi (items s' oid)
                       /\ OrderItem.material_id oi = mid
                       /\ OrderItem.price oi = StudyMaterial.price m)
        /\ exists before after,
             cart s (User.id cu) = before ++ m :: after
             /\ forall u,
                  In u (users s) -> User.id u = StudyMaterial.seller_id m ->
                  In (User.with_total_earnings
                        (credited after (User.id u)
                           (credited before (User.id u) (User.total_earnings u)
                            + StudyMaterial.price m * seller_share)%Q) u)
                     (users s'))
  /\ (has_access s cu m = true ->
      forall now,
        snd (download_material cu mid now s)
        = SendFile (StudyMaterial.file_path m) (download_name m)).
Proof.
  intros Hget Hflag. destruct (get_material_some s mid m Hget) as [_ Hid].
  split; [|split].
  - intros Hseller Hnot. apply Z.eqb_neq in Hseller.
    unfold add_to_cart. now rewrite Hget, Hseller, Hnot, Hid.
  - intros uuid_hex now sf Hin Hfk Hfresh Hsf Hsellers oid s'. subst oid s'.
    split; [|split].
    + apply checkout_succeeds; try assumption.
      intros Hnil. rewrite Hnil in Hin. exact Hin.
    + assert (Hitems := checkout_result_items cu uuid_hex now s Hfk).
      assert (Hpair : In (StudyMaterial.id m, StudyMaterial.price m)
                         (map (fun x => (StudyMaterial.id x, StudyMaterial.price x))
                              (cart s (User.id cu))))
        by (apply in_map_iff; exists m; split; [reflexivity | exact Hin]).
      rewrite <- Hitems in Hpair. apply in_map_iff in Hpair as [oi [Heq Hoi]].
      injection Heq as Hm Hp. exists oi. repeat split; [exact Hoi | congruence | exact Hp].
    + destruct (in_split m _ Hin) as [before [after Hsplit]].
      exists before, after. split; [exact Hsplit|].
      intros u Hu Hseller.
      change (users (checkout_result cu uuid_hex now s))
        with (map (fun u => User.with_total_earnings
                              (credited (cart s (User.id cu)) (User.id u)
                                        (User.total_earnings u)) u)
                  (users s)).
      apply in_map_iff. exists u. split; [|exact Hu].
      rewrite Hsplit. unfold credited. rewrite fold_left_app. cbn [fold_left].
      rewrite Hseller, Z.eqb_refl. reflexivity.
  - intros Hacc now.
    destruct (download_by_access s cu m mid now Hget) as [Hsnd _].
    now rewrite Hsnd, Hacc.
Qed.

(** ** The scenario, claim by claim *)

Ltac by_computation := vm_compute; reflexivity.

(** Bob's second checkout satisfies C1: his cart is empty afterwards and the
    one item of order 2 is the deck at [5]. *)
Lemma checkout_freezes_order_witness :
  items_reference_orders (carted_again 10 5)
  /\ cart (fst second_checkout) 2 = []
  /\ map (fun oi => (OrderItem.material_id oi, OrderItem.price oi))
         (items (fst second_checkout) 2)
     = [(2, 5%Q)].
Proof.
  assert (Hfk : items_reference_orders (carted_again 10 5))
    by (vm_compute; repeat constructor).
  assert (Hrun : checkout bob POST "cafe0123456789ab" 300 None (carted_again 10 5)
                 = (fst second_checkout, order_placed 2)) by by_computation.
  split; [exact Hfk|].
  destruct (checkout_freezes_order bob POST "cafe0123456789ab" 300 None
              (carted_again 10 5) (fst second_checkout) 2 Hfk Hrun)
    as (_ & Hcart & order & _ & _ & _ & _ & _ & Hitems & _).
  split; [exact Hcart|]. rewrite Hitems. by_computation.
Defined.

(** The same checkout with the store failing at the first cart position. *)
Lemma checkout_all_or_nothing_witness :
  snd failed_checkout = ServerError /\ fst failed_checkout = carted_again 10 5.
Proof.
  assert (Hrun : checkout bob POST "cafe0123456789ab" 300 (Some O) (carted_again 10 5)
                 = (fst failed_checkout, snd failed_checkout)) by by_computation.
  destruct (checkout_all_or_nothing bob POST "cafe0123456789ab" 300 (Some O)
              (carted_again 10 5) (fst failed_checkout) (snd failed_checkout) Hrun)
    as (_ & _ & H).
  destruct (H O eq_refl eq_refl) as (Hr & Hs & _).
  - vm_compute. lia.
  - split; assumption.
Defined.

(** Bob, who bought the notes, is sent the file. *)
Lemma access_by_ownership_or_purchase_witness :
  snd (download_material bob 1 200 (bought 10)) = SendFile "0a1b.pdf" "Notes.pdf".
Proof.
  assert (Hget : get_material (bought 10) 1 = Some notes_bought) by by_computation.
  destruct (access_by_ownership_or_purchase (bought 10) bob notes_bought)
    as (_ & _ & H).
  rewrite (proj1 (H 1 200 Hget)). by_computation.
Defined.

(** Two review requests by Bob: the second is turned away, the aggregate
    stays the mean. *)
Lemma rating_is_mean_of_reviews_witness :
  ratings_consistent
    (run [(Some 2, req_add_review 1 (Some 5) None);
          (Some 2, req_add_review 1 (Some 4) None)]
         (bought 10)).
Proof.
  apply (proj1 (proj2 rating_is_mean_of_reviews)).
  - repeat constructor.
  - vm_compute. repeat constructor.
Defined.

(** Alice cannot review her own notes. *)
Lemma review_requires_purchase_witness :
  add_review alice 1 (Some 5) None (bought 10)
  = (bought 10, Redirect (Some (msg_only_purchased, cat_error)) (to_material_detail 1)).
Proof.
  assert (Hget : get_material (bought 10) 1 = Some notes_bought) by by_computation.
  apply (proj1 (review_requires_purchase alice 1 (Some 5) None (bought 10)
                  notes_bought Hget)).
  apply purchased_item_none. by_computation.
Defined.

(** Bob's second review of the notes. *)
Lemma second_review_rejected_witness :
  add_review bob 1 (Some 4) None reviewed
  = (reviewed, Redirect (Some (msg_already_reviewed, cat_error)) (to_material_detail 1)).
Proof.
  assert (Hget : get_material reviewed 1 = Some notes_reviewed) by by_computation.
  refine (proj1 (second_review_rejected bob 1 (Some 4) None reviewed notes_reviewed
                   (Review.mk 1 5 None 1 2 1) Hget _ _ eq_refl eq_refl)).
  - apply purchased_item_spec. eexists. by_computation.
  - vm_compute. left. reflexivity.
Defined.

(** Order numbers stay distinct over Bob's second checkout. *)
Lemma placed_order_number_is_fresh_witness :
  order_numbers_unique (fst second_checkout).
Proof.
  assert (Hrun : checkout bob POST "cafe0123456789ab" 300 None (carted_again 10 5)
                 = (fst second_checkout, snd second_checkout)) by by_computation.
  destruct (placed_order_number_is_fresh bob POST "cafe0123456789ab" 300 None
              (carted_again 10 5) (fst second_checkout) (snd second_checkout) Hrun)
    as (_ & _ & H & _).
  apply H. vm_compute. repeat constructor. intros [].
Defined.


(** Bob adds the notes twice. *)
Lemma add_to_cart_twice_witness :
  count_occ Z.eq_dec
    (map StudyMaterial.id (cart (fst (add_to_cart bob 1 (listed 10))) 2)) 1
  = 1%nat.
Proof.
  assert (Hget : get_material (listed 10) 1 = Some notes_listed) by by_computation.
  refine (proj1 (proj2 (add_to_cart_twice bob 1 (listed 10) notes_listed Hget _ _))).
  - intros H. discriminate H.
  - vm_compute. constructor.
Defined.

(** The withdrawn notes still go into Bob's cart. *)
Lemma inactive_material_still_sells_witness :
  add_to_cart bob 1 delisted
  = (with_cart_items [(2, 1)] delisted,
     Redirect (Some (msg_added_to_cart, cat_success)) to_referrer_or_cart).
Proof.
  assert (Hget : get_material delisted 1 = Some notes_delisted) by by_computation.
  assert (Hout : in_cart delisted 2 notes_delisted = false) by by_computation.
  refine (proj1 (inactive_material_still_sells delisted bob 1 notes_delisted
                   Hget eq_refl) _ Hout).
  intros H. discriminate H.
Defined.

(** * Further properties of the handlers *)

(** ** Association tables *)

(** A material of the catalogue is in a joined collection exactly when the
    association table has the row for it. *)
Lemma joined_has (s : database) (uid mid : Z) (m0 : StudyMaterial.t)
  (rows : list (Z * Z)) :
  get_material s mid = Some m0 ->
  existsb (fun c => StudyMaterial.id c =? mid) (joined s uid rows) = true
  <-> In (uid, mid) rows.
Proof.
  intros Hget. unfold joined. rewrite existsb_exists. split.
  - intros [c [Hc Hid]]. apply in_flat_map in Hc as [[a b] [Hrow Hc]].
    cbn [fst snd] in Hc. destruct (a =? uid) eqn:Ha; [|destruct Hc].
    destruct (get_material s b) as [c'|] eqn:Hb; [|destruct Hc].
    destruct Hc as [<-|[]]. apply get_material_some in Hb as [_ Hb].
    apply Z.eqb_eq in Ha, Hid. now subst.
  - intros Hrow. exists m0. split.
    + apply in_flat_map. exists (uid, mid). split; [exact Hrow|].
      cbn [fst snd]. rewrite Z.eqb_refl, Hget. now left.
    + apply get_material_some in Hget as [_ ->]. apply Z.eqb_refl.
Qed.

Lemma joined_app (s : database) (uid : Z) (rows rows' : list (Z * Z)) :
  joined s uid (rows ++ rows') = joined s uid rows ++ joined s uid rows'.
Proof. unfold joined. apply flat_map_app. Qed.

(** Rows of other users do not show in a collection. *)
Lemma joined_other (s : database) (uid other mid : Z) (rows : list (Z * Z)) :
  other <> uid ->
  joined s uid (rows ++ [(other, mid)]) = joined s uid rows.
Proof.
  intros Hne. rewrite joined_app. unfold joined at 2. cbn [flat_map fst snd].
  apply Z.eqb_neq in Hne. now rewrite Hne, !app_nil_r.
Qed.

(** Writing to materials shows in every collection, row by row. *)
Lemma joined_update_material (s : database) (uid k : Z)
  (g : StudyMaterial.t -> StudyMaterial.t) (rows : list (Z * Z)) :
  (forall x, StudyMaterial.id (g x) = StudyMaterial.id x) ->
  joined (update_material k g s) uid rows
  = map (fun x => if StudyMaterial.id x =? k then g x else x) (joined s uid rows).
Proof.
  intros Hg. unfold joined. induction rows as [|[a b] rows IH]; [reflexivity|].
  cbn [flat_map fst snd]. rewrite map_app, IH. f_equal.
  destruct (a =? uid); [|reflexivity].
  unfold get_material, update_material. cbn [materials with_materials].
  rewrite (find_key_map StudyMaterial.id).
  - destruct (find _ (materials s)); reflexivity.
  - intros x. destruct (StudyMaterial.id x =? k); [apply Hg | reflexivity].
Qed.

(** ** Cart and favourites *)

Lemma delete_cart_rows_In (uid : Z) (m : StudyMaterial.t) (s : database)
  (row : Z * Z) :
  In row (cart_items (delete_cart_rows uid [m] s))
  <-> In row (cart_items s) /\ row <> (uid, StudyMaterial.id m).
Proof.
  unfold delete_cart_rows. cbn [cart_items with_cart_items existsb].
  rewrite filter_In. destruct row as [a b]. cbn [fst snd].
  rewrite orb_false_r, negb_true_iff, andb_false_iff, !Z.eqb_neq.
  split; intros [Hin H]; (split; [exact Hin|]).
  - intros Heq. injection Heq as -> ->. destruct H; congruence.
  - destruct (Z.eq_dec a uid) as [->|Ha]; [|now left].
    right. intros Heq. apply H. now rewrite Heq.
Qed.

(** X1. [remove_from_cart] takes the material out of the user's cart and
    touches no other row of the cart table nor any other table; asking again
    changes nothing and flashes nothing. *)
Theorem remove_from_cart_removes (cu : User.t) (mid : Z) (s : database)
  (m : StudyMaterial.t) :
  get_material s mid = Some m ->
  let s' := fst (remove_from_cart cu mid s) in
  in_cart s' (User.id cu) m = false
  /\ (forall row, In row (cart_items s')
                  <-> In row (cart_items s) /\ row <> (User.id cu, mid))
  /\ with_cart_items (cart_items s) s' = s
  /\ remove_from_cart cu mid s' = (s', Redirect None to_cart).
Proof.
  intros Hget s'. destruct (get_material_some s mid m Hget) as [_ Hid].
  assert (Hrows : forall row, In row (cart_items s')
                              <-> In row (cart_items s) /\ row <> (User.id cu, mid)).
  { intros row. subst s'. unfold remove_from_cart. rewrite Hget.
    destruct (in_cart s (User.id cu) m) eqn:Hin; cbn [fst].
    - rewrite delete_cart_rows_In, Hid. reflexivity.
    - split; [|tauto]. intros Hrow. split; [exact Hrow|]. intros ->.
      unfold in_cart, contains, cart in Hin.
      rewrite Hid in Hin.
      apply (proj2 (joined_has s (User.id cu) mid m (cart_items s) Hget)) in Hrow.
      congruence. }
  assert (Hget' : get_material s' mid = Some m).
  { subst s'. unfold remove_from_cart. rewrite Hget.
    destruct (in_cart s (User.id cu) m); exact Hget. }
  assert (Hout : in_cart s' (User.id cu) m = false).
  { unfold in_cart, contains, cart. rewrite Hid.
    destruct (existsb _ _) eqn:Hex; [|reflexivity].
    apply (joined_has s' (User.id cu) mid m (cart_items s') Hget') in Hex.
    apply Hrows in Hex. now destruct Hex. }
  split; [exact Hout|]. split; [exact Hrows|]. split.
  - subst s'. unfold remove_from_cart. rewrite Hget.
    destruct (in_cart s (User.id cu) m); cbn [fst]; destruct s; reflexivity.
  - unfold remove_from_cart. now rewrite Hget', Hout.
Qed.

(** X2. Taking out of the cart what was just put in restores the store: for
    a material of somebody else that is not in the cart, [add_to_cart]
    followed by [remove_from_cart] gives back the store it started from. *)
Theorem remove_from_cart_undoes_add (cu : User.t) (mid : Z) (s : database)
  (m : StudyMaterial.t) :
  get_material s mid = Some m ->
  StudyMaterial.seller_id m <> User.id cu ->
  in_cart s (User.id cu) m = false ->
  remove_from_cart cu mid (fst (add_to_cart cu mid s))
  = (s, Redirect (Some (msg_removed_from_cart, cat_success)) to_cart).
Proof.
  intros Hget Hseller Hout. destruct (get_material_some s mid m Hget) as [_ Hid].
  assert (Hnorow := not_in_cart_no_row s (User.id cu) mid m Hget Hout).
  apply Z.eqb_neq in Hseller.
  unfold add_to_cart. rewrite Hget, Hseller, Hout. cbn [fst].
  unfold remove_from_cart.
  change (get_material (with_cart_items _ s) mid) with (get_material s mid).
  rewrite Hget.
  assert (Hin : in_cart (with_cart_items
                           (cart_items s ++ [(User.id cu, StudyMaterial.id m)]) s)
                        (User.id cu) m = true).
  { unfold in_cart, contains, cart. rewrite Hid.
    apply (joined_has _ (User.id cu) mid m); [exact Hget|].
    apply in_or_app. right. now left. }
  rewrite Hin. f_equal.
  unfold delete_cart_rows. cbn [cart_items with_cart_items existsb].
  rewrite filter_app. cbn [filter fst snd].
  rewrite !Z.eqb_refl. cbn [orb andb negb]. rewrite app_nil_r.
  rewrite filter_all; [destruct s; reflexivity|].
  apply Forall_forall. intros [a b] Hrow. cbn [fst snd].
  rewrite orb_false_r, negb_true_iff, andb_false_iff, !Z.eqb_neq.
  destruct (Z.eq_dec a (User.id cu)) as [->|Ha]; [|now left].
  right. intros Hb. apply Hnorow. now rewrite <- Hid, Hb.
Qed.

(** X3. [toggle_favorite] flips the membership of the material in the user's
    favourites and touches nothing else: no other row of the favourites
    table, no other table.  Toggling twice leaves the membership as it was. *)
Theorem toggle_favorite_flips (cu : User.t) (mid : Z) (xhr xhr' : bool)
  (s : database) (m : StudyMaterial.t) :
  get_material s mid = Some m ->
  let s1 := fst (toggle_favorite cu mid xhr s) in
  let s2 := fst (toggle_favorite cu mid xhr' s1) in
  contains (favorite_materials s1 (User.id cu)) m
  = negb (contains (favorite_materials s (User.id cu)) m)
  /\ contains (favorite_materials s2 (User.id cu)) m
     = contains (favorite_materials s (User.id cu)) m
  /\ (forall row, row <> (User.id cu, mid) ->
                  (In row (favorites s1) <-> In row (favorites s)))
  /\ with_favorites (favorites s) s1 = s.
Proof.
  intros Hget.
  assert (Hid : StudyMaterial.id m = mid) by (now apply get_material_some in Hget).
  assert (Hstep : forall x t,
             get_material t mid = Some m ->
             let t1 := fst (toggle_favorite cu mid x t) in
             get_material t1 mid = Some m
             /\ contains (favorite_materials t1 (User.id cu)) m
                = negb (contains (favorite_materials t (User.id cu)) m)
             /\ (forall row, row <> (User.id cu, mid) ->
                             (In row (favorites t1) <-> In row (favorites t)))
             /\ with_favorites (favorites t) t1 = t).
  { intros x t Ht t1. subst t1. unfold toggle_favorite. rewrite Ht.
    unfold contains, favorite_materials. rewrite Hid.
    destruct (existsb _ (joined t (User.id cu) (favorites t))) eqn:Hfav;
      cbn [fst negb].
    - split; [exact Ht|]. split; [|split].
      + match goal with |- ?lhs = _ => destruct lhs eqn:Hex end; [|reflexivity].
        apply (joined_has _ (User.id cu) mid m) in Hex; [|exact Ht].
        cbn [favorites with_favorites] in Hex. apply filter_In in Hex as [_ Hex].
        cbn [fst snd] in Hex. now rewrite !Z.eqb_refl in Hex.
      + intros [a b] Hrow. cbn [favorites with_favorites].
        rewrite filter_In. cbn [fst snd].
        rewrite negb_true_iff, andb_false_iff, !Z.eqb_neq.
        split; [tauto|]. intros Hin. split; [exact Hin|].
        destruct (Z.eq_dec a (User.id cu)) as [->|Ha]; [|now left].
        right. intros Hb. apply Hrow. now rewrite Hb.
      + destruct t; reflexivity.
    - split; [exact Ht|]. split; [|split].
      + apply (joined_has _ (User.id cu) mid m); [exact Ht|].
        cbn [favorites with_favorites]. apply in_or_app. right. now left.
      + intros row Hrow. cbn [favorites with_favorites]. rewrite in_app_iff.
        split; [|tauto]. intros [Hin|[Heq|[]]]; [exact Hin|].
        exfalso. apply Hrow. now rewrite <- Heq.
      + destruct t; reflexivity. }
  intros s1 s2.
  destruct (Hstep xhr s Hget) as (Hget1 & Hflip1 & Hrows1 & Hrest1).
  destruct (Hstep xhr' _ Hget1) as (_ & Hflip2 & _ & _).
  fold s1 in Hflip1, Hflip2, Hrows1, Hrest1. fold s2 in Hflip2.
  split; [exact Hflip1|]. split; [|split; assumption].
  rewrite Hflip2, Hflip1. apply negb_involutive.
Qed.

(** X4. Putting a material of somebody else into the cart shows on the
    cart page: the cart of the user then holds the material and, besides it,
    the materials it held before, whatever the order in which the rows are
    listed; the cart counter grows by one, and the cart of every other user
    stays as it is. *)
Theorem add_to_cart_shows_on_cart_page (session : option Z) (cu : User.t)
  (mid : Z) (s : database) (m : StudyMaterial.t) :
  load_user session s = Some cu ->
  get_material s mid = Some m ->
  StudyMaterial.seller_id m <> User.id cu ->
  in_cart s (User.id cu) m = false ->
  let s' := fst (handle session (req_add_to_cart mid) s) in
  Permutation (cart s' (User.id cu)) (m :: cart s (User.id cu))
  /\ in_cart s' (User.id cu) m = true
  /\ api_cart_count session s' = api_cart_count session s + 1
  /\ forall other, other <> User.id cu -> cart s' other = cart s other.
Proof.
  intros Hcu Hget Hseller Hout s'.
  destruct (get_material_some s mid m Hget) as [_ Hid].
  apply Z.eqb_neq in Hseller.
  assert (Hs' : s' = with_cart_items
                       (cart_items s ++ [(User.id cu, mid)]) s).
  { subst s'. unfold handle, login_required, add_to_cart.
    now rewrite Hcu, Hget, Hseller, Hout, Hid. }
  assert (Hcart : cart s' (User.id cu) = cart s (User.id cu) ++ [m]).
  { rewrite Hs'. unfold cart. cbn [cart_items with_cart_items].
    rewrite joined_app. f_equal.
    unfold joined. cbn [flat_map fst snd].
    change (get_material (with_cart_items _ s) mid) with (get_material s mid).
    now rewrite Z.eqb_refl, Hget. }
  split; [|split; [|split]].
  - rewrite Hcart. apply Permutation_sym, Permutation_cons_append.
  - apply in_cart_spec. rewrite Hcart, map_app. apply in_or_app. right. now left.
  - unfold api_cart_count.
    assert (Hcu' : load_user session s' = Some cu) by (rewrite Hs'; exact Hcu).
    rewrite Hcu', Hcu, Hcart, length_app. cbn [List.length]. lia.
  - intros other Hother. rewrite Hs'. unfold cart.
    cbn [cart_items with_cart_items].
    now apply (joined_other s other (User.id cu) mid).
Qed.

(** X5. The cart always lists current prices: once the seller (or an admin)
    has edited a material, every cart that holds it lists it with the new
    title, description and price, and the totals of the cart page follow. *)
Theorem cart_follows_edits (editor : User.t) (mid : Z) (f : material_form)
  (s s' : database) (target : endpoint) :
  edit_material editor POST mid f s
  = (s', Redirect (Some (msg_material_updated, cat_success)) target) ->
  exists ti de p,
    checked_form f = Some (ti, de, p)
    /\ (forall uid,
          cart s' uid
          = map (fun x => if StudyMaterial.id x =? mid
                          then StudyMaterial.with_content ti de p x else x)
                (cart s uid))
    /\ (forall uid x, In x (cart s' uid) -> StudyMaterial.id x = mid ->
                      StudyMaterial.price x = p)
    /\ cart_items s' = cart_items s.
Proof.
  unfold edit_material. intros H.
  destruct (get_material s mid) as [m|] eqn:Hget; [|discriminate H].
  destruct (get_material_some s mid m Hget) as [_ Hid].
  destruct (_ && _); [discriminate H|].
  destruct (checked_form f) as [[[ti de] p]|]; [|discriminate H].
  injection H as <- _. exists ti, de, p. split; [reflexivity|].
  assert (Hcart : forall uid,
             cart (update_material (StudyMaterial.id m)
                                   (StudyMaterial.with_content ti de p) s) uid
             = map (fun x => if StudyMaterial.id x =? mid
                             then StudyMaterial.with_content ti de p x else x)
                   (cart s uid)).
  { intros uid. unfold cart. cbn [cart_items update_material with_materials].
    fold (update_material (StudyMaterial.id m)
                          (StudyMaterial.with_content ti de p) s).
    rewrite joined_update_material, Hid; [reflexivity|].
    intros x. destruct x; reflexivity. }
  split; [exact Hcart|]. split; [|reflexivity].
  intros uid x Hx Hxid. rewrite Hcart in Hx.
  apply in_map_iff in Hx as [y [Hy _]].
  destruct (StudyMaterial.id y =? mid) eqn:Hy'.
  - subst x. destruct y; reflexivity.
  - subst x. apply Z.eqb_neq in Hy'. contradiction.
Qed.

(** ** Pages *)

Lemma find_snoc_fresh {A : Type} (key : A -> Z) (l : list A) (a : A) :
  ~ In (key a) (map key l) ->
  find (fun x => key x =? key a) (l ++ [a]) = Some a.
Proof.
  intros Hfresh. induction l as [|b l IH]; cbn [app find].
  - now rewrite Z.eqb_refl.
  - destruct (key b =? key a) eqn:Hb.
    + exfalso. apply Hfresh. left. now apply Z.eqb_eq.
    + apply IH. intros Hin. apply Hfresh. now right.
Qed.

(** X6. Deleting a material is a soft delete: it drops the material from the
    public profile page of its seller and leaves the rest of every listing
    alone, while the row stays in the catalogue and whoever could download
    the file before is answered as before. *)
Theorem deleted_material_leaves_profile (cu : User.t) (mid : Z) (s s' : database)
  (target : endpoint) :
  delete_material cu mid s
  = (s', Redirect (Some (msg_material_deleted, cat_success)) target) ->
  (forall sid,
      seller_profile sid s'
      = option_map (fun page => (fst page,
                                 filter (fun x => negb (StudyMaterial.id x =? mid))
                                        (snd page)))
                   (seller_profile sid s))
  /\ exists m,
       get_material s mid = Some m
       /\ get_material s' mid = Some (StudyMaterial.with_is_active false m)
       /\ forall buyer now,
            has_access s' buyer (StudyMaterial.with_is_active false m)
            = has_access s buyer m
            /\ snd (download_material buyer mid now s')
               = snd (download_material buyer mid now s).
Proof.
  unfold delete_material. intros H.
  destruct (get_material s mid) as [m|] eqn:Hget; [|discriminate H].
  destruct (get_material_some s mid m Hget) as [_ Hid].
  destruct (_ && _); [discriminate H|]. injection H as <- _.
  rewrite Hid.
  assert (Hget' : get_material (update_material mid (StudyMaterial.with_is_active false) s)
                               mid
                  = Some (StudyMaterial.with_is_active false m)).
  { unfold get_material, update_material. cbn [materials with_materials].
    rewrite (find_key_map StudyMaterial.id).
    - fold (get_material s mid). rewrite Hget. cbn [option_map].
      now rewrite Hid, Z.eqb_refl.
    - intros x. destruct (_ =? _); destruct x; reflexivity. }
  split.
  - intros sid. unfold seller_profile.
    change (get_user (update_material _ _ s) sid) with (get_user s sid).
    destruct (get_user s sid) as [seller|]; [|reflexivity].
    cbn [option_map fst snd]. f_equal. f_equal.
    unfold update_material. cbn [materials with_materials].
    induction (materials s) as [|x xs IH]; [reflexivity|].
    cbn [map filter]. rewrite IH.
    destruct (StudyMaterial.id x =? mid) eqn:Hx.
    + destruct x as [i ti de p fp ft v d r c a sid']. cbn in *.
      rewrite andb_false_r.
      destruct ((sid' =? User.id seller) && a); [|reflexivity].
      cbn [filter]. cbn. now rewrite Hx.
    + destruct (_ && _); [|reflexivity]. cbn [filter]. now rewrite Hx.
  - exists m. split; [reflexivity|]. split; [exact Hget'|].
    intros buyer now. split.
    + destruct m; reflexivity.
    + unfold download_material. rewrite Hget', Hget.
      change (purchased_item (update_material _ _ s)) with (purchased_item s).
      destruct m as [i ti de p fp ft v d r c a sid']. cbn.
      destruct (sid' =? User.id buyer); [reflexivity|].
      destruct (purchased_item s (User.id buyer) mid); reflexivity.
Qed.

(** X7. The redirect after a checkout leads to the order just placed:
    [order_detail] shows the buyer that order, completed, with the total the
    cart page listed before the checkout; a user who is neither the buyer nor
    an admin is refused. *)
Theorem placed_order_is_shown (cu : User.t) (method : http_method)
  (uuid_hex : string) (now : Z) (sf : option nat) (s s' : database) (oid : Z) :
  checkout cu method uuid_hex now sf s = (s', order_placed oid) ->
  exists order,
    order_detail cu oid s' = order_shown order
    /\ Order.id order = oid
    /\ Order.buyer_id order = User.id cu
    /\ Order.status order = completed
    /\ Order.total_amount order = cart_total s (User.id cu)
    /\ forall other,
         User.id other <> User.id cu -> User.is_admin other = false ->
         order_detail other oid s' = order_forbidden.
Proof.
  intros H. apply checkout_inv in H as [[_ Hr]|(_ & _ & _ & Hr & ->)];
    [now elim (Hr oid)|].
  injection Hr as ->. exists (new_order cu uuid_hex now s).
  assert (Hfind : find (fun o => Order.id o =? next_id (map Order.id (orders s)))
                       (orders (checkout_result cu uuid_hex now s))
                  = Some (new_order cu uuid_hex now s)).
  { change (orders (checkout_result cu uuid_hex now s))
      with (orders s ++ [new_order cu uuid_hex now s]).
    apply (find_snoc_fresh Order.id (orders s) (new_order cu uuid_hex now s)).
    intros Hin. apply next_id_above in Hin. cbn in Hin. lia. }
  split; [|repeat split].
  - unfold order_detail. rewrite Hfind. cbn [new_order Order.buyer_id].
    now rewrite Z.eqb_refl.
  - intros other Hother Hadmin. unfold order_detail. rewrite Hfind.
    cbn [new_order Order.buyer_id]. rewrite Hadmin.
    apply not_eq_sym in Hother. apply Z.eqb_neq in Hother. now rewrite Hother.
Qed.

(** ** Uploads *)

Lemma is_dot_spec (c : ascii) : is_dot c = true <-> c = "."%char.
Proof. unfold is_dot. apply Ascii.eqb_eq. Qed.

Lemma split_last_dot_none (s : string) :
  split_last_dot s = None <-> has_dot s = false.
Proof.
  induction s as [|c r IH]; cbn [split_last_dot has_dot]; [tauto|].
  destruct (split_last_dot r) as [[h t]|].
  - split; [discriminate|]. intros H. apply orb_false_iff in H as [_ H].
    apply IH in H. discriminate H.
  - destruct (is_dot c); cbn [orb].
    + split; discriminate.
    + split; [intros _; now apply IH | reflexivity].
Qed.

Lemma split_last_dot_some (s h t : string) :
  split_last_dot s = Some (h, t)
  <-> s = (h ++ "." ++ t)%string /\ has_dot t = false.
Proof.
  split.
  - revert h. induction s as [|c r IH]; intros h H; cbn [split_last_dot] in H;
      [discriminate H|].
    destruct (split_last_dot r) as [[h' t']|] eqn:Hr.
    + injection H as <- <-. destruct (IH h' eq_refl) as [-> Ht].
      split; [reflexivity | exact Ht].
    + destruct (is_dot c) eqn:Hc; [|discriminate H].
      injection H as <- <-. apply is_dot_spec in Hc. subst c.
      split; [reflexivity | now apply split_last_dot_none].
  - intros [-> Ht]. induction h as [|c h IH]; cbn [append split_last_dot].
    + apply split_last_dot_none in Ht. now rewrite Ht.
    + cbn [append] in IH. now rewrite IH.
Qed.

Lemma is_dot_upper (c : ascii) : is_dot (upper_ascii c) = is_dot c.
Proof. destruct c as [[] [] [] [] [] [] [] []]; reflexivity. Qed.

Lemma lower_upper_ascii (c : ascii) : lower_ascii (upper_ascii c) = lower_ascii c.
Proof. destruct c as [[] [] [] [] [] [] [] []]; reflexivity. Qed.

Lemma has_dot_upper (s : string) : has_dot (upper s) = has_dot s.
Proof.
  induction s as [|c r IH]; cbn [upper has_dot]; [reflexivity|].
  now rewrite is_dot_upper, IH.
Qed.

Lemma lower_upper (s : string) : lower (upper s) = lower s.
Proof.
  induction s as [|c r IH]; cbn [upper lower]; [reflexivity|].
  now rewrite lower_upper_ascii, IH.
Qed.

(** What [allowed_file] computes for a name with a last dot. *)
Lemma allowed_file_split (stem ext : string) :
  has_dot ext = false ->
  allowed_file (stem ++ "." ++ ext)
  = existsb (String.eqb (lower ext)) ALLOWED_EXTENSIONS.
Proof.
  intros Hext.
  assert (Hsplit : split_last_dot (stem ++ "." ++ ext) = Some (stem, ext))
    by (apply split_last_dot_some; split; [reflexivity | exact Hext]).
  unfold allowed_file, extension, rsplit_dot. rewrite Hsplit. cbn [nth].
  destruct (has_dot (stem ++ "." ++ ext)) eqn:Hdot; [reflexivity|].
  apply split_last_dot_none in Hdot. congruence.
Qed.

(** X8. [allowed_file] accepts a file name exactly when it has a dot and the
    text after its last dot is, up to the case of its letters, one of the
    eight allowed extensions.  So a name without a dot is refused, only the
    last extension counts, and neither the stem nor the case of the extension
    matters. *)
Theorem allowed_file_by_last_extension (filename : string) :
  (allowed_file filename = true
   <-> exists stem ext,
         filename = (stem ++ "." ++ ext)%string
         /\ has_dot ext = false
         /\ In (lower ext) ALLOWED_EXTENSIONS)
  /\ (has_dot filename = false -> allowed_file filename = false)
  /\ (forall stem stem' ext,
        has_dot ext = false ->
        allowed_file (stem' ++ "." ++ upper ext) = allowed_file (stem ++ "." ++ ext)).
Proof.
  split; [|split].
  - split.
    + intros H. unfold allowed_file in H. apply andb_true_iff in H as [Hdot Hext].
      destruct (split_last_dot filename) as [[h t]|] eqn:Hsplit.
      * exists h, t. apply split_last_dot_some in Hsplit as Hspec.
        destruct Hspec as [Hname Ht]. split; [exact Hname|]. split; [exact Ht|].
        unfold extension, rsplit_dot in Hext. rewrite Hsplit in Hext. cbn [nth] in Hext.
        apply existsb_exists in Hext as [e [He Heq]].
        apply String.eqb_eq in Heq. now rewrite Heq.
      * apply split_last_dot_none in Hsplit. congruence.
    + intros (stem & ext & -> & Hext & Hin).
      rewrite allowed_file_split by exact Hext.
      apply existsb_exists. exists (lower ext). split; [exact Hin|].
      apply String.eqb_refl.
  - intros H. unfold allowed_file. now rewrite H.
  - intros stem stem' ext Hext.
    rewrite !allowed_file_split; [|exact Hext|now rewrite has_dot_upper].
    now rewrite lower_upper.
Qed.

Lemma get_user_update_self (uid : Z) (g : User.t -> User.t) (s : database)
  (u : User.t) :
  (forall x, User.id (g x) = User.id x) ->
  get_user s uid = Some u ->
  get_user (update_user uid g s) uid = Some (g u).
Proof.
  intros Hg Hget. unfold get_user, update_user in *. cbn [users with_users].
  rewrite (find_key_map User.id).
  - rewrite Hget. cbn [option_map].
    apply find_some in Hget as [_ Hid]. now rewrite Hid.
  - intros x. destruct (User.id x =? uid); [apply Hg | reflexivity].
Qed.

(** X9. What [sell] lists.  A POST either writes nothing, or it appends one
    material under a key no material had: sold by the uploader, active,
    without downloads or ratings, with the submitted title, description and
    price, stored under the uuid plus the lower-cased extension of the
    uploaded name, that extension being one of the allowed ones.  The
    uploader is then flagged as a seller, and the page the response redirects
    to exists. *)
Theorem sell_lists_the_upload (cu : User.t) (f : material_form)
  (file : option string) (uuid_hex : string) (s s' : database) (r : response) :
  get_user s (User.id cu) = Some cu ->
  sell cu POST f (receive_upload file uuid_hex) s = (s', r) ->
  (s' = s
   /\ forall mid, r <> Redirect (Some (msg_material_added, cat_success))
                                (to_material_detail mid))
  \/ exists name ti de p m,
       file = Some name
       /\ allowed_file name = true
       /\ checked_form f = Some (ti, de, p)
       /\ m = StudyMaterial.mk (next_id (map StudyMaterial.id (materials s)))
                               ti de p
                               (uuid_hex ++ "." ++ extension name) (extension name)
                               0 0 0%Q 0 true (User.id cu)
       /\ In (StudyMaterial.file_type m) ALLOWED_EXTENSIONS
       /\ materials s' = materials s ++ [m]
       /\ get_material s (StudyMaterial.id m) = None
       /\ get_material s' (StudyMaterial.id m) = Some m
       /\ r = Redirect (Some (msg_material_added, cat_success))
                       (to_material_detail (StudyMaterial.id m))
       /\ snd (material_detail (StudyMaterial.id m) s')
          = Render None "material_detail.html"
       /\ exists u, get_user s' (User.id cu) = Some u /\ User.is_seller u = true.
Proof.
  intros Hcu H. unfold sell, receive_upload in H.
  destruct file as [name|];
    [|injection H as <- <-; left; split; [reflexivity | discriminate]].
  destruct (String.eqb name EmptyString);
    [injection H as <- <-; left; split; [reflexivity | discriminate]|].
  destruct (allowed_file name) eqn:Hallowed;
    [|injection H as <- <-; left; split; [reflexivity | discriminate]].
  unfold run_request, sell_post in H.
  destruct (checked_form f) as [[[ti de] p]|] eqn:Hform;
    [|injection H as <- <-; left; split; [reflexivity | discriminate]].
  pose (s1 := if User.is_seller cu then s
              else update_user (User.id cu) (User.with_is_seller true) s).
  assert (Hm1 : materials s1 = materials s)
    by (subst s1; destruct (User.is_seller cu); reflexivity).
  pose (m := StudyMaterial.mk (next_id (map StudyMaterial.id (materials s)))
                              ti de p
                              (uuid_hex ++ "." ++ extension name) (extension name)
                              0 0 0%Q 0 true (User.id cu)).
  assert (H' : (with_materials (materials s1 ++ [m]) s1,
                Redirect (Some (msg_material_added, cat_success))
                         (to_material_detail (StudyMaterial.id m)))
               = (s', r)) by exact H.
  clear H. injection H' as <- <-. right.
  assert (Hfresh : ~ In (StudyMaterial.id m) (map StudyMaterial.id (materials s)))
    by (intros Hin; apply next_id_above in Hin; cbn in Hin; lia).
  assert (Hnew : get_material (with_materials (materials s1 ++ [m]) s1)
                              (StudyMaterial.id m) = Some m).
  { unfold get_material. cbn [materials with_materials]. rewrite Hm1.
    now apply (find_snoc_fresh StudyMaterial.id). }
  exists name, ti, de, p, m.
  split; [reflexivity|]. split; [exact Hallowed|]. split; [reflexivity|].
  split; [reflexivity|]. split.
  { unfold allowed_file in Hallowed. apply andb_true_iff in Hallowed as [_ Hext].
    apply existsb_exists in Hext as [e [He Heq]].
    apply String.eqb_eq in Heq. cbn. now rewrite Heq. }
  split; [cbn [materials with_materials]; now rewrite Hm1|].
  split.
  { unfold get_material.
    destruct (find _ (materials s)) as [x|] eqn:Hx; [|reflexivity].
    exfalso. apply find_some in Hx as [Hin Hid]. apply Hfresh.
    apply Z.eqb_eq in Hid. rewrite <- Hid. now apply in_map. }
  split; [exact Hnew|]. split; [reflexivity|]. split.
  { unfold material_detail. now rewrite Hnew. }
  change (get_user (with_materials (materials s1 ++ [m]) s1) (User.id cu))
    with (get_user s1 (User.id cu)).
  subst s1. destruct (User.is_seller cu) eqn:Hseller.
  - exists cu. split; [exact Hcu | exact Hseller].
  - exists (User.with_is_seller true cu). split; [|reflexivity].
    apply get_user_update_self; [|exact Hcu]. intros x. destruct x; reflexivity.
Qed.

(** ** Columns the constraints speak about *)

Lemma map_fst_material_key (ms : list StudyMaterial.t) :
  map StudyMaterial.id ms = map fst (map material_key ms).
Proof. rewrite map_map. reflexivity. Qed.

Lemma map_fst_item_key (ois : list OrderItem.t) :
  map OrderItem.id ois = map (fun k => fst (fst k)) (map item_key ois).
Proof. rewrite map_map. reflexivity. Qed.

(** Each constraint only looks at its columns. *)
Lemma accounts_unique_transfer (s s' : database) :
  users_same s s' -> accounts_unique s -> accounts_unique s'.
Proof.
  intros (Hi & Hn & He & _) (U1 & U2 & U3). repeat split.
  - now rewrite Hi.
  - now rewrite Hn.
  - now rewrite He.
Qed.

Lemma no_admin_transfer (s s' : database) :
  users_same s s' -> no_admin s -> no_admin s'.
Proof. intros (_ & _ & _ & Ha) A. unfold no_admin. now rewrite Ha. Qed.

Lemma catalogue_sound_transfer (s s' : database) :
  flags_same s s' -> materials_same s s' -> catalogue_sound s -> catalogue_sound s'.
Proof.
  intros Hu Hm (M1 & M2). unfold materials_same in Hm. unfold flags_same in Hu.
  split.
  - now rewrite map_fst_material_key, Hm, <- map_fst_material_key.
  - now rewrite Hm, Hu.
Qed.

Lemma orders_sound_transfer (s s' : database) :
  orders_same s s' -> orders_sound s -> orders_sound s'.
Proof.
  intros (Ho & Hi) (O1 & O2 & O3). repeat split.
  - now rewrite Ho.
  - now rewrite map_fst_item_key, Hi, <- map_fst_item_key.
  - now rewrite Ho.
Qed.

Lemma sold_by_transfer (s s' : database) (mid sid : Z) :
  materials_same s s' -> sold_by s mid sid -> sold_by s' mid sid.
Proof. unfold materials_same, sold_by. intros ->. trivial. Qed.

Lemma has_bought_transfer (s s' : database) (uid mid : Z) :
  orders_same s s' -> has_bought s' uid mid <-> has_bought s uid mid.
Proof. intros (Ho & Hi). unfold has_bought. now rewrite Ho, Hi. Qed.

Lemma cart_row_sound_transfer (s s' : database) (row : Z * Z) :
  materials_same s s' -> cart_row_sound s row -> cart_row_sound s' row.
Proof.
  intros Hm [sid [H1 H2]]. exists sid. split; [|exact H2].
  now apply (sold_by_transfer s).
Qed.

Lemma carts_sound_transfer (s s' : database) :
  materials_same s s' -> cart_items s' = cart_items s ->
  carts_sound s -> carts_sound s'.
Proof.
  intros Hm Hc C. unfold carts_sound in *. rewrite Hc.
  eapply Forall_impl; [|exact C].
  intros row. now apply cart_row_sound_transfer.
Qed.

Lemma purchases_sound_transfer (s s' : database) :
  materials_same s s' -> orders_same s s' ->
  purchases_sound s -> purchases_sound s'.
Proof.
  intros Hm Ho P uid mid Hb. apply (has_bought_transfer s s') in Hb; [|exact Ho].
  destruct (P uid mid Hb) as [sid [H1 H2]]. exists sid. split; [|exact H2].
  now apply (sold_by_transfer s).
Qed.

Lemma review_sound_transfer (s s' : database) (rv : Review.t) :
  materials_same s s' -> orders_same s s' ->
  review_sound s rv -> review_sound s' rv.
Proof.
  intros Hm Ho (H1 & H2 & H3). split; [exact H1|]. split.
  - now apply (has_bought_transfer s s').
  - now apply (sold_by_transfer s).
Qed.

Lemma reviews_sound_transfer (s s' : database) :
  materials_same s s' -> orders_same s s' -> reviews s' = reviews s ->
  reviews_sound s -> reviews_sound s'.
Proof.
  intros Hm Ho Hr R. unfold reviews_sound in *. rewrite Hr.
  eapply Forall_impl; [|exact R].
  intros rv. now apply review_sound_transfer.
Qed.

Lemma sound_transfer (s s' : database) :
  same_columns s s' -> sound s -> sound s'.
Proof.
  intros (Hu & Hf & Hm & Ho & Hr & Hc) (U & A & M & O & C & P & R).
  split; [now apply (accounts_unique_transfer s)|].
  split; [now apply (no_admin_transfer s)|].
  split; [now apply (catalogue_sound_transfer s)|].
  split; [now apply (orders_sound_transfer s)|].
  split; [now apply (carts_sound_transfer s)|].
  split; [now apply (purchases_sound_transfer s)|].
  now apply (reviews_sound_transfer s).
Qed.

Ltac same_column :=
  simpl;
  first
    [ reflexivity
    | rewrite map_map; apply map_ext;
      let x := fresh "x" in
      intros x;
      repeat match goal with
             | |- context [if ?c then _ else _] => destruct c
             end;
      destruct x; reflexivity ].

Ltac same_columns_auto :=
  unfold same_columns, users_same, flags_same, materials_same, orders_same;
  repeat split; same_column.

Lemma quiet_same_columns (session : option Z) (r : request) (s : database) :
  is_quiet r = true -> same_columns s (fst (handle session r s)).
Proof.
  intros Hr. destruct r; try discriminate Hr; unfold handle;
    open_handlers; break_handler; same_columns_auto.
Qed.

(** ** The constraints, request by request *)

Lemma taken_spec {A : Type} (key : A -> string) (x : string) (l : list A) :
  existsb (fun a => String.eqb (key a) x) l = true <-> In x (map key l).
Proof.
  rewrite existsb_exists, in_map_iff. split.
  - intros [a [Hin Heq]]. apply String.eqb_eq in Heq. now exists a.
  - intros [a [Heq Hin]]. exists a. split; [assumption | now apply String.eqb_eq].
Qed.

Lemma load_user_some (session : option Z) (s : database) (cu : User.t) :
  load_user session s = Some cu ->
  In cu (users s) /\ get_user s (User.id cu) = Some cu.
Proof.
  unfold load_user. destruct session as [uid|]; [|discriminate].
  intros H. pose proof H as H'. unfold get_user in H.
  apply find_some in H as [Hin Hid]. apply Z.eqb_eq in Hid.
  split; [exact Hin | now rewrite Hid].
Qed.

Lemma register_inv (cu : option User.t) (method : http_method)
  (username email password confirm_password : option string)
  (password_hash : string) (s : database) :
  fst (register cu method username email password confirm_password password_hash s) = s
  \/ exists name mail,
       ~ In name (map User.username (users s))
       /\ ~ In mail (map User.email (users s))
       /\ fst (register cu method username email password confirm_password
                        password_hash s)
          = with_users
              (users s ++ [User.mk (next_id (map User.id (users s))) name mail
                                   password_hash None None None None
                                   false false None 0%Q]) s.
Proof.
  unfold register.
  destruct cu; [now left|]. destruct method; [now left|].
  destruct (negb (forallb _ _)); [now left|].
  destruct (negb (same_field _ _)); [now left|].
  destruct username as [name|]; [|now left].
  destruct email as [mail|]; [|now left].
  destruct (existsb _ (users s)) eqn:Hname; [now left|].
  destruct (existsb (fun u => String.eqb (User.email u) mail) (users s)) eqn:Hmail;
    [now left|].
  right. exists name, mail. repeat split.
  - rewrite <- (taken_spec User.username). congruence.
  - rewrite <- (taken_spec User.email). congruence.
Qed.

Lemma register_sound (cu : option User.t) (method : http_method)
  (username email password confirm_password : option string)
  (password_hash : string) (s : database) :
  sound s ->
  sound (fst (register cu method username email password confirm_password
                       password_hash s)).
Proof.
  intros Hs.
  destruct (register_inv cu method username email password confirm_password
                         password_hash s)
    as [->|(name & mail & Hname & Hmail & ->)]; [exact Hs|].
  destruct Hs as ((U1 & U2 & U3) & A & (M1 & M2) & O & C & P & R).
  split; [|split; [|split; [|split; [|split; [|split]]]]];
    try assumption.
  - unfold accounts_unique. cbn [users with_users]. rewrite !map_app.
    repeat split; apply NoDup_snoc; try assumption.
    intros Hin. apply next_id_above in Hin. cbn in Hin. lia.
  - unfold no_admin in *. cbn [users with_users]. rewrite map_app.
    apply Forall_app. split; [exact A | repeat constructor].
  - split; [exact M1|]. cbn [users with_users materials].
    eapply Forall_impl; [|exact M2]. intros k Hk. rewrite map_app.
    apply in_or_app. now left.
Qed.

Lemma sell_inv (cu : User.t) (method : http_method) (f : material_form)
  (file : upload) (s : database) :
  fst (sell cu method f file s) = s
  \/ exists ti de p filename ext,
       fst (sell cu method f file s)
       = with_materials
           (materials s ++
              [StudyMaterial.mk (next_id (map StudyMaterial.id (materials s)))
                                ti de p filename ext 0 0 0%Q 0 true (User.id cu)])
           (if User.is_seller cu then s
            else update_user (User.id cu) (User.with_is_seller true) s).
Proof.
  unfold sell. destruct method; [now left|]. destruct file; try now left.
  unfold run_request, sell_post.
  destruct (checked_form f) as [[[ti de] p]|]; [|now left].
  right. exists ti, de, p, filename, ext.
  destruct (User.is_seller cu); reflexivity.
Qed.

Lemma flag_kept (us : list User.t) (k sid : Z) :
  In (sid, true) (map user_key us) ->
  In (sid, true)
     (map user_key (map (fun u => if User.id u =? k
                                  then User.with_is_seller true u else u) us)).
Proof.
  intros Hin. apply in_map_iff in Hin as [u [Hkey Hu]].
  apply in_map_iff.
  exists (if User.id u =? k then User.with_is_seller true u else u). split.
  - destruct (User.id u =? k); [|exact Hkey].
    destruct u; cbn in *. injection Hkey as <- _. reflexivity.
  - apply in_map_iff. now exists u.
Qed.

Lemma sell_sound (cu : User.t) (method : http_method) (f : material_form)
  (file : upload) (s : database) :
  In cu (users s) ->
  sound s -> sound (fst (sell cu method f file s)).
Proof.
  intros Hcu Hs.
  destruct (sell_inv cu method f file s)
    as [->|(ti & de & p & filename & ext & ->)]; [exact Hs|].
  set (s1 := if User.is_seller cu then s
             else update_user (User.id cu) (User.with_is_seller true) s).
  assert (Hus : users_same s s1)
    by (subst s1; destruct (User.is_seller cu);
        unfold users_same; repeat split; same_column).
  assert (Hrest : materials s1 = materials s /\ orders s1 = orders s
                  /\ order_items s1 = order_items s /\ reviews s1 = reviews s
                  /\ cart_items s1 = cart_items s)
    by (subst s1; destruct (User.is_seller cu); repeat split).
  destruct Hrest as (Hm1 & Ho1 & Hi1 & Hr1 & Hc1).
  assert (Hflag : forall sid, In (sid, true) (map user_key (users s)) ->
                              In (sid, true) (map user_key (users s1))).
  { intros sid Hin. subst s1. destruct (User.is_seller cu); [exact Hin|].
    now apply flag_kept. }
  assert (Hself : In (User.id cu, true) (map user_key (users s1))).
  { subst s1. destruct (User.is_seller cu) eqn:Hflagged.
    - apply in_map_iff. exists cu. split; [|exact Hcu].
      unfold user_key. now rewrite Hflagged.
    - cbn [users update_user with_users]. apply in_map_iff.
      exists (User.with_is_seller true cu). split.
      + destruct cu; reflexivity.
      + apply in_map_iff. exists cu. split; [|exact Hcu]. now rewrite Z.eqb_refl. }
  destruct Hs as (U & A & (M1 & M2) & O & C & P & R).
  assert (Hsold : forall mid sid,
             sold_by s mid sid ->
             sold_by (with_materials (materials s ++ [StudyMaterial.mk
               (next_id (map StudyMaterial.id (materials s))) ti de p filename ext
               0 0 0%Q 0 true (User.id cu)]) s1) mid sid).
  { intros mid sid H. unfold sold_by in *. cbn [materials with_materials].
    rewrite map_app. apply in_or_app. now left. }
  split; [|split; [|split; [|split; [|split; [|split]]]]].
  - now apply (accounts_unique_transfer s s1).
  - now apply (no_admin_transfer s s1).
  - split; cbn [materials with_materials users].
    + rewrite map_app. apply NoDup_snoc; [exact M1|].
      intros Hin. apply next_id_above in Hin. cbn in Hin. lia.
    + rewrite map_app. apply Forall_app. split.
      * eapply Forall_impl; [|exact M2]. intros k. apply Hflag.
      * constructor; [exact Hself | constructor].
  - unfold orders_sound in *. cbn [orders order_items with_materials].
    now rewrite Ho1, Hi1.
  - unfold carts_sound in *. cbn [cart_items with_materials]. rewrite Hc1.
    eapply Forall_impl; [|exact C]. intros row [sid [H1 H2]].
    exists sid. split; [now apply Hsold | exact H2].
  - intros uid mid Hb.
    assert (Hb' : has_bought s uid mid).
    { unfold has_bought in *. cbn [orders order_items with_materials] in Hb.
      now rewrite Ho1, Hi1 in Hb. }
    destruct (P uid mid Hb') as [sid [H1 H2]].
    exists sid. split; [now apply Hsold | exact H2].
  - unfold reviews_sound in *. cbn [reviews with_materials]. rewrite Hr1.
    eapply Forall_impl; [|exact R]. intros rv (H1 & H2 & H3).
    split; [exact H1|]. split; [|now apply Hsold].
    unfold has_bought in *. cbn [orders order_items with_materials].
    now rewrite Ho1, Hi1.
Qed.

Lemma sold_by_spec (s : database) (mid sid : Z) :
  sold_by s mid sid
  <-> exists m, In m (materials s) /\ StudyMaterial.id m = mid
                /\ StudyMaterial.seller_id m = sid.
Proof.
  unfold sold_by. rewrite in_map_iff. split.
  - intros [m [Hk Hin]]. exists m. unfold material_key in Hk.
    injection Hk as H1 H2. auto.
  - intros [m (Hin & <- & <-)]. now exists m.
Qed.

Lemma get_material_sold_by (s : database) (mid : Z) (m : StudyMaterial.t) :
  get_material s mid = Some m -> sold_by s mid (StudyMaterial.seller_id m).
Proof.
  intros H. apply get_material_some in H as [Hin Hid].
  apply sold_by_spec. now exists m.
Qed.

(** Changing the cart table alone. *)
Lemma with_cart_items_sound (rows : list (Z * Z)) (s : database) :
  sound s -> Forall (cart_row_sound s) rows -> sound (with_cart_items rows s).
Proof.
  intros (U & A & M & O & C & P & R) Hrows.
  split; [exact U|]. split; [exact A|]. split; [exact M|]. split; [exact O|].
  split; [exact Hrows|]. split; [exact P | exact R].
Qed.

Lemma add_to_cart_sound (cu : User.t) (mid : Z) (s : database) :
  sound s -> sound (fst (add_to_cart cu mid s)).
Proof.
  intros Hs. unfold add_to_cart.
  destruct (get_material s mid) as [m|] eqn:Hget; [|exact Hs].
  destruct (StudyMaterial.seller_id m =? User.id cu) eqn:Hown; [exact Hs|].
  destruct (in_cart s (User.id cu) m); [exact Hs|].
  cbn [fst]. apply with_cart_items_sound; [exact Hs|].
  apply Forall_app. split; [apply Hs|].
  constructor; [|constructor].
  exists (StudyMaterial.seller_id m). cbn [fst snd]. split.
  - pose proof Hget as Hid. apply get_material_some in Hid as [_ ->].
    now apply get_material_sold_by.
  - now apply Z.eqb_neq.
Qed.

Lemma Forall_filter {A : Type} (P : A -> Prop) (p : A -> bool) (l : list A) :
  Forall P l -> Forall P (filter p l).
Proof.
  rewrite !Forall_forall. intros H x Hx. apply filter_In in Hx as [Hx _]. auto.
Qed.

Lemma delete_cart_rows_sound (uid : Z) (ms : list StudyMaterial.t) (s : database) :
  sound s -> sound (delete_cart_rows uid ms s).
Proof.
  intros Hs. unfold delete_cart_rows. apply with_cart_items_sound; [exact Hs|].
  apply Forall_filter. apply Hs.
Qed.

Lemma remove_from_cart_sound (cu : User.t) (mid : Z) (s : database) :
  sound s -> sound (fst (remove_from_cart cu mid s)).
Proof.
  intros Hs. unfold remove_from_cart.
  destruct (get_material s mid) as [m|]; [|exact Hs].
  destruct (in_cart s (User.id cu) m); [|exact Hs].
  now apply delete_cart_rows_sound.
Qed.

(** *** Checkout *)

Lemma appended_items_cons (oid : Z) (m : StudyMaterial.t)
  (rest : list StudyMaterial.t) (ois : list OrderItem.t) :
  appended_items oid (m :: rest) ois
  = appended_items oid rest
      (ois ++ [OrderItem.mk (next_id (map OrderItem.id ois))
                            (StudyMaterial.price m) oid (StudyMaterial.id m) 0 None]).
Proof. reflexivity. Qed.

Lemma appended_items_ids (oid : Z) (ms : list StudyMaterial.t)
  (ois : list OrderItem.t) :
  NoDup (map OrderItem.id ois) ->
  NoDup (map OrderItem.id (appended_items oid ms ois)).
Proof.
  revert ois. induction ms as [|m rest IH]; intros ois Hnd; [exact Hnd|].
  rewrite appended_items_cons. apply IH. rewrite map_app.
  apply NoDup_snoc; [exact Hnd|].
  intros Hin. apply next_id_above in Hin. cbn in Hin. lia.
Qed.

Lemma appended_items_keys (oid : Z) (ms : list StudyMaterial.t)
  (ois : list OrderItem.t) (k : Z * Z * Z) :
  In k (map item_key (appended_items oid ms ois))
  <-> In k (map item_key ois)
      \/ exists i, k = (i, oid, snd k) /\ In (snd k) (map StudyMaterial.id ms)
                   /\ In k (map item_key (appended_items oid ms ois)).
Proof.
  split.
  - revert ois. induction ms as [|m rest IH]; intros ois Hin; [now left|].
    pose proof Hin as Hk. rewrite appended_items_cons in Hin.
    apply IH in Hin as [Hin|(i & H1 & H2 & H3)].
    + rewrite map_app in Hin. apply in_app_or in Hin as [Hin|[<-|[]]]; [now left|].
      right. eexists. cbn [item_key OrderItem.id OrderItem.order_id
                            OrderItem.material_id snd map].
      split; [reflexivity|]. split; [now left | exact Hk].
    + right. exists i. split; [exact H1|]. split; [now right | exact Hk].
  - intros [Hin|(_ & _ & _ & Hin)]; [|exact Hin].
    destruct (appended_items_spec oid ms ois) as [fresh [-> _]].
    rewrite map_app. apply in_or_app. now left.
Qed.

(** A material of a cart comes with its row. *)
Lemma cart_row (s : database) (uid : Z) (m : StudyMaterial.t) :
  In m (cart s uid) ->
  In (uid, StudyMaterial.id m) (cart_items s)
  /\ get_material s (StudyMaterial.id m) = Some m.
Proof.
  unfold cart, joined. intros Hin.
  apply in_flat_map in Hin as [[a b] [Hrow Hin]]. cbn [fst snd] in Hin.
  destruct (a =? uid) eqn:Ha; [|destruct Hin].
  destruct (get_material s b) as [c|] eqn:Hb; [|destruct Hin].
  destruct Hin as [<-|[]]. apply Z.eqb_eq in Ha. subst a.
  pose proof Hb as Hid. apply get_material_some in Hid as [_ Hid].
  now rewrite Hid.
Qed.

Lemma checkout_result_columns (cu : User.t) (uuid_hex : string) (now : Z)
  (s : database) :
  users_same s (checkout_result cu uuid_hex now s)
  /\ flags_same s (checkout_result cu uuid_hex now s)
  /\ materials_same s (checkout_result cu uuid_hex now s)
  /\ reviews (checkout_result cu uuid_hex now s) = reviews s.
Proof.
  unfold users_same, flags_same, materials_same, checkout_result, delete_cart_rows,
    loop_result.
  cbn [users materials reviews with_cart_items with_orders].
  repeat split; rewrite map_map; apply map_ext; intros x; destruct x; reflexivity.
Qed.

Lemma checkout_result_orders (cu : User.t) (uuid_hex : string) (now : Z)
  (s : database) :
  orders (checkout_result cu uuid_hex now s)
  = orders s ++ [new_order cu uuid_hex now s]
  /\ order_items (checkout_result cu uuid_hex now s)
     = appended_items (next_id (map Order.id (orders s))) (cart s (User.id cu))
                      (order_items s)
  /\ cart_items (checkout_result cu uuid_hex now s)
     = filter (fun row =>
                 negb ((fst row =? User.id cu)
                       && existsb (fun m => StudyMaterial.id m =? snd row)
                                  (cart s (User.id cu))))
              (cart_items s).
Proof. repeat split. Qed.

Lemma has_bought_checkout (cu : User.t) (uuid_hex : string) (now : Z)
  (s : database) (uid mid : Z) :
  items_reference_orders s ->
  has_bought (checkout_result cu uuid_hex now s) uid mid
  <-> has_bought s uid mid
      \/ (uid = User.id cu /\ In mid (map StudyMaterial.id (cart s (User.id cu)))).
Proof.
  intros Hfk.
  destruct (checkout_result_orders cu uuid_hex now s) as (Ho & Hi & _).
  unfold has_bought. rewrite Ho, Hi. split.
  - intros (o & k & Hin_o & Hin_k & Hoid & Hbuyer & Hmid).
    apply in_app_or in Hin_o.
    apply appended_items_keys in Hin_k as [Hin_k|(i & Hk & Hcart & _)].
    + destruct Hin_o as [Hin_o|[<-|[]]].
      * left. now exists o, k.
      * exfalso. apply in_map_iff in Hin_k as [oi [<- Hoi]].
        unfold items_reference_orders in Hfk. rewrite Forall_forall in Hfk.
        apply Hfk in Hoi. apply next_id_above in Hoi.
        cbn [item_key fst snd new_order Order.id] in Hoid. lia.
    + destruct Hin_o as [Hin_o|[<-|[]]].
      * exfalso. rewrite Hk in Hoid. cbn [fst snd] in Hoid.
        assert (Hlt : Order.id o < next_id (map Order.id (orders s)))
          by (apply next_id_above, in_map, Hin_o).
        lia.
      * right. cbn [new_order Order.buyer_id] in Hbuyer. split; [now symmetry|].
        now rewrite <- Hmid.
  - intros [(o & k & Hin_o & Hin_k & Hrest)|[-> Hcart]].
    + exists o, k. split; [apply in_or_app; now left|].
      split; [|exact Hrest]. apply appended_items_keys. now left.
    + set (oid := next_id (map Order.id (orders s))).
      destruct (appended_items_spec oid (cart s (User.id cu)) (order_items s))
        as [fresh [Happ Hfresh]].
      apply in_map_iff in Hcart as [m [<- Hm]].
      assert (Hin : In (oid, StudyMaterial.id m, StudyMaterial.price m)
                       (map (fun oi => (OrderItem.order_id oi, OrderItem.material_id oi,
                                        OrderItem.price oi)) fresh)).
      { rewrite Hfresh. apply in_map_iff. now exists m. }
      apply in_map_iff in Hin as [oi [Hoi Hin]]. injection Hoi as H1 H2 _.
      exists (new_order cu uuid_hex now s), (item_key oi).
      split; [apply in_or_app; right; now left|].
      split; [rewrite Happ, map_app; apply in_or_app; right; now apply in_map|].
      cbn [item_key fst snd new_order Order.id Order.buyer_id]. auto.
Qed.

Lemma checkout_result_sound (cu : User.t) (uuid_hex : string) (now : Z)
  (s : database) :
  items_reference_orders s ->
  sound s -> sound (checkout_result cu uuid_hex now s).
Proof.
  intros Hfk (U & A & M & (O1 & O2 & O3) & C & P & R).
  destruct (checkout_result_columns cu uuid_hex now s) as (Hu & Hf & Hm & Hr).
  destruct (checkout_result_orders cu uuid_hex now s) as (Ho & Hi & Hc).
  split; [now apply (accounts_unique_transfer s)|].
  split; [now apply (no_admin_transfer s)|].
  split; [now apply (catalogue_sound_transfer s)|].
  assert (Hcarts : carts_sound (checkout_result cu uuid_hex now s)).
  { unfold carts_sound. rewrite Hc. apply Forall_filter.
    eapply Forall_impl; [|exact C]. intros row.
    now apply cart_row_sound_transfer. }
  assert (Hpurchases : purchases_sound (checkout_result cu uuid_hex now s)).
  { intros uid mid Hb. apply has_bought_checkout in Hb; [|exact Hfk].
    destruct Hb as [Hb|[-> Hcart]].
    - destruct (P uid mid Hb) as [sid [H1 H2]]. exists sid.
      split; [now apply (sold_by_transfer s) | exact H2].
    - apply in_map_iff in Hcart as [m [<- Hin]]. apply cart_row in Hin as [Hrow _].
      unfold carts_sound in C. rewrite Forall_forall in C.
      destruct (C _ Hrow) as [sid [H1 H2]]. exists sid.
      split; [now apply (sold_by_transfer s) | exact H2]. }
  split; [|split; [exact Hcarts | split; [exact Hpurchases|]]].
  - unfold orders_sound. rewrite Ho, Hi. repeat split.
    + rewrite map_app. apply NoDup_snoc; [exact O1|].
      intros Hin. apply next_id_above in Hin. cbn in Hin. lia.
    + now apply appended_items_ids.
    + apply Forall_app. split; [exact O3 | repeat constructor].
  - unfold reviews_sound. rewrite Hr. eapply Forall_impl; [|exact R].
    intros rv (H1 & H2 & H3). split; [exact H1|]. split.
    + apply has_bought_checkout; [exact Hfk | now left].
    + now apply (sold_by_transfer s).
Qed.

Lemma checkout_sound (cu : User.t) (method : http_method) (uuid_hex : string)
  (now : Z) (sf : option nat) (s : database) :
  items_reference_orders s ->
  sound s -> sound (fst (checkout cu method uuid_hex now sf s)).
Proof.
  intros Hfk Hs.
  destruct (checkout cu method uuid_hex now sf s) as [s' r] eqn:Hco.
  apply checkout_inv in Hco as [[-> _]|(_ & _ & _ & _ & ->)]; [exact Hs|].
  now apply checkout_result_sound.
Qed.

(** *** Reviews *)

Lemma update_rating_key (s : database) (x : StudyMaterial.t) :
  material_key (update_rating s x) = material_key x.
Proof. unfold update_rating. destruct (reviews_of s _); destruct x; reflexivity. Qed.

Lemma has_bought_of_purchase (s : database) (uid mid : Z) :
  completed_purchase s uid mid -> has_bought s uid mid.
Proof.
  intros (o & oi & Ho & Hoi & H1 & H2 & _ & H3).
  exists o, (item_key oi). split; [exact Ho|]. split; [now apply in_map|].
  cbn [item_key fst snd]. auto.
Qed.

Lemma rating_accepted (rt : Z) : rating_rejected rt = false -> 1 <= rt <= 5.
Proof. unfold rating_rejected. lia. Qed.

Lemma review_result_columns (cu : User.t) (mid rt : Z) (comment : option string)
  (m : StudyMaterial.t) (s : database) :
  users (review_result cu mid rt comment m s) = users s
  /\ materials_same s (review_result cu mid rt comment m s)
  /\ orders (review_result cu mid rt comment m s) = orders s
  /\ order_items (review_result cu mid rt comment m s) = order_items s
  /\ cart_items (review_result cu mid rt comment m s) = cart_items s
  /\ reviews (review_result cu mid rt comment m s)
     = reviews s ++ [new_review cu mid rt comment m s].
Proof.
  unfold review_result, materials_same, update_material.
  cbn [users materials orders order_items cart_items reviews with_materials
       with_reviews].
  repeat split. rewrite map_map. apply map_ext. intros x.
  destruct (StudyMaterial.id x =? StudyMaterial.id m); [|reflexivity].
  apply update_rating_key.
Qed.

Lemma add_review_sound (cu : User.t) (mid : Z) (rating : option Z)
  (comment : option string) (s : database) :
  sound s -> sound (fst (add_review cu mid rating comment s)).
Proof.
  intros Hs.
  destruct (add_review cu mid rating comment s) as [s' r] eqn:Hrev.
  apply add_review_inv in Hrev
      as [[-> _]|(m & rt & Hget & Hbought & _ & _ & Hrt & _ & ->)]; [exact Hs|].
  cbn [fst].
  destruct (review_result_columns cu mid rt comment m s)
    as (Hu & Hm & Ho & Hi & Hc & Hr).
  destruct Hs as (U & A & M & O & C & P & R).
  assert (Hus : users_same s (review_result cu mid rt comment m s))
    by (unfold users_same; now rewrite Hu).
  assert (Hfs : flags_same s (review_result cu mid rt comment m s))
    by (unfold flags_same; now rewrite Hu).
  assert (Hos : orders_same s (review_result cu mid rt comment m s))
    by (unfold orders_same; now rewrite Ho, Hi).
  split; [now apply (accounts_unique_transfer s)|].
  split; [now apply (no_admin_transfer s)|].
  split; [now apply (catalogue_sound_transfer s)|].
  split; [now apply (orders_sound_transfer s)|].
  split; [now apply (carts_sound_transfer s)|].
  split; [now apply (purchases_sound_transfer s)|].
  unfold reviews_sound. rewrite Hr. apply Forall_app. split.
  - eapply Forall_impl; [|exact R]. intros rv. now apply review_sound_transfer.
  - constructor; [|constructor].
    apply (review_sound_transfer s); [exact Hm | exact Hos |].
    unfold review_sound, new_review.
    cbn [Review.rating Review.reviewer_id Review.material_id Review.seller_id].
    split; [now apply rating_accepted|].
    split; [now apply has_bought_of_purchase | now apply get_material_sold_by].
Qed.

(** *** Every request *)

Lemma handle_sound (session : option Z) (r : request) (s : database) :
  items_reference_orders s ->
  sound s -> sound (fst (handle session r s)).
Proof.
  intros Hfk Hs.
  destruct (is_quiet r) eqn:Hq.
  - apply (sound_transfer s); [now apply quiet_same_columns | exact Hs].
  - destruct r; try discriminate Hq; unfold handle, login_required.
    + now apply register_sound.
    + destruct (load_user session s) as [cu|] eqn:Hcu; [|exact Hs].
      apply sell_sound; [|exact Hs]. now apply load_user_some in Hcu.
    + destruct (load_user session s) as [cu|]; [|exact Hs].
      now apply add_to_cart_sound.
    + destruct (load_user session s) as [cu|]; [|exact Hs].
      now apply remove_from_cart_sound.
    + destruct (load_user session s) as [cu|]; [|exact Hs].
      now apply checkout_sound.
    + destruct (load_user session s) as [cu|]; [|exact Hs].
      now apply add_review_sound.
Qed.

Lemma empty_db_sound : sound empty_db.
Proof.
  repeat split; try constructor.
  intros uid mid (o & k & [] & _).
Qed.

Lemma empty_db_well_formed : well_formed empty_db.
Proof. apply reachable_well_formed. now exists []. Qed.

Lemma run_sound (rs : list (option Z * request)) (s : database) :
  well_formed s -> sound s -> sound (run rs s).
Proof.
  intros Hw Hs.
  enough (H : well_formed (run rs s) /\ sound (run rs s)) by apply H.
  apply (run_invariant (fun x => well_formed x /\ sound x)); [|now split].
  intros session r x [Hwx Hsx]. split.
  - now apply handle_well_formed.
  - apply handle_sound; [apply Hwx | exact Hsx].
Qed.

Lemma reachable_sound (s : database) : reachable s -> sound s.
Proof.
  intros [rs ->]. apply run_sound; [apply empty_db_well_formed | apply empty_db_sound].
Qed.

(** ** Stores the application can reach, continued *)

Lemma run_app (rs rs' : list (option Z * request)) (s : database) :
  run (rs ++ rs') s = run rs' (run rs s).
Proof.
  revert s. induction rs as [|[session r] rs IH]; intros s; [reflexivity|].
  cbn [run app]. apply IH.
Qed.

Lemma reachable_run (rs : list (option Z * request)) (s : database) :
  reachable s -> reachable (run rs s).
Proof. intros [rs0 ->]. exists (rs0 ++ rs). now rewrite run_app. Qed.

Lemma registered_reachable : reachable registered.
Proof. unfold registered. apply reachable_run. now exists []. Qed.

Lemma listed_reachable (p : Q) : reachable (listed p).
Proof. unfold listed. apply reachable_run, registered_reachable. Qed.

Lemma carted_reachable (p : Q) : reachable (carted p).
Proof. unfold carted. apply reachable_run, listed_reachable. Qed.

Lemma bought_reachable (p : Q) : reachable (bought p).
Proof. unfold bought. apply reachable_run, carted_reachable. Qed.

Lemma carted_again_reachable (p q : Q) : reachable (carted_again p q).
Proof. unfold carted_again. apply reachable_run, bought_reachable. Qed.

Lemma reviewed_reachable : reachable reviewed.
Proof. unfold reviewed. apply reachable_run, bought_reachable. Qed.

Lemma NoDup_map_inj {A B : Type} (f : A -> B) (l : list A) (a b : A) :
  NoDup (map f l) -> In a l -> In b l -> f a = f b -> a = b.
Proof.
  induction l as [|x l IH]; intros Hnd Ha Hb Heq; [destruct Ha|].
  cbn [map] in Hnd. apply NoDup_cons_iff in Hnd as [Hx Hnd].
  destruct Ha as [->|Ha], Hb as [->|Hb].
  - reflexivity.
  - exfalso. apply Hx. rewrite Heq. now apply in_map.
  - exfalso. apply Hx. rewrite <- Heq. now apply in_map.
  - now apply IH.
Qed.

Lemma find_first {A : Type} (p : A -> bool) (l : list A) (a : A) :
  In a l -> p a = true -> (forall b, In b l -> p b = true -> b = a) ->
  find p l = Some a.
Proof.
  intros Hin Hp Huniq. destruct (find p l) as [b|] eqn:Hfind.
  - apply find_some in Hfind as [Hb Hpb]. f_equal. now apply Huniq.
  - apply (find_none _ _ Hfind) in Hin. congruence.
Qed.

Lemma sold_by_unique (s : database) (mid sid sid' : Z) :
  catalogue_sound s -> sold_by s mid sid -> sold_by s mid sid' -> sid = sid'.
Proof.
  intros [Hnd _] H1 H2.
  apply sold_by_spec in H1 as [m (Hm & Hid & <-)].
  apply sold_by_spec in H2 as [m' (Hm' & Hid' & <-)].
  f_equal. apply (NoDup_map_inj StudyMaterial.id (materials s)); congruence.
Qed.

(** X10. An account is known by its key, by its user name and by its e-mail
    address: in every store reached from the empty database, two user rows
    that share one of the three are the same row.  [register] keeps this by
    looking up the name and the address before it inserts. *)
Theorem accounts_stay_unique (s : database) (u v : User.t) :
  reachable s ->
  In u (users s) -> In v (users s) ->
  User.id u = User.id v \/ User.username u = User.username v
  \/ User.email u = User.email v ->
  u = v.
Proof.
  intros Hr Hu Hv Hsame. apply reachable_sound in Hr.
  destruct Hr as ((U1 & U2 & U3) & _).
  destruct Hsame as [H|[H|H]].
  - now apply (NoDup_map_inj User.id (users s)).
  - now apply (NoDup_map_inj User.username (users s)).
  - now apply (NoDup_map_inj User.email (users s)).
Qed.

(** X11. Nobody is a customer of their own material.  In every store reached
    from the empty database a cart holds no material of its owner, nobody has
    a completed purchase of a material they sell, and no review was written
    by the seller it names. *)
Theorem own_material_never_bought (s : database) :
  reachable s ->
  (forall uid m, In m (cart s uid) -> StudyMaterial.seller_id m <> uid)
  /\ (forall uid mid m, completed_purchase s uid mid -> get_material s mid = Some m ->
                        StudyMaterial.seller_id m <> uid)
  /\ (forall rv, In rv (reviews s) -> Review.reviewer_id rv <> Review.seller_id rv).
Proof.
  intros Hr. apply reachable_sound in Hr.
  destruct Hr as (_ & _ & M & _ & C & P & R).
  split; [|split].
  - intros uid m Hin Hown. apply cart_row in Hin as [Hrow Hget].
    unfold carts_sound in C. rewrite Forall_forall in C.
    destruct (C _ Hrow) as [sid [Hsold Hne]]. cbn [fst snd] in Hsold, Hne.
    apply Hne. rewrite <- Hown.
    apply (sold_by_unique s (StudyMaterial.id m)); [exact M | exact Hsold |].
    now apply get_material_sold_by.
  - intros uid mid m Hbought Hget Hown.
    apply has_bought_of_purchase in Hbought.
    destruct (P uid mid Hbought) as [sid [Hsold Hne]].
    apply Hne. rewrite <- Hown.
    apply (sold_by_unique s mid); [exact M | exact Hsold |].
    now apply get_material_sold_by.
  - intros rv Hin Hown. unfold reviews_sound in R. rewrite Forall_forall in R.
    destruct (R _ Hin) as (_ & Hbought & Hsold).
    destruct (P _ _ Hbought) as [sid [Hsold' Hne]].
    apply Hne. rewrite Hown.
    now apply (sold_by_unique s (Review.material_id rv)).
Qed.

Lemma session_user_no_admin (session : option Z) (s : database) (cu : User.t) :
  no_admin s -> load_user session s = Some cu -> User.is_admin cu = false.
Proof.
  intros A Hcu. apply load_user_some in Hcu as [Hin _].
  unfold no_admin in A. rewrite Forall_forall in A.
  apply A. now apply in_map.
Qed.

(** X12. No request makes anybody an administrator, so in every store reached
    from the empty database the exceptions for administrators never apply:
    only the seller gets to edit or delete a material, and only the buyer
    gets to see an order.  Everybody else is turned away and nothing is
    written. *)
Theorem only_owner_gets_through (session : option Z) (s : database) (cu : User.t) :
  reachable s ->
  load_user session s = Some cu ->
  (forall id m method f,
      get_material s id = Some m -> StudyMaterial.seller_id m <> User.id cu ->
      handle session (req_edit_material method id f) s
      = (s, Redirect (Some (msg_edit_forbidden, cat_error)) to_home)
      /\ handle session (req_delete_material id) s
         = (s, Redirect (Some (msg_delete_forbidden, cat_error)) to_home))
  /\ (forall id o,
         In o (orders s) -> Order.id o = id -> Order.buyer_id o <> User.id cu ->
         order_detail cu id s = order_forbidden).
Proof.
  intros Hr Hcu. apply reachable_sound in Hr.
  destruct Hr as (_ & A & _ & (O1 & _) & _).
  pose proof (session_user_no_admin session s cu A Hcu) as Hadmin.
  split.
  - intros id m method f Hget Hne. apply Z.eqb_neq in Hne.
    unfold handle, login_required, edit_material, delete_material.
    now rewrite Hcu, Hget, Hne, Hadmin.
  - intros id o Hin Hid Hne. unfold order_detail.
    rewrite (find_first _ _ o Hin).
    + apply Z.eqb_neq in Hne. now rewrite Hne, Hadmin.
    + now apply Z.eqb_eq.
    + intros b Hb Hp. apply Z.eqb_eq in Hp.
      apply (NoDup_map_inj Order.id (orders s)); congruence.
Qed.

Lemma sum_bounds (xs : list Z) (a : Z) :
  Forall (fun x => 1 <= x <= 5) xs ->
  a + Z.of_nat (List.length xs) <= fold_left Z.add xs a
  <= a + 5 * Z.of_nat (List.length xs).
Proof.
  intros H. revert a. induction H as [|x xs Hx _ IH]; intros a.
  - cbn. lia.
  - cbn [fold_left List.length]. specialize (IH (a + x)). lia.
Qed.

Lemma mean_bounds (xs : list Z) :
  xs <> [] -> Forall (fun x => 1 <= x <= 5) xs ->
  (1 <= arithmetic_mean xs <= 5)%Q.
Proof.
  intros Hne Hxs. destruct xs as [|x xs]; [congruence|].
  unfold arithmetic_mean. pose proof (sum_bounds (x :: xs) 0 Hxs) as Hsum.
  set (n := Z.of_nat (List.length (x :: xs))) in *.
  set (t := fold_left Z.add (x :: xs) 0) in *.
  assert (Hn : 0 < n) by (subst n; cbn [List.length]; lia).
  assert (Hq : (0 < inject_Z n)%Q)
    by (change 0%Q with (inject_Z 0); rewrite <- Zlt_Qlt; exact Hn).
  split.
  - apply Qle_shift_div_l; [exact Hq|]. rewrite Qmult_1_l.
    rewrite <- Zle_Qle. lia.
  - apply Qle_shift_div_r; [exact Hq|].
    change 5%Q with (inject_Z 5). rewrite <- inject_Z_mult.
    rewrite <- Zle_Qle. lia.
Qed.

(** X13. Stars stay within one and five.  In every store reached from the
    empty database each review carries a rating from 1 to 5, and a material
    either has no review, rating 0 and count 0, or a positive count and a
    rating between 1 and 5. *)
Theorem ratings_within_range (s : database) :
  reachable s ->
  (forall rv, In rv (reviews s) -> 1 <= Review.rating rv <= 5)
  /\ (forall m, In m (materials s) ->
                (reviews_of s (StudyMaterial.id m) = []
                 /\ StudyMaterial.rating_count m = 0
                 /\ StudyMaterial.rating m = 0%Q)
                \/ (0 < StudyMaterial.rating_count m
                    /\ (1 <= StudyMaterial.rating m <= 5)%Q)).
Proof.
  intros Hr. pose proof (reachable_well_formed s Hr) as (_ & _ & _ & _ & _ & Hrated).
  apply reachable_sound in Hr. destruct Hr as (_ & _ & _ & _ & _ & _ & R).
  unfold reviews_sound in R. rewrite Forall_forall in R.
  split; [intros rv Hin; apply (R rv Hin)|].
  intros m Hm. unfold ratings_consistent in Hrated. rewrite Forall_forall in Hrated.
  destruct (Hrated m Hm) as [Hrating Hcount].
  destruct (reviews_of s (StudyMaterial.id m)) as [|rv rvs] eqn:Hrs.
  - left. split; [reflexivity|]. split; [exact Hcount | exact Hrating].
  - right. split; [rewrite Hcount; cbn [List.length]; lia|].
    rewrite Hrating. apply mean_bounds; [discriminate|].
    apply Forall_forall. intros x Hx. apply in_map_iff in Hx as [rv' [<- Hrv']].
    apply R. rewrite <- Hrs in Hrv'. unfold reviews_of in Hrv'.
    now apply filter_In in Hrv'.
Qed.

Lemma seller_on_record (s : database) (m : StudyMaterial.t) :
  catalogue_sound s -> In m (materials s) ->
  exists u, In u (users s) /\ User.id u = StudyMaterial.seller_id m
            /\ User.is_seller u = true.
Proof.
  intros [_ M2] Hm. rewrite Forall_forall in M2.
  specialize (M2 (material_key m) (in_map material_key _ _ Hm)).
  cbn [material_key snd] in M2. apply in_map_iff in M2 as [u [Hkey Hu]].
  unfold user_key in Hkey. injection Hkey as H1 H2. now exists u.
Qed.

Lemma loop_finds_sellers (storage_failure : option nat) (oid : Z)
  (ms : list StudyMaterial.t) (s : database) :
  Forall (fun m => get_user s (StudyMaterial.seller_id m) <> None) ms ->
  create_order_items storage_failure oid ms s <> inl AttributeError.
Proof.
  intros Hms. revert storage_failure s Hms.
  induction ms as [|m rest IH]; intros sf s Hms; [discriminate|].
  apply Forall_cons_iff in Hms as [Hm Hrest].
  destruct sf as [[|k]|].
  - discriminate.
  - rewrite loop_turn by discriminate.
    destruct (get_user s (StudyMaterial.seller_id m)); [|congruence].
    apply IH. eapply Forall_impl; [|exact Hrest].
    intros x Hx Hnone. apply Hx. now apply loop_step_get_user in Hnone.
  - rewrite loop_turn by discriminate.
    destruct (get_user s (StudyMaterial.seller_id m)); [|congruence].
    apply IH. eapply Forall_impl; [|exact Hrest].
    intros x Hx Hnone. apply Hx. now apply loop_step_get_user in Hnone.
Qed.

(** X14. In a store reached from the empty database a checkout cannot trip
    over a missing seller: every material of a cart is sold by a user on
    record, flagged as a seller, and whatever the uuid, the clock or the
    store do, the unit of work of the POST does not end in the
    [AttributeError] that [material.seller] being [None] would raise. *)
Theorem checkout_finds_every_seller (cu : User.t) (uuid_hex : string) (now : Z)
  (sf : option nat) (s : database) :
  reachable s ->
  (forall uid m, In m (cart s uid) ->
                 exists seller,
                   get_user s (StudyMaterial.seller_id m) = Some seller
                   /\ User.is_seller seller = true)
  /\ checkout_post cu uuid_hex now sf s <> inl AttributeError.
Proof.
  intros Hr. apply reachable_sound in Hr.
  destruct Hr as ((U1 & _) & _ & M & _).
  assert (Hsellers : forall uid m, In m (cart s uid) ->
                       exists seller,
                         get_user s (StudyMaterial.seller_id m) = Some seller
                         /\ User.is_seller seller = true).
  { intros uid m Hm. apply cart_row in Hm as [_ Hget].
    apply get_material_some in Hget as [Hin _].
    destruct (seller_on_record s m M Hin) as [u (Hu & Hid & Hflag)].
    exists u. split; [|exact Hflag].
    unfold get_user. apply find_first; [exact Hu | now apply Z.eqb_eq |].
    intros b Hb Hp. apply Z.eqb_eq in Hp.
    apply (NoDup_map_inj User.id (users s)); congruence. }
  split; [exact Hsellers|].
  unfold checkout_post, bind, flush_order.
  destruct (existsb _ (orders s)); [discriminate|].
  match goal with
  | |- context [create_order_items ?a ?b ?c ?d] =>
      pose proof (loop_finds_sellers a b c d) as Hloop;
      destruct (create_order_items a b c d) as [e|[[] s1]]
  end.
  - intros Heq. apply Hloop; [|congruence].
    apply Forall_forall. intros m Hm.
    destruct (Hsellers _ m Hm) as [seller [Hseller _]].
    change (get_user (with_orders _ s) (StudyMaterial.seller_id m))
      with (get_user s (StudyMaterial.seller_id m)).
    congruence.
  - discriminate.
Qed.

(** X15. Every material leads to the page of its seller.  In a store reached
    from the empty database the seller of a material is a user flagged as a
    seller, [seller_profile] finds that user, and the page lists the material
    as long as it is active. *)
Theorem material_has_seller_page (s : database) (m : StudyMaterial.t) :
  reachable s ->
  In m (materials s) ->
  exists seller listing,
    seller_profile (StudyMaterial.seller_id m) s = Some (seller, listing)
    /\ User.id seller = StudyMaterial.seller_id m
    /\ User.is_seller seller = true
    /\ (In m listing <-> StudyMaterial.is_active m = true).
Proof.
  intros Hr Hm. apply reachable_sound in Hr.
  destruct Hr as ((U1 & _) & _ & M & _).
  destruct (seller_on_record s m M Hm) as [u (Hu & Hid & Hflag)].
  assert (Hget : get_user s (StudyMaterial.seller_id m) = Some u).
  { unfold get_user. apply find_first; [exact Hu | now apply Z.eqb_eq |].
    intros b Hb Hp. apply Z.eqb_eq in Hp.
    apply (NoDup_map_inj User.id (users s)); congruence. }
  exists u. eexists. unfold seller_profile. rewrite Hget.
  split; [reflexivity|]. split; [exact Hid|]. split; [exact Hflag|].
  rewrite filter_In, Hid, Z.eqb_refl. cbn [andb]. tauto.
Qed.

(** ** Downloads *)

Lemma item_keys_of_sales (ois : list OrderItem.t) :
  map item_key ois = map fst (map item_sale ois).
Proof. rewrite map_map. reflexivity. Qed.

Lemma completed_purchase_columns (s s' : database) (uid mid : Z) :
  orders s' = orders s ->
  map item_key (order_items s') = map item_key (order_items s) ->
  completed_purchase s uid mid -> completed_purchase s' uid mid.
Proof.
  intros Ho Hi (o & oi & Hin_o & Hin_oi & H1 & H2 & H3 & H4).
  assert (Hk : In (item_key oi) (map item_key (order_items s')))
    by (rewrite Hi; now apply in_map).
  apply in_map_iff in Hk as [oi' [Hkey Hin']].
  unfold item_key in Hkey. injection Hkey as _ K2 K3.
  exists o, oi'. rewrite Ho. repeat split; try assumption; congruence.
Qed.

Lemma has_access_columns (s s' : database) (cu : User.t) (m : StudyMaterial.t) :
  orders s' = orders s ->
  map item_key (order_items s') = map item_key (order_items s) ->
  has_access s' cu m = has_access s cu m.
Proof.
  intros Ho Hi. apply eq_true_iff_eq. rewrite !has_access_spec.
  split; (intros [H|H]; [now left | right]);
    eapply completed_purchase_columns; try exact H; congruence.
Qed.

Lemma record_download_absent (now k : Z) (ois : list OrderItem.t) :
  ~ In k (map OrderItem.id ois) ->
  map (fun x => if OrderItem.id x =? k then OrderItem.record_download now x else x) ois
  = ois.
Proof.
  intros Hk. rewrite <- (map_id ois) at 2. apply map_ext_in. intros x Hx.
  destruct (OrderItem.id x =? k) eqn:Heq; [|reflexivity].
  exfalso. apply Hk. apply Z.eqb_eq in Heq. rewrite <- Heq. now apply in_map.
Qed.

Lemma record_download_total (now : Z) (ois : list OrderItem.t) (oi : OrderItem.t) :
  NoDup (map OrderItem.id ois) -> In oi ois ->
  fold_right Z.add 0
    (map OrderItem.download_count
       (map (fun x => if OrderItem.id x =? OrderItem.id oi
                      then OrderItem.record_download now x else x) ois))
  = fold_right Z.add 0 (map OrderItem.download_count ois) + 1.
Proof.
  induction ois as [|x l IH]; intros Hnd Hin; [destruct Hin|].
  cbn [map] in Hnd. apply NoDup_cons_iff in Hnd as [Hx Hnd].
  cbn [map fold_right]. destruct Hin as [->|Hin].
  - rewrite Z.eqb_refl, (record_download_absent now _ l Hx).
    cbn [OrderItem.record_download OrderItem.download_count]. lia.
  - assert (Hne : (OrderItem.id x =? OrderItem.id oi) = false).
    { apply Z.eqb_neq. intros Heq. apply Hx. rewrite Heq. now apply in_map. }
    rewrite Hne, (IH Hnd Hin). lia.
Qed.

(** X16. What a download writes.  [download_material] never touches users,
    materials (the [downloads] column of the material included), orders or the
    sale an order item records; it leaves the entitlement as it was, so a
    purchase can be downloaded again; and with order items under keys of their
    own it adds exactly one to the download counters when a buyer who is not
    the seller is sent the file, nothing in every other case. *)
Theorem download_counts_once (cu : User.t) (mid now : Z) (s : database)
  (m : StudyMaterial.t) :
  NoDup (map OrderItem.id (order_items s)) ->
  get_material s mid = Some m ->
  users (fst (download_material cu mid now s)) = users s
  /\ materials (fst (download_material cu mid now s)) = materials s
  /\ orders (fst (download_material cu mid now s)) = orders s
  /\ map item_sale (order_items (fst (download_material cu mid now s)))
     = map item_sale (order_items s)
  /\ has_access (fst (download_material cu mid now s)) cu m = has_access s cu m
  /\ download_total (fst (download_material cu mid now s))
     = download_total s
       + (if has_access s cu m
             && negb (StudyMaterial.seller_id m =? User.id cu)
          then 1 else 0).
Proof.
  intros Hnd Hget.
  assert (Hcols : users (fst (download_material cu mid now s)) = users s
                  /\ materials (fst (download_material cu mid now s)) = materials s
                  /\ orders (fst (download_material cu mid now s)) = orders s
                  /\ map item_sale (order_items (fst (download_material cu mid now s)))
                     = map item_sale (order_items s)).
  { unfold download_material. rewrite Hget.
    destruct (StudyMaterial.seller_id m =? User.id cu); [repeat split|].
    destruct (purchased_item s (User.id cu) mid); [|repeat split].
    repeat split. cbn [fst order_items update_order_item with_order_items].
    rewrite map_map. apply map_ext. intros x.
    destruct (OrderItem.id x =? _); reflexivity. }
  destruct Hcols as (Hu & Hm & Ho & Hi).
  split; [exact Hu|]. split; [exact Hm|]. split; [exact Ho|]. split; [exact Hi|].
  split.
  - apply has_access_columns; [exact Ho|].
    now rewrite !item_keys_of_sales, Hi.
  - pose proof Hget as Hid. apply get_material_some in Hid as [_ Hid].
    unfold has_access, download_material. rewrite Hget, Hid.
    destruct (StudyMaterial.seller_id m =? User.id cu); [cbn; lia|].
    destruct (purchased_item s (User.id cu) mid) as [oi|] eqn:Hp; [|cbn; lia].
    cbn [orb andb negb fst]. unfold download_total, update_order_item.
    cbn [order_items with_order_items].
    apply record_download_total; [exact Hnd|].
    unfold purchased_item in Hp. now apply find_some in Hp.
Qed.

(** ** The shares of a checkout *)

Lemma credited_fold (ms : list StudyMaterial.t) (uid : Z) (e : Q) :
  credited ms uid e = fold_left Qplus (credits_of ms uid) e.
Proof.
  unfold credited, credits_of. revert e.
  induction ms as [|m ms IH]; intros e; [reflexivity|].
  cbn [fold_left filter]. rewrite IH.
  destruct (StudyMaterial.seller_id m =? uid); reflexivity.
Qed.

Lemma flat_map_same {A B : Type} (f g : A -> list B) (l : list A) :
  (forall x, In x l -> f x = g x) -> flat_map f l = flat_map g l.
Proof.
  intros H. induction l as [|a l IH]; [reflexivity|].
  cbn [flat_map]. rewrite (H a) by now left.
  f_equal. apply IH. intros x Hx. apply H. now right.
Qed.

(** One credit reaches the one row under the key of the seller. *)
Lemma credit_reaches_one_row (us : list User.t) (sid : Z) (c : Q)
  (f : User.t -> list Q) :
  NoDup (map User.id us) -> In sid (map User.id us) ->
  Permutation (flat_map (fun u => if sid =? User.id u then c :: f u else f u) us)
              (c :: flat_map f us).
Proof.
  induction us as [|u l IH]; intros Hnd Hin; [destruct Hin|].
  cbn [map] in Hnd, Hin. apply NoDup_cons_iff in Hnd as [Hu Hnd].
  cbn [flat_map]. destruct (sid =? User.id u) eqn:Heq.
  - apply Z.eqb_eq in Heq. subst sid.
    assert (Hrest : flat_map (fun x => if User.id u =? User.id x then c :: f x else f x) l
                    = flat_map f l).
    { apply flat_map_same. intros x Hx.
      destruct (User.id u =? User.id x) eqn:Hux; [|reflexivity].
      exfalso. apply Hu. apply Z.eqb_eq in Hux. rewrite Hux. now apply in_map. }
    rewrite Hrest. apply Permutation_refl.
  - destruct Hin as [Hin|Hin]; [apply Z.eqb_neq in Heq; congruence|].
    eapply Permutation_trans;
      [apply Permutation_app_head, (IH Hnd Hin) | apply Permutation_sym, Permutation_middle].
Qed.

Lemma credits_reach_their_rows (ms : list StudyMaterial.t) (us : list User.t) :
  NoDup (map User.id us) ->
  Forall (fun m => In (StudyMaterial.seller_id m) (map User.id us)) ms ->
  Permutation (flat_map (fun u => credits_of ms (User.id u)) us)
              (map (fun m => (StudyMaterial.price m * seller_share)%Q) ms).
Proof.
  intros Hnd Hms. induction Hms as [|m ms Hm _ IH].
  - rewrite flat_map_nil by reflexivity. constructor.
  - cbn [map].
    eapply Permutation_trans; [|apply perm_skip, IH].
    rewrite (flat_map_same _
               (fun u => if StudyMaterial.seller_id m =? User.id u
                         then (StudyMaterial.price m * seller_share)%Q
                                :: credits_of ms (User.id u)
                         else credits_of ms (User.id u))).
    + now apply credit_reaches_one_row.
    + intros u _. unfold credits_of. cbn [filter].
      destruct (StudyMaterial.seller_id m =? User.id u); reflexivity.
Qed.

(** X17. Every sale is credited once.  When a checkout in a store reached
    from the empty database places an order, the user rows stay in place and
    each gets added to its earnings, in cart order, the credits of the cart
    materials its user sells, 80% of the price each; taken over all users
    these are the credits of the cart, each one once: none is lost on a
    missing seller or doubled on a shared key, and nothing else is
    credited. *)
Theorem every_sale_is_credited_once (cu : User.t) (method : http_method)
  (uuid_hex : string) (now : Z) (sf : option nat) (s s' : database) (oid : Z) :
  reachable s ->
  checkout cu method uuid_hex now sf s = (s', order_placed oid) ->
  users s'
  = map (fun u => User.with_total_earnings
                    (fold_left Qplus (credits_of (cart s (User.id cu)) (User.id u))
                               (User.total_earnings u)) u)
        (users s)
  /\ Permutation
       (flat_map (fun u => credits_of (cart s (User.id cu)) (User.id u)) (users s))
       (map (fun m => (StudyMaterial.price m * seller_share)%Q)
            (cart s (User.id cu))).
Proof.
  intros Hr Hco. apply reachable_sound in Hr.
  destruct Hr as ((U1 & _) & _ & M & _).
  apply checkout_inv in Hco as [[_ Hno]|(_ & _ & _ & _ & ->)];
    [now destruct (Hno oid)|].
  split.
  - unfold checkout_result, delete_cart_rows, loop_result.
    cbn [users with_cart_items with_orders].
    apply map_ext. intros u. now rewrite credited_fold.
  - apply credits_reach_their_rows; [exact U1|].
    apply Forall_forall. intros m Hm. apply cart_row in Hm as [_ Hget].
    apply get_material_some in Hget as [Hin _].
    destruct (seller_on_record s m M Hin) as [u (Hu & <- & _)]. now apply in_map.
Qed.

Lemma downloaded_count (ms : list StudyMaterial.t) (mid d : Z) :
  downloaded ms mid d
  = d + Z.of_nat (count_occ Z.eq_dec (map StudyMaterial.id ms) mid).
Proof.
  revert d. induction ms as [|m ms IH]; intros d.
  - cbn. lia.
  - change (downloaded (m :: ms) mid d)
      with (downloaded ms mid (if StudyMaterial.id m =? mid then d + 1 else d)).
    rewrite IH. cbn [map]. destruct (StudyMaterial.id m =? mid) eqn:Heq.
    + apply Z.eqb_eq in Heq. rewrite (count_occ_cons_eq _ _ Heq). lia.
    + apply Z.eqb_neq in Heq. rewrite (count_occ_cons_neq _ _ Heq). lia.
Qed.

(** X18. A checkout counts one download per material sold.  With at most one
    cart row per user and material, the order placed leaves every material of
    the catalogue as it was except for [downloads], which grows by one for the
    materials of the cart and stays for all others. *)
Theorem checkout_counts_each_sale (cu : User.t) (method : http_method)
  (uuid_hex : string) (now : Z) (sf : option nat) (s s' : database) (oid mid : Z)
  (m : StudyMaterial.t) :
  NoDup (cart_items s) ->
  checkout cu method uuid_hex now sf s = (s', order_placed oid) ->
  get_material s mid = Some m ->
  get_material s' mid
  = Some (StudyMaterial.with_downloads
            (StudyMaterial.downloads m
             + (if in_cart s (User.id cu) m then 1 else 0)) m).
Proof.
  intros Hnd Hco Hget.
  apply checkout_inv in Hco as [[_ Hno]|(_ & _ & _ & _ & ->)];
    [now destruct (Hno oid)|].
  pose proof Hget as Hfind.
  unfold get_material, checkout_result, delete_cart_rows, loop_result in *.
  cbn [materials with_cart_items with_orders].
  rewrite (find_key_map StudyMaterial.id) by (intros a; destruct a; reflexivity).
  rewrite Hfind. cbn [option_map]. do 2 f_equal.
  rewrite downloaded_count. f_equal.
  pose proof (cart_count s (User.id cu) mid m (cart_items s) Hget) as Hcount.
  rewrite with_cart_items_same in Hcount.
  pose proof Hget as Hid. apply get_material_some in Hid as [_ Hid].
  rewrite Hid, Hcount.
  destruct (in_cart s (User.id cu) m) eqn:Hin.
  - apply in_cart_spec in Hin. rewrite Hid in Hin.
    apply (count_occ_In Z.eq_dec) in Hin. rewrite Hcount in Hin.
    pose proof (proj1 (NoDup_count_occ row_eq_dec (cart_items s)) Hnd
                      (User.id cu, mid)).
    lia.
  - destruct (count_occ row_eq_dec (cart_items s) (User.id cu, mid)) eqn:Hc;
      [reflexivity|].
    exfalso. assert (Hpos : (count_occ Z.eq_dec
                               (map StudyMaterial.id (cart s (User.id cu))) mid > 0)%nat)
      by lia.
    apply (count_occ_In Z.eq_dec) in Hpos. rewrite <- Hid in Hpos.
    apply in_cart_spec in Hpos. congruence.
Qed.

(** ** What stays on record *)

Lemma records_kept_refl (s : database) : records_kept s s.
Proof.
  split; [exists []; now rewrite app_nil_r|]. intros o Ho. now split.
Qed.

Lemma records_kept_trans (s1 s2 s3 : database) :
  records_kept s1 s2 -> records_kept s2 s3 -> records_kept s1 s3.
Proof.
  intros [[a1 M1] O1] [[a2 M2] O2]. split.
  - exists (a1 ++ a2). now rewrite M2, M1, app_assoc.
  - intros o Ho. destruct (O1 o Ho) as [Ho2 Hi2]. destruct (O2 o Ho2) as [Ho3 Hi3].
    split; [exact Ho3 | now rewrite Hi3].
Qed.

Lemma map_filter_key {A B : Type} (f : A -> B) (p : A -> bool) (q : B -> bool)
  (l : list A) :
  (forall x, p x = q (f x)) -> map f (filter p l) = filter q (map f l).
Proof.
  intros Hpq. induction l as [|x l IH]; [reflexivity|].
  cbn [filter map]. rewrite <- Hpq. destruct (p x); cbn [map]; now rewrite IH.
Qed.

Lemma items_of_sales (s s' : database) (oid : Z) :
  map item_sale (order_items s') = map item_sale (order_items s) ->
  map item_sale (items s' oid) = map item_sale (items s oid).
Proof.
  intros H. unfold items.
  rewrite !(map_filter_key item_sale _ (fun k => snd (fst (fst k)) =? oid))
    by reflexivity.
  now rewrite H.
Qed.

Lemma same_records_kept (s s' : database) :
  map material_file (materials s') = map material_file (materials s) ->
  orders s' = orders s ->
  map item_sale (order_items s') = map item_sale (order_items s) ->
  records_kept s s'.
Proof.
  intros Hm Ho Hi. split.
  - exists []. now rewrite app_nil_r.
  - intros o Hin. rewrite Ho. split; [exact Hin | now apply items_of_sales].
Qed.

Lemma update_rating_file (s : database) (x : StudyMaterial.t) :
  material_file (update_rating s x) = material_file x.
Proof. unfold update_rating. destruct (reviews_of s _); destruct x; reflexivity. Qed.

Lemma review_result_records (cu : User.t) (mid rt : Z) (comment : option string)
  (m : StudyMaterial.t) (s : database) :
  records_kept s (review_result cu mid rt comment m s).
Proof.
  apply same_records_kept; try reflexivity.
  unfold review_result, update_material. cbn [materials with_materials with_reviews].
  rewrite map_map. apply map_ext. intros x.
  destruct (StudyMaterial.id x =? StudyMaterial.id m); [|reflexivity].
  apply update_rating_file.
Qed.

Lemma checkout_result_records (cu : User.t) (uuid_hex : string) (now : Z)
  (s : database) :
  records_kept s (checkout_result cu uuid_hex now s).
Proof.
  split.
  - exists []. rewrite app_nil_r.
    unfold checkout_result, delete_cart_rows, loop_result.
    cbn [materials with_cart_items with_orders].
    rewrite map_map. apply map_ext. intros x. destruct x; reflexivity.
  - intros o Ho.
    destruct (checkout_result_orders cu uuid_hex now s) as (Hos & His & _).
    split; [rewrite Hos; apply in_or_app; now left|].
    unfold items. rewrite His.
    destruct (appended_items_spec (next_id (map Order.id (orders s)))
                (cart s (User.id cu)) (order_items s)) as [fresh [-> Hfresh]].
    apply split_item_keys in Hfresh as [Hoid _].
    rewrite filter_app, (filter_none _ fresh), app_nil_r; [reflexivity|].
    eapply Forall_impl; [|exact Hoid]. intros oi ->. apply Z.eqb_neq.
    assert (Hlt : Order.id o < next_id (map Order.id (orders s)))
      by (apply next_id_above, in_map, Ho).
    lia.
Qed.

Lemma handle_records_kept (session : option Z) (r : request) (s : database) :
  records_kept s (fst (handle session r s)).
Proof.
  destruct r; unfold handle, login_required.
  all: try (destruct (load_user session s) as [cu|] eqn:Hcu;
            [|apply records_kept_refl]).
  all: try match goal with
         | |- context [sell ?a ?b ?c ?d ?e] =>
             destruct (sell_inv a b c d e)
               as [->|(ti & de & p & filename & ext & ->)];
             [apply records_kept_refl|];
             split;
             [eexists; destruct (User.is_seller a);
              cbn [materials with_materials update_user with_users];
              rewrite map_app; reflexivity
             |intros o Ho; destruct (User.is_seller a); now split]
         | |- context [checkout ?a ?b ?c ?d ?e ?f] =>
             let H := fresh in
             destruct (checkout a b c d e f) as [s' r'] eqn:H;
             apply checkout_inv in H as [[-> _]|(_ & _ & _ & _ & ->)];
             [apply records_kept_refl | apply checkout_result_records]
         | |- context [add_review ?a ?b ?c ?d ?e] =>
             let H := fresh in
             destruct (add_review a b c d e) as [s' r'] eqn:H;
             apply add_review_inv in H
                 as [[-> _]|(m & rt & _ & _ & _ & _ & _ & _ & ->)];
             [apply records_kept_refl | apply review_result_records]
         end.
  all: open_handlers; break_handler;
    try apply records_kept_refl;
    apply same_records_kept; same_column.
Qed.

Lemma run_records_kept (rs : list (option Z * request)) (s : database) :
  records_kept s (run rs s).
Proof.
  revert s. induction rs as [|[session r] rs IH]; intros s;
    [apply records_kept_refl|].
  cbn [run]. eapply records_kept_trans; [apply handle_records_kept | apply IH].
Qed.

(** A lookup by key over a table whose column [key] was kept: the rows of
    before are still there, in place. *)
Lemma find_column {A K : Type} (ident : A -> Z) (key : A -> K) (l l' : list A)
  (added : list K) (k : Z) (a : A) :
  (forall x y, key x = key y -> ident x = ident y) ->
  map key l' = map key l ++ added ->
  find (fun x => ident x =? k) l = Some a ->
  exists a', find (fun x => ident x =? k) l' = Some a' /\ key a' = key a.
Proof.
  intros Hkey. revert l'.
  induction l as [|x l IH]; intros l' Hmap Hfind; [discriminate|].
  destruct l' as [|x' l']; [discriminate|].
  cbn [map app] in Hmap.
  assert (Hx : key x' = key x) by congruence.
  assert (Hrest : map key l' = map key l ++ added) by congruence.
  cbn [find] in *. rewrite (Hkey _ _ Hx).
  destruct (ident x =? k).
  - injection Hfind as <-. now exists x'.
  - now apply IH.
Qed.

Lemma completed_purchase_kept (s s' : database) (uid mid : Z) :
  records_kept s s' ->
  completed_purchase s uid mid -> completed_purchase s' uid mid.
Proof.
  intros [_ Hkept] (o & oi & Ho & Hoi & H1 & H2 & H3 & H4).
  destruct (Hkept o Ho) as [Ho' Hitems].
  assert (Hin : In (item_sale oi) (map item_sale (items s' (Order.id o)))).
  { rewrite Hitems. apply in_map. unfold items. apply filter_In.
    split; [exact Hoi | now apply Z.eqb_eq]. }
  apply in_map_iff in Hin as [oi' [Hsale Hin]].
  unfold items in Hin. apply filter_In in Hin as [Hin _].
  unfold item_sale, item_key in Hsale. injection Hsale as _ K1 K2 _.
  exists o, oi'. repeat split; try assumption; congruence.
Qed.

(** X19. A placed order is final.  Whatever requests follow, an order on
    record stays on record with its number, total, status and buyer, the
    items of the order keep their keys, material and price, and in a store
    reached from the empty database the buyer is shown that order under its
    key. *)
Theorem placed_orders_are_final (rs : list (option Z * request)) (s : database)
  (o : Order.t) :
  In o (orders s) ->
  In o (orders (run rs s))
  /\ map item_sale (items (run rs s) (Order.id o))
     = map item_sale (items s (Order.id o))
  /\ (reachable s ->
      forall buyer, User.id buyer = Order.buyer_id o ->
                    order_detail buyer (Order.id o) (run rs s) = order_shown o).
Proof.
  intros Ho. destruct (run_records_kept rs s) as [_ Hkept].
  destruct (Hkept o Ho) as [Ho' Hitems].
  split; [exact Ho'|]. split; [exact Hitems|].
  intros Hr buyer Hbuyer.
  apply (reachable_run rs), reachable_sound in Hr.
  destruct Hr as (_ & _ & _ & (O1 & _) & _).
  unfold order_detail. rewrite (find_first _ _ o Ho').
  - now rewrite Hbuyer, Z.eqb_refl.
  - apply Z.eqb_refl.
  - intros b Hb Hp. apply Z.eqb_eq in Hp.
    apply (NoDup_map_inj Order.id (orders (run rs s))); congruence.
Qed.

(** X20. Access is never taken back.  A user who may download a material, as
    its seller or through a purchase, may still download it after any run of
    requests: the material is still in the catalogue (a deleted material is
    only marked inactive), under the same seller and the same stored file,
    and [download_material] sends that file. *)
Theorem access_is_never_revoked (rs : list (option Z * request)) (s : database)
  (cu : User.t) (mid now : Z) (m : StudyMaterial.t) :
  get_material s mid = Some m ->
  has_access s cu m = true ->
  exists m',
    get_material (run rs s) mid = Some m'
    /\ StudyMaterial.seller_id m' = StudyMaterial.seller_id m
    /\ StudyMaterial.file_path m' = StudyMaterial.file_path m
    /\ has_access (run rs s) cu m' = true
    /\ snd (download_material cu mid now (run rs s))
       = SendFile (StudyMaterial.file_path m) (download_name m').
Proof.
  intros Hget Hacc. pose proof (run_records_kept rs s) as Hkept.
  destruct Hkept as [[added Hfiles] Horders].
  destruct (find_column StudyMaterial.id material_file (materials s)
              (materials (run rs s)) added mid m)
    as [m' [Hget' Hfile]];
    [unfold material_file; congruence | exact Hfiles | exact Hget |].
  fold (get_material (run rs s) mid) in Hget'.
  unfold material_file in Hfile. injection Hfile as Hid Hseller Hpath.
  assert (Hacc' : has_access (run rs s) cu m' = true).
  { apply has_access_spec. apply has_access_spec in Hacc as [Hown|Hbought].
    - left. congruence.
    - right. rewrite Hid.
      apply (completed_purchase_kept s); [|exact Hbought].
      split; [now exists added | exact Horders]. }
  exists m'. split; [exact Hget'|]. split; [exact Hseller|]. split; [exact Hpath|].
  split; [exact Hacc'|].
  destruct (download_by_access (run rs s) cu m' mid now Hget') as [-> _].
  now rewrite Hacc', Hpath.
Qed.

(** ** Accounts *)

Lemma find_snoc_new {A : Type} (p : A -> bool) (l : list A) (a : A) :
  existsb p l = false -> p a = true -> find p (l ++ [a]) = Some a.
Proof.
  intros Hl Ha. induction l as [|b l IH]; cbn [app find].
  - now rewrite Ha.
  - cbn [existsb] in Hl. apply orb_false_iff in Hl as [Hb Hl].
    rewrite Hb. now apply IH.
Qed.

(** X21. A registration that is answered with the redirect to the login page
    has appended one user row, under a key no user had, with the submitted
    name and address and the hash of the password, neither seller nor
    administrator and without earnings.  That key loads the row in a session,
    a login with the address and the right password goes through, the same
    form sent once more is turned away because the name is taken, and so is,
    for the address, a form with another name. *)
Theorem registered_account_works (username email password confirm_password : option string)
  (h : string) (s s' : database) :
  register None POST username email password confirm_password h s
  = (s', Redirect (Some (msg_registered, cat_success)) to_login) ->
  exists name mail u,
    username = Some name /\ email = Some mail
    /\ u = User.mk (next_id (map User.id (users s))) name mail h
                   None None None None false false None 0%Q
    /\ users s' = users s ++ [u]
    /\ get_user s (User.id u) = None
    /\ load_user (Some (User.id u)) s' = Some u
    /\ (forall now,
          login None POST (Some mail) true now s'
          = (update_user (User.id u) (User.with_last_login now) s',
             Redirect (Some (msg_logged_in, cat_success)) to_next_or_home))
    /\ (forall h',
          register None POST username email password confirm_password h' s'
          = (s', Render (Some (msg_username_taken, cat_error)) "register.html"))
    /\ (forall other h',
          present (Some other) = true ->
          existsb (fun x => String.eqb (User.username x) other) (users s') = false ->
          register None POST (Some other) email password confirm_password h' s'
          = (s', Render (Some (msg_email_taken, cat_error)) "register.html")).
Proof.
  unfold register. intros H.
  destruct (negb (forallb present [username; email; password; confirm_password]))
    eqn:Hpresent; [discriminate|].
  destruct (negb (same_field password confirm_password)) eqn:Hsame; [discriminate|].
  destruct username as [name|]; [|discriminate].
  destruct email as [mail|]; [|discriminate].
  destruct (existsb (fun u => String.eqb (User.username u) name) (users s))
    eqn:Hname; [discriminate|].
  destruct (existsb (fun u => String.eqb (User.email u) mail) (users s))
    eqn:Hmail; [discriminate|].
  injection H as <-.
  set (u := User.mk (next_id (map User.id (users s))) name mail h
                    None None None None false false None 0%Q).
  assert (Hfresh : ~ In (User.id u) (map User.id (users s))).
  { intros Hin. apply next_id_above in Hin. cbn in Hin. lia. }
  exists name, mail, u.
  split; [reflexivity|]. split; [reflexivity|]. split; [reflexivity|].
  split; [reflexivity|]. split; [|split; [|split; [|split]]].
  - unfold get_user. destruct (find _ (users s)) as [x|] eqn:Hfind; [|reflexivity].
    exfalso. apply find_some in Hfind as [Hx Hid]. apply Z.eqb_eq in Hid.
    apply Hfresh. rewrite <- Hid. now apply in_map.
  - unfold load_user, get_user. cbn [users with_users].
    now apply (find_snoc_fresh User.id).
  - intros now. unfold login. cbn [users with_users].
    rewrite (find_snoc_new _ (users s) u Hmail) by apply String.eqb_refl.
    reflexivity.
  - intros h'. cbn [users with_users].
    rewrite existsb_app. cbn [existsb User.username u].
    now rewrite String.eqb_refl, orb_true_r.
  - intros other h' Hother Hfree.
    assert (Hrest : forallb present [Some other; Some mail; password; confirm_password]
                    = true).
    { apply negb_false_iff in Hpresent. cbn [forallb] in Hpresent |- *.
      apply andb_true_iff in Hpresent as [_ Hpresent]. now rewrite Hother. }
    rewrite Hrest, Hfree. cbn [negb users with_users].
    rewrite existsb_app. cbn [existsb User.email u].
    now rewrite String.eqb_refl, orb_true_r.
Qed.

(** ** Counters *)

Lemma update_rating_views (s : database) (x : StudyMaterial.t) :
  material_views (update_rating s x) = material_views x.
Proof. unfold update_rating. destruct (reviews_of s _); destruct x; reflexivity. Qed.

Lemma update_rating_downloads (s : database) (x : StudyMaterial.t) :
  material_downloads (update_rating s x) = material_downloads x.
Proof. unfold update_rating. destruct (reviews_of s _); destruct x; reflexivity. Qed.

(** A column of the catalogue over one request: the rows of before, in
    place, followed by what [sell] appended. *)
Ltac catalogue_kept rating_lemma :=
  unfold handle;
  try match goal with
      | |- context [login_required ?a ?b _] =>
          unfold login_required;
          destruct (load_user a b) as [?cu|]; [|exists []; now rewrite app_nil_r]
      end;
  first
    [ match goal with
      | |- context [sell ?a ?b ?c ?d ?e] =>
          destruct (sell_inv a b c d e)
            as [->|(?ti & ?de & ?p & ?filename & ?ext & ->)];
          [exists []; now rewrite app_nil_r|];
          eexists; destruct (User.is_seller a);
          cbn [materials with_materials update_user with_users];
          rewrite map_app; reflexivity
      | |- context [checkout ?a ?b ?c ?d ?e ?f] =>
          let H := fresh in
          destruct (checkout a b c d e f) as [?s' ?r'] eqn:H;
          apply checkout_inv in H as [[-> _]|(_ & _ & _ & _ & ->)];
          exists []; rewrite app_nil_r; [reflexivity|];
          unfold checkout_result, delete_cart_rows, loop_result;
          cbn [fst materials with_cart_items with_orders];
          rewrite map_map; apply map_ext;
          let x := fresh "x" in intros x; destruct x; reflexivity
      | |- context [add_review ?a ?b ?c ?d ?e] =>
          let H := fresh in
          destruct (add_review a b c d e) as [?s' ?r'] eqn:H;
          apply add_review_inv in H
              as [[-> _]|(?m & ?rt & _ & _ & _ & _ & _ & _ & ->)];
          exists []; rewrite app_nil_r; [reflexivity|];
          unfold review_result, update_material;
          cbn [fst materials with_materials with_reviews];
          rewrite map_map; apply map_ext;
          let x := fresh "x" in
          intros x; destruct (StudyMaterial.id x =? _);
          [apply rating_lemma | reflexivity]
      end
    | open_handlers; break_handler; exists []; rewrite app_nil_r; same_column ].

Lemma handle_keeps_views (session : option Z) (r : request) (s : database) :
  is_material_detail r = false ->
  exists added,
    map material_views (materials (fst (handle session r s)))
    = map material_views (materials s) ++ added.
Proof.
  intros Hr. destruct r; try discriminate Hr; catalogue_kept update_rating_views.
Qed.

Lemma handle_keeps_downloads (session : option Z) (r : request) (s : database) :
  is_checkout r = false -> is_sell r = false ->
  map material_downloads (materials (fst (handle session r s)))
  = map material_downloads (materials s).
Proof.
  intros Hr Hsell.
  assert (H : exists added,
             map material_downloads (materials (fst (handle session r s)))
             = map material_downloads (materials s) ++ added
             /\ added = []).
  { destruct r; try discriminate Hr; try discriminate Hsell.
    all: unfold handle;
      try match goal with
          | |- context [login_required ?a ?b _] =>
              unfold login_required;
              destruct (load_user a b) as [cu|];
              [|exists []; now rewrite app_nil_r]
          end.
    all: try match goal with
           | |- context [add_review ?a ?b ?c ?d ?e] =>
               let H := fresh in
               destruct (add_review a b c d e) as [s' r'] eqn:H;
               apply add_review_inv in H
                   as [[-> _]|(m & rt & _ & _ & _ & _ & _ & _ & ->)];
               exists []; rewrite app_nil_r; (split; [|reflexivity]);
               [reflexivity|];
               unfold review_result, update_material;
               cbn [fst materials with_materials with_reviews];
               rewrite map_map; apply map_ext;
               let x := fresh "x" in
               intros x; destruct (StudyMaterial.id x =? _);
               [apply update_rating_downloads | reflexivity]
           end.
    all: open_handlers; break_handler; exists []; rewrite app_nil_r;
      (split; [|reflexivity]); same_column. }
  destruct H as [added [H ->]]. now rewrite app_nil_r in H.
Qed.

Lemma handle_keeps_sales (session : option Z) (r : request) (s : database) :
  is_checkout r = false ->
  map item_sale (order_items (fst (handle session r s)))
  = map item_sale (order_items s).
Proof.
  intros Hr. destruct r; try discriminate Hr; unfold handle.
  all: try match goal with
         | |- context [login_required ?a ?b _] =>
             unfold login_required; destruct (load_user a b) as [cu|];
             [|reflexivity]
         end.
  all: try match goal with
         | |- context [add_review ?a ?b ?c ?d ?e] =>
             let H := fresh in
             destruct (add_review a b c d e) as [s' r'] eqn:H;
             apply add_review_inv in H
                 as [[-> _]|(m & rt & _ & _ & _ & _ & _ & _ & ->)];
             reflexivity
         end.
  all: open_handlers; break_handler; same_column.
Qed.

Lemma views_step (session : option Z) (r : request) (s : database) (mid : Z)
  (m : StudyMaterial.t) :
  get_material s mid = Some m ->
  exists m',
    get_material (fst (handle session r s)) mid = Some m'
    /\ StudyMaterial.views m'
       = StudyMaterial.views m + (if is_detail_of mid r then 1 else 0).
Proof.
  intros Hget. destruct (is_material_detail r) eqn:Hr.
  - destruct r; try discriminate Hr. unfold handle, material_detail, is_detail_of.
    destruct (get_material s id) as [m0|] eqn:Hget0.
    + apply get_material_some in Hget0 as [_ Hid0]. cbn [fst].
      unfold get_material, update_material in *. cbn [materials with_materials].
      rewrite (find_key_map StudyMaterial.id)
        by (intros a; destruct (StudyMaterial.id a =? _); destruct a; reflexivity).
      rewrite Hget. cbn [option_map]. eexists. split; [reflexivity|].
      apply find_some in Hget as [_ Hid]. apply Z.eqb_eq in Hid.
      rewrite Hid, Hid0, (Z.eqb_sym mid id).
      destruct (id =? mid); cbn [StudyMaterial.views StudyMaterial.with_views]; lia.
    + exists m. split; [exact Hget|].
      destruct (id =? mid) eqn:Heq; [|lia].
      apply Z.eqb_eq in Heq. subst id. congruence.
  - destruct (handle_keeps_views session r s Hr) as [added Hviews].
    destruct (find_column StudyMaterial.id material_views (materials s)
                (materials (fst (handle session r s))) added mid m)
      as [m' [Hm' Hv]];
      [unfold material_views; congruence | exact Hviews | exact Hget |].
    exists m'. split; [exact Hm'|].
    unfold material_views in Hv. injection Hv as _ ->.
    destruct r; try discriminate Hr; cbn [is_detail_of]; lia.
Qed.

(** X22. The view counter counts the requests for the detail page.  Over any
    run of requests a material stays in the catalogue, and its [views] grow
    by exactly the number of requests for its detail page in the run: every
    such request counts, signed in or not, and no other request touches the
    counter. *)
Theorem views_count_detail_requests (rs : list (option Z * request)) (s : database)
  (mid : Z) (m : StudyMaterial.t) :
  get_material s mid = Some m ->
  exists m',
    get_material (run rs s) mid = Some m'
    /\ StudyMaterial.views m' = StudyMaterial.views m + detail_requests mid rs.
Proof.
  revert s m. induction rs as [|[session r] rs IH]; intros s m Hget.
  - exists m. split; [exact Hget|]. unfold detail_requests. cbn. lia.
  - destruct (views_step session r s mid m Hget) as [m1 [Hget1 Hv1]].
    destruct (IH _ _ Hget1) as [m' [Hget' Hv']].
    exists m'. split; [exact Hget'|].
    rewrite Hv', Hv1. unfold detail_requests. cbn [filter snd].
    destruct (is_detail_of mid r); cbn [List.length]; lia.
Qed.

(** *** Sales *)

Lemma count_filter {A : Type} (f : A -> Z) (k : Z) (l : list A) :
  List.length (filter (fun x => f x =? k) l) = count_occ Z.eq_dec (map f l) k.
Proof.
  induction l as [|x l IH]; [reflexivity|].
  cbn [filter map]. destruct (f x =? k) eqn:Heq.
  - apply Z.eqb_eq in Heq. rewrite (count_occ_cons_eq _ _ Heq). cbn [List.length].
    now rewrite IH.
  - apply Z.eqb_neq in Heq. now rewrite (count_occ_cons_neq _ _ Heq).
Qed.

Lemma sales_counted_columns (s : database) :
  sales_counted s
  <-> Forall (fun k => snd k
                       = Z.of_nat (count_occ Z.eq_dec
                                     (map OrderItem.material_id (order_items s))
                                     (fst k)))
             (map material_downloads (materials s)).
Proof.
  unfold sales_counted, sales_of. rewrite Forall_map.
  split; intros H; eapply Forall_impl; try exact H; intros m Hm;
    cbn [material_downloads fst snd] in *.
  - now rewrite <- count_filter.
  - now rewrite count_filter.
Qed.

Lemma sales_counted_transfer (s s' : database) :
  map material_downloads (materials s') = map material_downloads (materials s) ->
  map OrderItem.material_id (order_items s')
  = map OrderItem.material_id (order_items s) ->
  sales_counted s -> sales_counted s'.
Proof.
  intros Hm Hi H. apply sales_counted_columns. rewrite Hm, Hi.
  now apply sales_counted_columns.
Qed.

Lemma item_materials_of_sales (ois : list OrderItem.t) :
  map OrderItem.material_id ois = map (fun k => snd (fst k)) (map item_sale ois).
Proof. rewrite map_map. reflexivity. Qed.

(** An order item is for a material of the catalogue. *)
Lemma item_material_on_record (s : database) (oi : OrderItem.t) :
  items_reference_orders s -> purchases_sound s ->
  In oi (order_items s) ->
  In (OrderItem.material_id oi) (map StudyMaterial.id (materials s)).
Proof.
  intros Hfk P Hoi. unfold items_reference_orders in Hfk.
  rewrite Forall_forall in Hfk. pose proof (Hfk oi Hoi) as Ho.
  apply in_map_iff in Ho as [o [Hid Ho]].
  destruct (P (Order.buyer_id o) (OrderItem.material_id oi)) as [sid [Hsold _]].
  - exists o, (item_key oi). split; [exact Ho|]. split; [now apply in_map|].
    cbn [item_key fst snd]. auto.
  - apply sold_by_spec in Hsold as [m (Hm & <- & _)]. now apply in_map.
Qed.

Lemma sell_sales_counted (cu : User.t) (method : http_method) (f : material_form)
  (file : upload) (s : database) :
  items_reference_orders s -> purchases_sound s ->
  sales_counted s -> sales_counted (fst (sell cu method f file s)).
Proof.
  intros Hfk P H.
  destruct (sell_inv cu method f file s)
    as [->|(ti & de & p & filename & ext & ->)]; [exact H|].
  unfold sales_counted, sales_of in *.
  assert (Hcols : forall s1 : database,
             materials s1 = materials s -> order_items s1 = order_items s ->
             Forall (fun m => StudyMaterial.downloads m
                              = Z.of_nat (List.length
                                            (filter (fun oi => OrderItem.material_id oi
                                                               =? StudyMaterial.id m)
                                                    (order_items s1))))
                    (materials s1 ++
                       [StudyMaterial.mk (next_id (map StudyMaterial.id (materials s)))
                                         ti de p filename ext 0 0 0%Q 0 true
                                         (User.id cu)]));
    [|destruct (User.is_seller cu);
      [exact (Hcols s eq_refl eq_refl)
      |exact (Hcols (update_user (User.id cu) (User.with_is_seller true) s)
                    eq_refl eq_refl)]].
  intros s1 -> ->.
  apply Forall_app. split; [exact H|].
  constructor; [|constructor].
  cbn [StudyMaterial.downloads StudyMaterial.id].
  rewrite filter_none; [reflexivity|].
  apply Forall_forall. intros oi Hoi. apply Z.eqb_neq.
  apply (item_material_on_record s oi Hfk P) in Hoi.
  apply next_id_above in Hoi. lia.
Qed.

Lemma appended_items_materials (oid : Z) (ms : list StudyMaterial.t)
  (ois : list OrderItem.t) :
  map OrderItem.material_id (appended_items oid ms ois)
  = map OrderItem.material_id ois ++ map StudyMaterial.id ms.
Proof.
  destruct (appended_items_spec oid ms ois) as [fresh [-> Hfresh]].
  rewrite map_app. f_equal.
  apply (f_equal (map (fun k : Z * Z * Q => snd (fst k)))) in Hfresh.
  now rewrite !map_map in Hfresh.
Qed.

Lemma checkout_result_sales_counted (cu : User.t) (uuid_hex : string) (now : Z)
  (s : database) :
  sales_counted s -> sales_counted (checkout_result cu uuid_hex now s).
Proof.
  intros H. unfold sales_counted, sales_of in *.
  destruct (checkout_result_orders cu uuid_hex now s) as (_ & -> & _).
  unfold checkout_result, delete_cart_rows, loop_result.
  cbn [materials with_cart_items with_orders].
  rewrite Forall_map. eapply Forall_impl; [|exact H].
  intros m Hm. cbn [StudyMaterial.downloads StudyMaterial.with_downloads
                    StudyMaterial.id].
  rewrite downloaded_count, Hm, !count_filter, appended_items_materials.
  rewrite count_occ_app. lia.
Qed.

Lemma handle_sales_counted (session : option Z) (r : request) (s : database) :
  items_reference_orders s -> sound s ->
  sales_counted s -> sales_counted (fst (handle session r s)).
Proof.
  intros Hfk Hs H. destruct (is_checkout r) eqn:Hco.
  - destruct r; try discriminate Hco. unfold handle, login_required.
    destruct (load_user session s) as [cu|]; [|exact H].
    destruct (checkout cu method uuid_hex now storage_failure s) as [s' r'] eqn:Hrun.
    apply checkout_inv in Hrun as [[-> _]|(_ & _ & _ & _ & ->)]; [exact H|].
    now apply checkout_result_sales_counted.
  - destruct (is_sell r) eqn:Hsell.
    + destruct r; try discriminate Hsell. unfold handle, login_required.
      destruct (load_user session s) as [cu|]; [|exact H].
      apply sell_sales_counted; [exact Hfk | apply Hs | exact H].
    + apply (sales_counted_transfer s); [now apply handle_keeps_downloads | | exact H].
      now rewrite !item_materials_of_sales, handle_keeps_sales.
Qed.

Lemma reachable_sales_counted (s : database) : reachable s -> sales_counted s.
Proof.
  intros [rs ->].
  enough (H : well_formed (run rs empty_db)
              /\ sound (run rs empty_db) /\ sales_counted (run rs empty_db))
    by apply H.
  apply (run_invariant (fun x => well_formed x /\ sound x /\ sales_counted x)).
  - intros session r x (Hw & Hs & Hc). split; [now apply handle_well_formed|].
    split; [apply handle_sound; [apply Hw | exact Hs]|].
    apply handle_sales_counted; [apply Hw | exact Hs | exact Hc].
  - split; [apply empty_db_well_formed|]. split; [apply empty_db_sound|].
    constructor.
Qed.

(** X23. [downloads] counts sales.  In every store reached from the empty
    database the [downloads] column of a material is the number of order
    items that sold it: checkout is the only writer, one per item, and
    [sell] starts the counter of a new material where no item can refer to
    it. *)
Theorem downloads_column_counts_sales (s : database) (m : StudyMaterial.t) :
  reachable s ->
  In m (materials s) ->
  StudyMaterial.downloads m
  = Z.of_nat (List.length (sales_of s (StudyMaterial.id m))).
Proof.
  intros Hr Hm. apply reachable_sales_counted in Hr. unfold sales_counted in Hr.
  rewrite Forall_forall in Hr. now apply Hr.
Qed.

(** ** Accounts over a run *)

Lemma handle_keeps_accounts (session : option Z) (r : request) (s : database) :
  exists added,
    map user_account (users (fst (handle session r s)))
    = map user_account (users s) ++ added.
Proof.
  destruct r; unfold handle.
  all: try match goal with
         | |- context [login_required ?a ?b _] =>
             unfold login_required; destruct (load_user a b) as [cu|];
             [|exists []; now rewrite app_nil_r]
         end.
  all: try match goal with
         | |- context [register ?a ?b ?c ?d ?e ?f ?g ?h] =>
             destruct (register_inv a b c d e f g h)
               as [->|(name & mail & _ & _ & ->)];
             [exists []; now rewrite app_nil_r|];
             eexists; cbn [users with_users]; rewrite map_app; reflexivity
         | |- context [sell ?a ?b ?c ?d ?e] =>
             destruct (sell_inv a b c d e)
               as [->|(ti & de & p & filename & ext & ->)];
             exists []; rewrite app_nil_r; [reflexivity|];
             destruct (User.is_seller a); same_column
         | |- context [checkout ?a ?b ?c ?d ?e ?f] =>
             let H := fresh in
             destruct (checkout a b c d e f) as [s' r'] eqn:H;
             apply checkout_inv in H as [[-> _]|(_ & _ & _ & _ & ->)];
             exists []; rewrite app_nil_r; [reflexivity|];
             unfold checkout_result, delete_cart_rows, loop_result;
             cbn [fst users with_cart_items with_orders];
             rewrite map_map; apply map_ext;
             let x := fresh "x" in intros x; destruct x; reflexivity
         | |- context [add_review ?a ?b ?c ?d ?e] =>
             let H := fresh in
             destruct (add_review a b c d e) as [s' r'] eqn:H;
             apply add_review_inv in H
                 as [[-> _]|(m & rt & _ & _ & _ & _ & _ & _ & ->)];
             exists []; rewrite app_nil_r; reflexivity
         end.
  all: open_handlers; break_handler; exists []; rewrite app_nil_r; same_column.
Qed.

Lemma run_keeps_accounts (rs : list (option Z * request)) (s : database) :
  exists added,
    map user_account (users (run rs s)) = map user_account (users s) ++ added.
Proof.
  revert s. induction rs as [|[session r] rs IH]; intros s.
  - exists []. now rewrite app_nil_r.
  - cbn [run]. destruct (handle_keeps_accounts session r s) as [a1 H1].
    destruct (IH (fst (handle session r s))) as [a2 H2].
    exists (a1 ++ a2). now rewrite H2, H1, app_assoc.
Qed.

(** X24. Accounts are permanent.  No request deletes a user or changes a
    key, a user name, an e-mail address, a password hash or the administrator
    flag: whatever requests are served in between, a session that loads a user
    keeps loading a row with these columns unchanged. *)
Theorem accounts_are_permanent (rs : list (option Z * request)) (s : database)
  (session : option Z) (cu : User.t) :
  load_user session s = Some cu ->
  exists cu',
    load_user session (run rs s) = Some cu'
    /\ User.id cu' = User.id cu
    /\ User.username cu' = User.username cu
    /\ User.email cu' = User.email cu
    /\ User.password_hash cu' = User.password_hash cu
    /\ User.is_admin cu' = User.is_admin cu.
Proof.
  unfold load_user. destruct session as [uid|]; [|discriminate].
  intros Hcu. destruct (run_keeps_accounts rs s) as [added Hacc].
  destruct (find_column User.id user_account (users s) (users (run rs s)) added
              uid cu) as [cu' [Hcu' Hsame]];
    [unfold user_account; congruence | exact Hacc | exact Hcu |].
  exists cu'. split; [exact Hcu'|].
  unfold user_account in Hsame. injection Hsame as H1 H2 H3 H4 H5. auto.
Qed.

(** ** The scenario, property by property *)

(** Bob takes the notes out of his cart. *)
Lemma remove_from_cart_removes_witness :
  in_cart (fst (remove_from_cart bob 1 (carted 10))) 2 notes_listed = false.
Proof.
  assert (Hget : get_material (carted 10) 1 = Some notes_listed) by by_computation.
  exact (proj1 (remove_from_cart_removes bob 1 (carted 10) notes_listed Hget)).
Defined.

(** Bob puts the notes into his cart and takes them out again. *)
Lemma remove_from_cart_undoes_add_witness :
  remove_from_cart bob 1 (fst (add_to_cart bob 1 (listed 10)))
  = (listed 10, Redirect (Some (msg_removed_from_cart, cat_success)) to_cart).
Proof.
  assert (Hget : get_material (listed 10) 1 = Some notes_listed) by by_computation.
  assert (Hout : in_cart (listed 10) 2 notes_listed = false) by by_computation.
  refine (remove_from_cart_undoes_add bob 1 (listed 10) notes_listed Hget _ Hout).
  intros H. discriminate H.
Defined.

(** Bob marks the notes as a favourite. *)
Lemma toggle_favorite_flips_witness :
  contains (favorite_materials (fst (toggle_favorite bob 1 false (listed 10))) 2)
           notes_listed
  = true.
Proof.
  assert (Hget : get_material (listed 10) 1 = Some notes_listed) by by_computation.
  pose proof (toggle_favorite_flips bob 1 false false (listed 10) notes_listed Hget)
    as H.
  cbv zeta in H. destruct H as [H _]. etransitivity; [exact H | by_computation].
Defined.

(** Bob's cart after he added the notes. *)
Lemma add_to_cart_shows_on_cart_page_witness :
  api_cart_count (Some 2) (fst (handle (Some 2) (req_add_to_cart 1) (listed 10))) = 1
  /\ Permutation (cart (fst (handle (Some 2) (req_add_to_cart 1) (listed 10))) 2)
                 [notes_listed].
Proof.
  assert (Hcu : load_user (Some 2) (listed 10) = Some bob) by by_computation.
  assert (Hget : get_material (listed 10) 1 = Some notes_listed) by by_computation.
  assert (Hout : in_cart (listed 10) (User.id bob) notes_listed = false)
    by by_computation.
  assert (Hother : StudyMaterial.seller_id notes_listed <> User.id bob)
    by (intros H; discriminate H).
  pose proof (add_to_cart_shows_on_cart_page (Some 2) bob 1 (listed 10) notes_listed
                Hcu Hget Hother Hout) as H.
  cbv zeta in H. destruct H as (Hperm & _ & H & _).
  split; [etransitivity; [exact H | by_computation] | exact Hperm].
Defined.

(** Alice raises the price of the notes while they are in Bob's cart. *)
Lemma cart_follows_edits_witness :
  cart_items (fst (edit_material alice POST 1 (notes_form 12) (carted 10)))
  = cart_items (carted 10).
Proof.
  assert (Hrun : edit_material alice POST 1 (notes_form 12) (carted 10)
                 = (fst (edit_material alice POST 1 (notes_form 12) (carted 10)),
                    Redirect (Some (msg_material_updated, cat_success))
                             (to_material_detail 1)))
    by by_computation.
  destruct (cart_follows_edits alice 1 (notes_form 12) (carted 10) _ _ Hrun)
    as (ti & de & p & _ & _ & _ & H).
  exact H.
Defined.

(** The page of Alice once she has withdrawn the notes. *)
Lemma deleted_material_leaves_profile_witness :
  option_map snd (seller_profile 1 delisted) = Some [].
Proof.
  assert (Hrun : delete_material alice 1 (listed 10)
                 = (delisted,
                    Redirect (Some (msg_material_deleted, cat_success)) to_profile))
    by by_computation.
  destruct (deleted_material_leaves_profile alice 1 (listed 10) delisted to_profile
              Hrun) as [H _].
  rewrite (H 1). by_computation.
Defined.

(** Bob is shown the order of his second checkout. *)
Lemma placed_order_is_shown_witness :
  exists order,
    order_detail bob 2 (fst second_checkout) = order_shown order
    /\ Order.status order = completed.
Proof.
  assert (Hrun : checkout bob POST "cafe0123456789ab" 300 None (carted_again 10 5)
                 = (fst second_checkout, order_placed 2)) by by_computation.
  destruct (placed_order_is_shown bob POST "cafe0123456789ab" 300 None
              (carted_again 10 5) (fst second_checkout) 2 Hrun)
    as (order & H1 & _ & _ & H4 & _).
  exists order. split; assumption.
Defined.

(** Alice uploads [Notes.PDF]. *)
Lemma sell_lists_the_upload_witness :
  exists m,
    materials (fst (sell alice POST (notes_form 10)
                         (receive_upload (Some "Notes.PDF"%string) "0a1b") registered))
    = materials registered ++ [m]
    /\ StudyMaterial.file_path m = "0a1b.pdf"%string.
Proof.
  assert (Hcu : get_user registered (User.id alice) = Some alice) by by_computation.
  assert (Hrun : sell alice POST (notes_form 10)
                      (receive_upload (Some "Notes.PDF"%string) "0a1b") registered
                 = (fst (sell alice POST (notes_form 10)
                              (receive_upload (Some "Notes.PDF"%string) "0a1b")
                              registered),
                    Redirect (Some (msg_material_added, cat_success))
                             (to_material_detail 1)))
    by by_computation.
  destruct (sell_lists_the_upload alice (notes_form 10) (Some "Notes.PDF"%string)
              "0a1b" registered _ _ Hcu Hrun)
    as [[_ Hno]|(name & ti & de & p & m & Hfile & _ & _ & Hm & _ & Hmat & _)].
  - exfalso. now apply (Hno 1).
  - exists m. split; [exact Hmat|]. rewrite Hm. injection Hfile as <-.
    by_computation.
Defined.

(** The first user row after Alice listed her notes is hers. *)
Lemma accounts_stay_unique_witness :
  hd bob (users (listed 10)) = User.with_is_seller true alice.
Proof.
  apply (accounts_stay_unique (listed 10) _ _ (listed_reachable 10)).
  - vm_compute. left. reflexivity.
  - vm_compute. left. reflexivity.
  - left. by_computation.
Defined.

(** The notes in Bob's cart are not his. *)
Lemma own_material_never_bought_witness :
  StudyMaterial.seller_id notes_listed <> 2.
Proof.
  apply (proj1 (own_material_never_bought (carted 10) (carted_reachable 10))
               2 notes_listed).
  vm_compute. left. reflexivity.
Defined.

(** Bob tries to delete the notes of Alice. *)
Lemma only_owner_gets_through_witness :
  handle (Some 2) (req_delete_material 1) (listed 10)
  = (listed 10, Redirect (Some (msg_delete_forbidden, cat_error)) to_home).
Proof.
  assert (Hcu : load_user (Some 2) (listed 10) = Some bob) by by_computation.
  assert (Hget : get_material (listed 10) 1 = Some notes_listed) by by_computation.
  destruct (only_owner_gets_through (Some 2) (listed 10) bob (listed_reachable 10) Hcu)
    as [H _].
  apply (H 1 notes_listed POST (notes_form 1) Hget).
  intros E. discriminate E.
Defined.

(** The five stars of Bob. *)
Lemma ratings_within_range_witness :
  1 <= Review.rating (Review.mk 1 5 None 1 2 1) <= 5.
Proof.
  apply (proj1 (ratings_within_range reviewed reviewed_reachable)).
  vm_compute. left. reflexivity.
Defined.

(** The notes in Bob's second cart have a seller on record. *)
Lemma checkout_finds_every_seller_witness :
  checkout_post bob "cafe0123456789ab" 300 None (carted_again 10 5)
  <> inl AttributeError.
Proof.
  exact (proj2 (checkout_finds_every_seller bob "cafe0123456789ab" 300 None
                  (carted_again 10 5) (carted_again_reachable 10 5))).
Defined.

(** The notes lead to the page of Alice. *)
Lemma material_has_seller_page_witness :
  exists seller listing,
    seller_profile 1 (listed 10) = Some (seller, listing)
    /\ User.is_seller seller = true.
Proof.
  assert (Hin : In notes_listed (materials (listed 10)))
    by (vm_compute; left; reflexivity).
  destruct (material_has_seller_page (listed 10) notes_listed (listed_reachable 10) Hin)
    as (seller & listing & H1 & _ & H3 & _).
  exists seller, listing. split; assumption.
Defined.

(** Bob downloads the notes he bought. *)
Lemma download_counts_once_witness :
  download_total (fst (download_material bob 1 200 (bought 10))) = 1.
Proof.
  assert (Hnd : NoDup (map OrderItem.id (order_items (bought 10))))
    by (vm_compute; repeat constructor; intros []).
  assert (Hget : get_material (bought 10) 1 = Some notes_bought) by by_computation.
  destruct (download_counts_once bob 1 200 (bought 10) notes_bought Hnd Hget)
    as (_ & _ & _ & _ & _ & H).
  etransitivity; [exact H | by_computation].
Defined.

(** The one credit of Bob's second checkout. *)
Lemma every_sale_is_credited_once_witness :
  Permutation
    (flat_map (fun u => credits_of (cart (carted_again 10 5) 2) (User.id u))
              (users (carted_again 10 5)))
    (map (fun m => (StudyMaterial.price m * seller_share)%Q)
         (cart (carted_again 10 5) 2)).
Proof.
  assert (Hrun : checkout bob POST "cafe0123456789ab" 300 None (carted_again 10 5)
                 = (fst second_checkout, order_placed 2)) by by_computation.
  exact (proj2 (every_sale_is_credited_once bob POST "cafe0123456789ab" 300 None
                  (carted_again 10 5) (fst second_checkout) 2
                  (carted_again_reachable 10 5) Hrun)).
Defined.

(** The notes are not part of Bob's second checkout. *)
Lemma checkout_counts_each_sale_witness :
  option_map StudyMaterial.downloads (get_material (fst second_checkout) 1) = Some 1.
Proof.
  assert (Hnd : NoDup (cart_items (carted_again 10 5)))
    by (vm_compute; repeat constructor; intros []).
  assert (Hrun : checkout bob POST "cafe0123456789ab" 300 None (carted_again 10 5)
                 = (fst second_checkout, order_placed 2)) by by_computation.
  assert (Hget : get_material (carted_again 10 5) 1 = Some notes_bought)
    by by_computation.
  rewrite (checkout_counts_each_sale bob POST "cafe0123456789ab" 300 None
             (carted_again 10 5) (fst second_checkout) 2 1 notes_bought
             Hnd Hrun Hget).
  by_computation.
Defined.

(** Bob's order outlasts an edit of the notes. *)
Lemma placed_orders_are_final_witness :
  map item_sale
      (items (run [(Some 1, req_edit_material POST 1 (notes_form 99))] (bought 10)) 1)
  = map item_sale (items (bought 10) 1).
Proof.
  assert (Hin : In (hd (Order.mk 0 "" 0 pending None None 0) (orders (bought 10)))
                   (orders (bought 10)))
    by (vm_compute; left; reflexivity).
  exact (proj1 (proj2 (placed_orders_are_final
                         [(Some 1, req_edit_material POST 1 (notes_form 99))]
                         (bought 10) _ Hin))).
Defined.

(** Bob still gets the notes after Alice has withdrawn them. *)
Lemma access_is_never_revoked_witness :
  exists name,
    snd (download_material bob 1 200
           (run [(Some 1, req_delete_material 1)] (bought 10)))
    = SendFile "0a1b.pdf" name.
Proof.
  assert (Hget : get_material (bought 10) 1 = Some notes_bought) by by_computation.
  assert (Hacc : has_access (bought 10) bob notes_bought = true) by by_computation.
  destruct (access_is_never_revoked [(Some 1, req_delete_material 1)] (bought 10)
              bob 1 200 notes_bought Hget Hacc)
    as (m' & _ & _ & _ & _ & H).
  exists (download_name m'). exact H.
Defined.

(** Alice registers and logs in. *)
Lemma registered_account_works_witness :
  exists u,
    load_user (Some 1)
      (fst (register None POST (Some "alice"%string) (Some "alice@example.org"%string)
                     (Some "wonderland"%string) (Some "wonderland"%string)
                     "pbkdf2:a" empty_db))
    = Some u
    /\ User.username u = "alice"%string.
Proof.
  assert (Hrun : register None POST (Some "alice"%string)
                          (Some "alice@example.org"%string)
                          (Some "wonderland"%string) (Some "wonderland"%string)
                          "pbkdf2:a" empty_db
                 = (fst (register None POST (Some "alice"%string)
                                  (Some "alice@example.org"%string)
                                  (Some "wonderland"%string) (Some "wonderland"%string)
                                  "pbkdf2:a" empty_db),
                    Redirect (Some (msg_registered, cat_success)) to_login))
    by by_computation.
  destruct (registered_account_works _ _ _ _ _ _ _ Hrun)
    as (name & mail & u & Hname & _ & Hu & _ & _ & Hload & _).
  exists u. split.
  - rewrite <- Hload. f_equal. f_equal. rewrite Hu. reflexivity.
  - rewrite Hu. cbn [User.username]. now injection Hname.
Defined.

(** Two visits of the page of the notes, with Bob's cart in between. *)
Lemma views_count_detail_requests_witness :
  exists m',
    get_material (run [(None, req_material_detail 1); (Some 2, req_add_to_cart 1);
                       (Some 2, req_material_detail 1)] (listed 10)) 1
    = Some m'
    /\ StudyMaterial.views m' = 2.
Proof.
  assert (Hget : get_material (listed 10) 1 = Some notes_listed) by by_computation.
  destruct (views_count_detail_requests
              [(None, req_material_detail 1); (Some 2, req_add_to_cart 1);
               (Some 2, req_material_detail 1)] (listed 10) 1 notes_listed Hget)
    as (m' & H1 & H2).
  exists m'. split; [exact H1|]. etransitivity; [exact H2 | by_computation].
Defined.

(** The notes were sold once. *)
Lemma downloads_column_counts_sales_witness :
  StudyMaterial.downloads notes_bought
  = Z.of_nat (List.length (sales_of (bought 10) 1)).
Proof.
  apply (downloads_column_counts_sales (bought 10) notes_bought (bought_reachable 10)).
  vm_compute. left. reflexivity.
Defined.

(** The session of Alice over her first upload. *)
Lemma accounts_are_permanent_witness :
  exists cu',
    load_user (Some 1) (listed 10) = Some cu'
    /\ User.password_hash cu' = "pbkdf2:a"%string.
Proof.
  assert (Hcu : load_user (Some 1) registered = Some alice) by by_computation.
  destruct (accounts_are_permanent
              [(Some 1, req_sell POST (notes_form 10) (stored "0a1b.pdf" "pdf"))]
              registered (Some 1) alice Hcu)
    as (cu' & H1 & _ & _ & _ & H5 & _).
  exists cu'. split; [exact H1 | exact H5].
Defined.
